(** * ChargeStatsReporter: charge-session and voltage-tier telemetry

    A shallow embedding of [pixelstats/ChargeStatsReporter.cpp] and the
    properties of its parsing, merging and throttling logic.

    Layout:
    - [Scanf]: the fragment of C's [sscanf] the reporter relies on;
    - [Lines]: [std::getline] over an in-memory stream;
    - the atoms, the environment and the mutable world of the reporter;
    - the member functions, in the order of the source;
    - [Sample]: an environment in which the reporter can be run;
    - the vocabulary in which the properties are stated;
    - the properties. *)

From Stdlib Require Import ZArith Lia Ascii String List Bool.
From stdpp Require Import base tactics option list gmap strings.

Local Open Scope string_scope.
Local Open Scope list_scope.
Local Open Scope Z_scope.

(** ** The [sscanf] fragment

    Only the directives that occur in the reporter's format strings are
    modelled: white space, ordinary characters, [%d], [%x] and [%f].  The
    behaviour follows the C standard as implemented by the platform's C
    library (a BSD-derived scanner): a white-space directive skips any amount
    of input white space, a conversion skips leading white space itself, and
    the call returns the number of conversions assigned, or [EOF] (-1) when
    the input ends before the first conversion.

    Outside the model: conversions longer than the scanner's internal buffer
    (512 characters), and the [inf], [nan] and hexadecimal spellings accepted
    by [%f]. *)
Module Scanf.

Inductive directive : Type :=
| DSpace                (* white space in the format *)
| DChar (c : ascii)     (* an ordinary character *)
| DInt                  (* %d *)
| DHex                  (* %x *)
| DFloat.               (* %f *)

(** What a conversion stores.  A [%d] or [%x] target is an [int32_t]; the
    target of [%f] is a [float], kept here as the decimal text that was
    matched (binary32 rounding is not modelled). *)
Inductive scanval : Type :=
| VInt (z : Z)
| VFloat (text : string).

Definition code (c : ascii) : Z := Z.of_N (N_of_ascii c).

(** [isspace] in the C locale. *)
Definition isspace (c : ascii) : bool :=
  (code c =? 32) || ((9 <=? code c) && (code c <=? 13)).

Definition digit (c : ascii) : option Z :=
  if (48 <=? code c) && (code c <=? 57) then Some (code c - 48) else None.

Definition xdigit (c : ascii) : option Z :=
  if (48 <=? code c) && (code c <=? 57) then Some (code c - 48)
  else if (97 <=? code c) && (code c <=? 102) then Some (code c - 87)
  else if (65 <=? code c) && (code c <=? 70) then Some (code c - 55)
  else None.

(** The argument of [sscanf] is [s.c_str()]: the text up to the first NUL. *)
Fixpoint c_str (s : string) : string :=
  match s with
  | EmptyString => EmptyString
  | String c r => if code c =? 0 then EmptyString else String c (c_str r)
  end.

Fixpoint skip_space (s : string) : string :=
  match s with
  | String c r => if isspace c then skip_space r else s
  | EmptyString => s
  end.

(** Reads the longest run of digits of the given kind: the accumulated
    value in the given base, how many digits were read, and the rest. *)
Fixpoint digits (dv : ascii -> option Z) (base : Z) (s : string) (acc : Z) (n : nat)
  : Z * nat * string :=
  match s with
  | String c r =>
      match dv c with
      | Some d => digits dv base r (acc * base + d) (S n)
      | None => (acc, n, s)
      end
  | EmptyString => (acc, n, s)
  end.

(** The text of the longest run of decimal digits, and the rest. *)
Fixpoint digit_run (s : string) : string * string :=
  match s with
  | String c r =>
      match digit c with
      | Some _ => let '(d, r') := digit_run r in (String c d, r')
      | None => (EmptyString, s)
      end
  | EmptyString => (EmptyString, s)
  end.

Definition sign (s : string) : bool * string * string :=
  match s with
  | String "-" r => (true, "-", r)
  | String "+" r => (false, "+", r)
  | _ => (false, "", s)
  end.

(** Storing through an [int*]: the value is reduced to 32 bits, two's
    complement. *)
Definition wrap32 (z : Z) : Z := (z + 2^31) mod 2^32 - 2^31.

(** [strtoimax] saturates at the bounds of [intmax_t]. *)
Definition clamp_imax (z : Z) : Z := Z.max (- 2^63) (Z.min (2^63 - 1) z).

(** [strtoumax] negates in 64 bits and saturates the magnitude. *)
Definition clamp_umax (neg : bool) (m : Z) : Z :=
  if 2^64 - 1 <? m then 2^64 - 1 else if neg then - m else m.

Inductive conv_result : Type :=
| InputFailure
| MatchFailure
| Converted (v : scanval) (rest : string).

Definition conv_d (s : string) : conv_result :=
  match skip_space s with
  | EmptyString => InputFailure
  | s1 =>
      let '(neg, _, s2) := sign s1 in
      let '(m, n, rest) := digits digit 10 s2 0 0%nat in
      match n with
      | O => MatchFailure
      | _ => Converted (VInt (wrap32 (clamp_imax (if neg then - m else m)))) rest
      end
  end.

(** After the optional sign, [0x] or [0X] is a prefix when a hexadecimal
    digit follows; otherwise the [0] alone is the number and the [x] stays
    in the input. *)
Definition hex_body (s : string) : string :=
  match s with
  | String "0" (String x (String h r)) =>
      if ((code x =? 120) || (code x =? 88)) && bool_decide (is_Some (xdigit h))
      then String h r else s
  | _ => s
  end.

Definition conv_x (s : string) : conv_result :=
  match skip_space s with
  | EmptyString => InputFailure
  | s1 =>
      let '(neg, _, s2) := sign s1 in
      let '(m, n, rest) := digits xdigit 16 (hex_body s2) 0 0%nat in
      match n with
      | O => MatchFailure
      | _ => Converted (VInt (wrap32 (clamp_umax neg m))) rest
      end
  end.

(** The exponent part is taken only when it is complete. *)
Definition exponent (s : string) : string * string :=
  match s with
  | String e r =>
      if (code e =? 101) || (code e =? 69) then
        let '(_, sg, r1) := sign r in
        let '(d, r2) := digit_run r1 in
        match d with
        | EmptyString => (EmptyString, s)
        | _ => (String e (sg +:+ d), r2)
        end
      else (EmptyString, s)
  | EmptyString => (EmptyString, s)
  end.

Definition conv_f (s : string) : conv_result :=
  match skip_space s with
  | EmptyString => InputFailure
  | s1 =>
      let '(_, sg, s2) := sign s1 in
      let '(ip, s3) := digit_run s2 in
      let '(fp, s4) :=
        match s3 with
        | String "." r => let '(d, r') := digit_run r in (String "." d, r')
        | _ => (EmptyString, s3)
        end in
      match ip, fp with
      | EmptyString, EmptyString => MatchFailure
      | EmptyString, String _ EmptyString => MatchFailure
      | _, _ =>
          let '(ex, s5) := exponent s4 in
          Converted (VFloat (sg +:+ ip +:+ fp +:+ ex)) s5
      end
  end.

Definition conv (d : directive) (s : string) : conv_result :=
  match d with
  | DInt => conv_d s
  | DHex => conv_x s
  | DFloat => conv_f s
  | _ => MatchFailure
  end.

Definition EOF : Z := -1.

Definition assigned (acc : list scanval) : Z := Z.of_nat (length acc).

Definition input_failure (acc : list scanval) : Z * list scanval :=
  (match acc with [] => EOF | _ => assigned acc end, acc).

(** Runs the directives over the input.  [acc] holds the values assigned
    so far, in the order of the pointer arguments; they stay assigned when
    a later directive fails. *)
Fixpoint scan (fmt : list directive) (s : string) (acc : list scanval)
  : Z * list scanval :=
  match fmt with
  | [] => (assigned acc, acc)
  | DSpace :: f => scan f (skip_space s) acc
  | DChar c :: f =>
      match s with
      | EmptyString => input_failure acc
      | String c' r => if Ascii.eqb c c' then scan f r acc else (assigned acc, acc)
      end
  | d :: f =>
      match conv d s with
      | InputFailure => input_failure acc
      | MatchFailure => (assigned acc, acc)
      | Converted v r => scan f r (acc ++ [v])
      end
  end.

(** Reads a format string into its directives. *)
Fixpoint parse_format (fmt : string) : list directive :=
  match fmt with
  | EmptyString => []
  | String "%" (String "d" r) => DInt :: parse_format r
  | String "%" (String "x" r) => DHex :: parse_format r
  | String "%" (String "f" r) => DFloat :: parse_format r
  | String c r => (if isspace c then DSpace else DChar c) :: parse_format r
  end.

(** [sscanf(str, fmt, ...)]: the return value and the values assigned. *)
Definition sscanf (str fmt : string) : Z * list scanval :=
  scan (parse_format fmt) str [].

Definition ints (vs : list scanval) : list Z :=
  omap (fun v => match v with VInt z => Some z | VFloat _ => None end) vs.

End Scanf.

Import Scanf.

(** ** [std::getline] over a string stream

    The stream is the text not yet consumed.  [getline] fails when nothing is
    left; otherwise it yields the characters up to the next newline and drops
    that newline. *)
Module Lines.

Definition newline : ascii := "010"%char.

Fixpoint until_newline (s : string) : string * string :=
  match s with
  | EmptyString => (EmptyString, EmptyString)
  | String c r =>
      if Ascii.eqb c newline then (EmptyString, r)
      else let '(l, r') := until_newline r in (String c l, r')
  end.

Definition getline (ss : string) : option (string * string) :=
  match ss with
  | EmptyString => None
  | _ => Some (until_newline ss)
  end.

(** The lines that [while (std::getline(ss, line))] visits, in order. *)
Fixpoint lines (ss : string) : list string :=
  match ss with
  | EmptyString => []
  | String c r =>
      if Ascii.eqb c newline then EmptyString :: lines r
      else match lines r with
           | [] => [String c EmptyString]
           | l :: ls => String c l :: ls
           end
  end.

(** The first line of a stream whose [getline] result is not checked: the
    target string keeps its initial empty value on failure. *)
Definition first_line (ss : string) : string :=
  match getline ss with
  | Some (l, _) => l
  | None => EmptyString
  end.

End Lines.

Import Lines.

(** ** Atoms *)

(** The alternatives of the [VendorAtomValue] union that the reporter sets.
    The float carries the scanned text. *)
Inductive VendorAtomValue : Type :=
| intValue (v : Z)
| floatValue (v : string).

Inductive AtomId : Type := kChargeStats | kVoltageTierStats.

(** [values] is the vector handed to the stats service.  An element is [None]
    while it still is the default-constructed value of the vector's
    constructor, and [Some v] once the reporter has assigned [v] to it. *)
Record VendorAtom : Type := {
  reverseDomainName : string;
  atomId : AtomId;
  values : list (option VendorAtomValue);
}.

(** Field names of the two protobuf messages, as the source lists them. *)
Module ChargeStats.
Inductive field : Type :=
| kAdapterTypeFieldNumber
| kAdapterVoltageFieldNumber
| kAdapterAmperageFieldNumber
| kSsocInFieldNumber
| kVoltageInFieldNumber
| kSsocOutFieldNumber
| kVoltageOutFieldNumber
| kChargeCapacityFieldNumber
| kCsiAggregateStatusFieldNumber
| kCsiAggregateTypeFieldNumber
| kAdapterCapabilities0FieldNumber
| kAdapterCapabilities1FieldNumber
| kAdapterCapabilities2FieldNumber
| kAdapterCapabilities3FieldNumber
| kAdapterCapabilities4FieldNumber
| kReceiverState0FieldNumber
| kReceiverState1FieldNumber.
End ChargeStats.

Module VoltageTierStats.
Inductive field : Type :=
| kVoltageTierFieldNumber
| kSocInFieldNumber
| kCcInFieldNumber
| kTempInFieldNumber
| kTimeFastSecsFieldNumber
| kTimeTaperSecsFieldNumber
| kTimeOtherSecsFieldNumber
| kTempMinFieldNumber
| kTempAvgFieldNumber
| kTempMaxFieldNumber
| kIbattMinFieldNumber
| kIbattAvgFieldNumber
| kIbattMaxFieldNumber
| kIclMinFieldNumber
| kIclAvgFieldNumber
| kIclMaxFieldNumber
| kMinAdapterPowerOutFieldNumber
| kTimeAvgAdapterPowerOutFieldNumber
| kMaxAdapterPowerOutFieldNumber
| kChargingOperatingPointFieldNumber.
End VoltageTierStats.

(** ** Logging *)

Inductive Priority : Type := DEBUG | WARN | ERROR.

Inductive LogArg : Type := AStr (s : string) | AInt (z : Z).

(** One [ALOGx(fmt, args...)] call.  The [strerror(errno)] argument of the
    file messages is left out. *)
Record LogMsg : Type := { prio : Priority; fmt : string; args : list LogArg }.

Definition ALOGD_msg (f : string) (a : list LogArg) : LogMsg :=
  {| prio := DEBUG; fmt := f; args := a |}.
Definition ALOGW_msg (f : string) (a : list LogArg) : LogMsg :=
  {| prio := WARN; fmt := f; args := a |}.
Definition ALOGE_msg (f : string) (a : list LogArg) : LogMsg :=
  {| prio := ERROR; fmt := f; args := a |}.

(** ** The wireless helper object

    The members of [wireless_charge_stats_] that the reporter reads or
    writes. *)
Record WirelessChargeStats : Type := {
  tier_soc_ : Z;
  pout_min_ : Z;
  pout_avg_ : Z;
  pout_max_ : Z;
  of_freq_ : Z;
}.

Definition reset_tier_soc (ws : WirelessChargeStats) : WirelessChargeStats :=
  {| tier_soc_ := 0; pout_min_ := pout_min_ ws; pout_avg_ := pout_avg_ ws;
     pout_max_ := pout_max_ ws; of_freq_ := of_freq_ ws |}.

(** ** The environment

    What the translation unit takes from its headers and collaborators: the
    generated protobuf constants, the helper objects for the wireless and PCA
    side channels, the paths held by the reporter, and the outcomes of the
    calls that can fail outside the reporter's control. *)
Record Env : Type := {
  kVendorAtomOffset : Z;
  ChargeStatsField : ChargeStats.field -> Z;
  VoltageTierStatsField : VoltageTierStats.field -> Z;
  ADAPTER_TYPE_USB_PD_PPS : Z;
  (* wireless_charge_stats_ *)
  TranslateSysModeToAtomValue : Z -> Z;
  CalculateWirelessChargeStats : Z -> string -> WirelessChargeStats -> WirelessChargeStats;
  CheckWirelessContentsAndAck : gmap string string -> bool * string * gmap string string;
  (* pca_charge_stats_ *)
  CheckPcaContentsAndAck : gmap string string -> bool * string * gmap string string;
  (* static_cast<int>(float) on a scanned float *)
  static_cast_int : string -> Z;
  kThermalChargeMetricsPath : string;
  kGChargerMetricsPath : string;
  kGDualBattMetricsPath : string;
  (* whether WriteStringToFile succeeds on a path *)
  writable : string -> bool;
  (* whether the stats service accepts an atom *)
  reportVendorAtom_ok : VendorAtom -> bool;
}.

(** ** The world

    The state a drain reads and changes: the text sources by path (a path
    that is not mapped cannot be read), the boot clock, the reporter's
    members, and the atoms handed to the stats service (oldest first). *)
Record World : Type := {
  files : gmap string string;
  boottime_secs : Z;
  log_event_time_secs_ : Z;
  wireless_charge_stats_ : WirelessChargeStats;
  reported : list VendorAtom;
}.

Definition set_files (f : gmap string string) (w : World) : World :=
  {| files := f; boottime_secs := boottime_secs w;
     log_event_time_secs_ := log_event_time_secs_ w;
     wireless_charge_stats_ := wireless_charge_stats_ w;
     reported := reported w |}.

Definition set_boottime (t : Z) (w : World) : World :=
  {| files := files w; boottime_secs := t;
     log_event_time_secs_ := log_event_time_secs_ w;
     wireless_charge_stats_ := wireless_charge_stats_ w;
     reported := reported w |}.

Definition set_log_event_time (t : Z) (w : World) : World :=
  {| files := files w; boottime_secs := boottime_secs w;
     log_event_time_secs_ := t;
     wireless_charge_stats_ := wireless_charge_stats_ w;
     reported := reported w |}.

Definition set_wireless (ws : WirelessChargeStats) (w : World) : World :=
  {| files := files w; boottime_secs := boottime_secs w;
     log_event_time_secs_ := log_event_time_secs_ w;
     wireless_charge_stats_ := ws;
     reported := reported w |}.

Definition add_reported (a : list VendorAtom) (w : World) : World :=
  {| files := files w; boottime_secs := boottime_secs w;
     log_event_time_secs_ := log_event_time_secs_ w;
     wireless_charge_stats_ := wireless_charge_stats_ w;
     reported := reported w ++ a |}.

(** ** The monad of the reporter

    A computation reads and changes the world and writes to the log; the
    log is write-only, so nothing a computation does depends on it. *)

Definition M (A : Type) : Type := World -> A * World * list LogMsg.

Definition ret {A} (a : A) : M A := fun w => (a, w, []).

Definition bind {A B} (m : M A) (k : A -> M B) : M B :=
  fun w =>
    let '(a, w1, l1) := m w in
    let '(b, w2, l2) := k a w1 in
    (b, w2, l1 ++ l2).

Notation "'do' x <- m ; k" := (bind m (fun x => k))
  (at level 10, x name, m at level 100, k at level 200).
Notation "'do' ' p <- m ; k" := (bind m (fun x => let 'p := x in k))
  (at level 10, p pattern, m at level 100, k at level 200).
Notation "'run' m ; k" := (bind m (fun _ => k))
  (at level 10, m at level 100, k at level 200).

Definition gets {A} (f : World -> A) : M A := fun w => (f w, w, []).
Definition modify (f : World -> World) : M unit := fun w => (tt, f w, []).

(** The value, the world and the log of a computation run from [w]. *)
Definition val {A} (m : M A) (w : World) : A := fst (fst (m w)).
Definition exec {A} (m : M A) (w : World) : World := snd (fst (m w)).
Definition logged {A} (m : M A) (w : World) : list LogMsg := snd (m w).

Definition ALOG (ms : list LogMsg) : M unit := fun w => (tt, w, ms).
Definition ALOGD (f : string) (a : list LogArg) : M unit := ALOG [ALOGD_msg f a].
Definition ALOGW (f : string) (a : list LogArg) : M unit := ALOG [ALOGW_msg f a].
Definition ALOGE (f : string) (a : list LogArg) : M unit := ALOG [ALOGE_msg f a].

(** The body of a loop run once per element, in order. *)
Fixpoint for_each {A} (body : A -> M unit) (l : list A) : M unit :=
  match l with
  | [] => ret tt
  | x :: r => run body x; for_each body r
  end.

(** ** The reporter *)

Definition DURATION_FILTER_SECS : Z := 15.
Definition CHG_STATS_FMT0 : string := "%d,%d,%d, %d,%d,%d,%d".
Definition CHG_STATS_FMT1 : string := "%d,%d,%d, %d,%d,%d,%d %d". (* AACR *)
Definition CHG_STATS_FMT2 : string := "%d,%d,%d, %d,%d,%d,%d %d %d,%d". (* AACR + CSI *)

(** Which of the three summary formats a line was read in. *)
Inductive summary_format : Type := FMT2_CSI | FMT1_AACR | FMT0_base.

(** [sscanf] with consecutive [int] targets [a[base]], [a[base+1]], ...: the
    values assigned, in order, land in the array. *)
Fixpoint store_at (base : nat) (vs : list Z) (a : list Z) : list Z :=
  match vs with
  | [] => a
  | v :: r => store_at (S base) r (<[base := v]> a)
  end.

(** The [float] target of a scan: the value assigned to it, if any. *)
Definition float_of (vs : list scanval) : string :=
  default EmptyString
    (head (omap (fun v => match v with VFloat t => Some t | VInt _ => None end) vs)).

(** [values[idx] = val].  The source indexes the vector unchecked; an index
    outside it has no defined behaviour and leaves the model's vector as it
    is. *)
Definition vset (idx : Z) (val : VendorAtomValue)
    (values : list (option VendorAtomValue)) : list (option VendorAtomValue) :=
  if idx <? 0 then values else <[Z.to_nat idx := Some val]> values.

(** The locals of [ReportChargeStats] that the parsing blocks update. *)
Record chg_locals : Type := {
  tmp : list Z;
  fields_size : Z;
  pca_ac : list Z;
  pca_rs : list Z;
}.

Definition with_tmp (t : list Z) (l : chg_locals) : chg_locals :=
  {| tmp := t; fields_size := fields_size l; pca_ac := pca_ac l; pca_rs := pca_rs l |}.
Definition with_fields_size (n : Z) (l : chg_locals) : chg_locals :=
  {| tmp := tmp l; fields_size := n; pca_ac := pca_ac l; pca_rs := pca_rs l |}.
Definition with_pca (vs : list Z) (l : chg_locals) : chg_locals :=
  {| tmp := tmp l; fields_size := fields_size l;
     pca_ac := store_at 0 (take 2 vs) (pca_ac l);
     pca_rs := store_at 0 (drop 2 vs) (pca_rs l) |}.

Section Reporter.

Context (E : Env).

(** *** External calls *)

Definition ReadFileToString (path : string) : M (option string) :=
  gets (fun w => files w !! path).

Definition WriteStringToFile (content path : string) : M bool :=
  if writable E path then
    run modify (fun w => set_files (<[path := content]> (files w)) w);
    ret true
  else ret false.

(** The call reaches the stats service also when the service then answers
    with an error. *)
Definition reportVendorAtom (event : VendorAtom) : M bool :=
  run modify (add_reported [event]);
  ret (reportVendorAtom_ok E event).

Definition getTimeSecs : M Z := gets boottime_secs.

(** *** ReportChargeStats *)

Definition charge_stats_fields : list Z :=
  map (ChargeStatsField E)
    [ChargeStats.kAdapterTypeFieldNumber;
     ChargeStats.kAdapterVoltageFieldNumber;
     ChargeStats.kAdapterAmperageFieldNumber;
     ChargeStats.kSsocInFieldNumber;
     ChargeStats.kVoltageInFieldNumber;
     ChargeStats.kSsocOutFieldNumber;
     ChargeStats.kVoltageOutFieldNumber;
     ChargeStats.kChargeCapacityFieldNumber;
     ChargeStats.kCsiAggregateStatusFieldNumber;
     ChargeStats.kCsiAggregateTypeFieldNumber;
     ChargeStats.kAdapterCapabilities0FieldNumber;
     ChargeStats.kAdapterCapabilities1FieldNumber;
     ChargeStats.kAdapterCapabilities2FieldNumber;
     ChargeStats.kAdapterCapabilities3FieldNumber;
     ChargeStats.kAdapterCapabilities4FieldNumber;
     ChargeStats.kReceiverState0FieldNumber;
     ChargeStats.kReceiverState1FieldNumber].

Definition chg_fields_size : Z := Z.of_nat (length charge_stats_fields).
Definition chg_wlc_fields_size : Z := 7.

Definition chg_init : chg_locals :=
  {| tmp := replicate (Z.to_nat chg_fields_size) 0;
     fields_size := chg_fields_size - chg_wlc_fields_size;
     pca_ac := replicate 2 0;
     pca_rs := replicate 5 0 |}.

(** Lines 87-104: the chain of three scans.  Every scan writes what it
    assigns into [tmp], also when its count is not the one tested. *)
Definition scan_summary (line : string) (t : list Z)
  : option summary_format * list Z :=
  let '(n2, v2) := sscanf (c_str line) CHG_STATS_FMT2 in
  let t := store_at 0 (ints v2) t in
  if n2 =? 10 then (Some FMT2_CSI, t)
  else
    let '(n1, v1) := sscanf (c_str line) CHG_STATS_FMT1 in
    let t := store_at 0 (ints v1) t in
    if n1 =? 8 then (Some FMT1_AACR, t)
    else
      let '(n0, v0) := sscanf (c_str line) CHG_STATS_FMT0 in
      let t := store_at 0 (ints v0) t in
      if negb (n0 =? 7) then (None, t) else (Some FMT0_base, t).

(** Lines 106-120: the wireless adapter-type and capability lines. *)
Definition wlc_block (wline_at wline_ac : string) (l : chg_locals)
  : list LogMsg * chg_locals :=
  if negb (bool_decide (wline_at = EmptyString)) then
    let '(n, v) := sscanf (c_str wline_at) "A:%d" in
    let ssoc_tmp := default 0 (head (ints v)) in
    if negb (n =? 1) then
      ([ALOGD_msg "wlc: processing %s" [AStr wline_at];
        ALOGE_msg "Couldn't process %s" [AStr wline_at]], l)
    else
      let l := with_tmp (<[0%nat := TranslateSysModeToAtomValue E ssoc_tmp]> (tmp l)) l in
      let '(n, v) := sscanf (c_str wline_ac) "D:%x,%x,%x,%x,%x, %x,%x" in
      let l := with_tmp (store_at 10 (ints v) (tmp l)) l in
      if negb (n =? 7) then
        ([ALOGD_msg "wlc: processing %s" [AStr wline_at];
          ALOGD_msg "wlc: processing %s" [AStr wline_ac];
          ALOGE_msg "Couldn't process %s" [AStr wline_ac]], l)
      else
        ([ALOGD_msg "wlc: processing %s" [AStr wline_at];
          ALOGD_msg "wlc: processing %s" [AStr wline_ac]],
         with_fields_size chg_fields_size l) (* include wlc stats *)
  else ([], l).

(** Lines 122-141: the PCA line. *)
Definition pca_block (wline_at pca_line : string) (l : chg_locals)
  : list LogMsg * chg_locals :=
  if negb (bool_decide (pca_line = EmptyString)) then
    let '(n, v) := sscanf (c_str pca_line) "D:%x,%x %x,%x,%x,%x,%x" in
    let l := with_pca (ints v) l in
    if negb (n =? 7) then
      ([ALOGD_msg "pca: processing %s" [AStr pca_line];
        ALOGE_msg "Couldn't process %s" [AStr pca_line]], l)
    else
      let l := with_fields_size chg_fields_size l in (* include pca stats *)
      let ac := pca_ac l in
      let rs := pca_rs l in
      let t := <[12%nat := rs !!! 2%nat]> (tmp l) in
      let t := <[13%nat := rs !!! 3%nat]> t in
      let t := <[14%nat := rs !!! 4%nat]> t in
      let t := <[16%nat := rs !!! 1%nat]> t in
      if bool_decide (wline_at = EmptyString) then
        (* force adapter type to PPS when pca log is available, but not wlc *)
        let t := <[0%nat := ADAPTER_TYPE_USB_PD_PPS E]> t in
        let t := <[10%nat := ac !!! 0%nat]> t in
        let t := <[11%nat := ac !!! 1%nat]> t in
        let t := <[15%nat := rs !!! 0%nat]> t in
        ([ALOGD_msg "pca: processing %s" [AStr pca_line]], with_tmp t l)
      else ([ALOGD_msg "pca: processing %s" [AStr pca_line]], with_tmp t l)
  else ([], l).

(** Lines 145-155: the loop over the lines of the generic-charger file,
    left at the first line that scans as seven fields. *)
Fixpoint pdo_loop (pdo_lines : list string) (l : chg_locals)
  : list LogMsg * chg_locals :=
  match pdo_lines with
  | [] => ([], l)
  | pdo_line :: rest =>
      let '(n, v) := sscanf (c_str pdo_line) "D:%x,%x,%x,%x,%x,%x,%x" in
      let l := with_pca (ints v) l in
      if negb (n =? 7) then pdo_loop rest l (* continue *)
      else
        let ac := pca_ac l in
        let rs := pca_rs l in
        let t := <[15%nat := ac !!! 1%nat]> (tmp l) in (* APDO *)
        let t := <[16%nat := rs !!! 4%nat]> t in (* PDO *)
        ([ALOGD_msg "processed %s, apdo:%d, pdo:%d"
            [AStr pdo_line; AInt (ac !!! 1%nat); AInt (rs !!! 4%nat)]],
         with_tmp t l) (* break *)
  end.

(** Lines 143-156. *)
Definition gcharger_block (file : option string) (l : chg_locals)
  : list LogMsg * chg_locals :=
  match file with
  | Some file_contents => pdo_loop (lines file_contents) l
  | None => ([], l)
  end.

(** Lines 158-161: the first [fields_size] entries of [tmp] go to the
    vector, each at its field number less the offset. *)
Definition chg_values (l : chg_locals) : list (option VendorAtomValue) :=
  foldl (fun values i =>
           vset (charge_stats_fields !!! i - kVendorAtomOffset E)
                (intValue (tmp l !!! i)) values)
        (replicate (Z.to_nat chg_fields_size) None)
        (seq 0 (Z.to_nat (fields_size l))).

(** Lines 87-161 without the file read: the locals when the loop that
    fills the vector is reached, or [None] when the summary line is given
    up; and the messages logged on the way. *)
Definition assemble (gcharger : option string)
    (line wline_at wline_ac pca_line : string) : list LogMsg * option chg_locals :=
  let '(f, t) := scan_summary line (tmp chg_init) in
  match f with
  | None => ([ALOGD_msg "processing %s" [AStr line];
              ALOGE_msg "Couldn't process %s" [AStr line]], None)
  | Some _ =>
      let l := with_tmp t chg_init in
      let '(m1, l) := wlc_block wline_at wline_ac l in
      let '(m2, l) := pca_block wline_at pca_line l in
      let '(m3, l) := gcharger_block gcharger l in
      (ALOGD_msg "processing %s" [AStr line] :: m1 ++ m2 ++ m3, Some l)
  end.

(** The whole function.  The source reads the generic-charger file at line
    143; a read changes nothing, so the model reads it on entry and hands
    the result to [assemble]. *)
Definition ReportChargeStats (line wline_at wline_ac pca_line : string) : M unit :=
  do file <- ReadFileToString (kGChargerMetricsPath E);
  let '(msgs, r) := assemble file line wline_at wline_ac pca_line in
  run ALOG msgs;
  match r with
  | None => ret tt
  | Some l =>
      let event := {| reverseDomainName := "";
                      atomId := kChargeStats;
                      values := chg_values l |} in
      do ok <- reportVendorAtom event;
      if negb ok then ALOGE "Unable to report ChargeStats to Stats service" []
      else ret tt
  end.

(** *** ReportVoltageTierStats *)

Definition voltage_tier_stats_fields : list Z :=
  map (VoltageTierStatsField E)
    [VoltageTierStats.kVoltageTierFieldNumber;
     VoltageTierStats.kSocInFieldNumber; (* retrieved via ssoc_tmp *)
     VoltageTierStats.kCcInFieldNumber;
     VoltageTierStats.kTempInFieldNumber;
     VoltageTierStats.kTimeFastSecsFieldNumber;
     VoltageTierStats.kTimeTaperSecsFieldNumber;
     VoltageTierStats.kTimeOtherSecsFieldNumber;
     VoltageTierStats.kTempMinFieldNumber;
     VoltageTierStats.kTempAvgFieldNumber;
     VoltageTierStats.kTempMaxFieldNumber;
     VoltageTierStats.kIbattMinFieldNumber;
     VoltageTierStats.kIbattAvgFieldNumber;
     VoltageTierStats.kIbattMaxFieldNumber;
     VoltageTierStats.kIclMinFieldNumber;
     VoltageTierStats.kIclAvgFieldNumber;
     VoltageTierStats.kIclMaxFieldNumber;
     VoltageTierStats.kMinAdapterPowerOutFieldNumber;
     VoltageTierStats.kTimeAvgAdapterPowerOutFieldNumber;
     VoltageTierStats.kMaxAdapterPowerOutFieldNumber;
     VoltageTierStats.kChargingOperatingPointFieldNumber].

Definition vtier_fields_size : Z := Z.of_nat (length voltage_tier_stats_fields).
Definition vtier_wlc_fields_size : Z := 4.

Definition TIER_FMT : string :=
  "%d, %f,%d,%d, %d,%d,%d, %d,%d,%d, %d,%d,%d, %d,%d,%d".

(** Lines 223-230: slot 0 as an integer, slot 1 as the float, then
    [tmp[i - 1]] for the slots from 2 up to [fields_size]. *)
Definition vtier_values (t : list Z) (ssoc_tmp : string) (fields_size : Z)
  : list (option VendorAtomValue) :=
  let values := replicate (Z.to_nat vtier_fields_size) None in
  let values :=
    vset (voltage_tier_stats_fields !!! 0%nat - kVendorAtomOffset E)
         (intValue (t !!! 0%nat)) values in
  let values :=
    vset (voltage_tier_stats_fields !!! 1%nat - kVendorAtomOffset E)
         (floatValue ssoc_tmp) values in
  foldl (fun values i =>
           vset (voltage_tier_stats_fields !!! i - kVendorAtomOffset E)
                (intValue (t !!! (i - 1)%nat)) values)
        values
        (seq 2 (Z.to_nat fields_size - 2)).

(** [line] is the C string the callers pass ([line.c_str()]). *)
Definition ReportVoltageTierStats (line : string) (has_wireless : bool)
    (wfile_contents : string) : M unit :=
  let '(n, vs) := sscanf line TIER_FMT in
  if negb (n =? 16) then
    (* If format isn't as expected, then ignore line on purpose *)
    ret tt
  else
    let t := store_at 0 (ints vs) (replicate (Z.to_nat (vtier_fields_size - 1)) 0) in
    let ssoc_tmp := float_of vs in
    do '(t, fields_size) <-
      (if has_wireless then
         do ws <- gets wireless_charge_stats_;
         let ws := CalculateWirelessChargeStats E (static_cast_int E ssoc_tmp)
                     wfile_contents ws in
         run modify (set_wireless ws);
         let t := <[15%nat := pout_min_ ws]> t in
         let t := <[16%nat := pout_avg_ ws]> t in
         let t := <[17%nat := pout_max_ ws]> t in
         let t := <[18%nat := of_freq_ ws]> t in
         ret (t, vtier_fields_size) (* include wlc stats *)
       else ret (t, vtier_fields_size - vtier_wlc_fields_size));
    run ALOGD "VoltageTierStats: processed %s" [AStr line];
    let event := {| reverseDomainName := "";
                    atomId := kVoltageTierStats;
                    values := vtier_values t ssoc_tmp fields_size |} in
    do ok <- reportVendorAtom event;
    if negb ok then ALOGE "Unable to report VoltageTierStats to Stats service" []
    else ret tt.

(** *** shouldReportEvent

    The rolling window filter.  Boot time in seconds stays far below the
    range of [int64_t], so the sum is the mathematical one. *)
Definition shouldReportEvent : M bool :=
  do current_time <- getTimeSecs;
  if current_time =? 0 then
    run ALOGE "Current boot time is zero!" [];
    ret false
  else
    do last <- gets log_event_time_secs_;
    if (last =? 0) || (last + DURATION_FILTER_SECS <? current_time) then
      run modify (set_log_event_time current_time);
      ret true
    else ret false.

(** *** checkContentsAndAck *)

Definition checkContentsAndAck (path : string) : M (bool * string) :=
  do r <- ReadFileToString path;
  match r with
  | None => ret (false, EmptyString)
  | Some file_contents =>
      do ok <- WriteStringToFile "0" path;
      if negb ok then
        run ALOGE "Couldn't clear %s - %s" [AStr path];
        ret (false, file_contents)
      else ret (true, file_contents)
  end.

(** *** checkAndReport *)

(** The calls on the two helper objects: they see and change the files. *)
Definition call_helper
    (h : gmap string string -> bool * string * gmap string string) : M (bool * string) :=
  do f <- gets files;
  let '(has, contents, f') := h f in
  run modify (set_files f');
  ret (has, contents).

(** One of the three tier-only sources (lines 318-343): acknowledged, then
    every line of it reported as a tier without wireless data. *)
Definition report_tier_source (path : string) : M unit :=
  do '(has, contents) <- checkContentsAndAck path;
  if has then
    for_each (fun line => ReportVoltageTierStats (c_str line) false EmptyString)
             (lines contents)
  else ret tt.

(** Lines 291-343 of [checkAndReport]: what a drain does once the throttle
    has let the session through.  [line] is the summary line and [ss] the
    rest of the primary stream. *)
Definition report_all (line ss : string) : M unit :=
  do '(has_pca, pca_file_contents) <- call_helper (CheckPcaContentsAndAck E);
  let pca_line :=
    if has_pca then first_line pca_file_contents else EmptyString in
  do '(has_wireless, wfile_contents) <- call_helper (CheckWirelessContentsAndAck E);
  (* there are two lines in the head, A: ...(Adapter Type) and
     D: ...(Adapter Capabilities) *)
  let wline_at :=
    if has_wireless then first_line wfile_contents else EmptyString in
  let wline_ac :=
    if has_wireless
    then first_line (snd (until_newline wfile_contents))
    else EmptyString in
  (* reset initial tier soc *)
  run (if has_wireless
       then modify (fun w =>
              set_wireless (reset_tier_soc (wireless_charge_stats_ w)) w)
       else ret tt);
  run ReportChargeStats line wline_at wline_ac pca_line;
  run for_each
        (fun line => ReportVoltageTierStats (c_str line) has_wireless wfile_contents)
        (lines ss);
  run report_tier_source (kThermalChargeMetricsPath E);
  run report_tier_source (kGChargerMetricsPath E);
  report_tier_source (kGDualBattMetricsPath E).

(** Lines 263-289, then [report_all]. *)
Definition checkAndReport (path : string) : M unit :=
  do r <- ReadFileToString path;
  match r with
  | None => ALOGE "Unable to read %s - %s" [AStr path]
  | Some file_contents =>
      match getline file_contents with
      | None => ALOGE "Unable to read first line" []
      | Some (line, ss) =>
          do cleared <- WriteStringToFile "0" path;
          run (if negb cleared then ALOGE "Couldn't clear %s - %s" [AStr path]
               else ret tt);
          do should <- shouldReportEvent;
          if negb should then ALOGW "Too many log events; event ignored." []
          else report_all line ss
      end
  end.

End Reporter.

(** ** An environment to run the reporter in

    Field numbers laid out as a generated header would give them (the three
    summary extras numbered after the receiver state), offset 2, and simple
    stand-ins for the two helper objects: a side channel is present when its
    file can be read, and is cleared once read. *)
Module Sample.

Definition chg_field (f : ChargeStats.field) : Z :=
  match f with
  | ChargeStats.kAdapterTypeFieldNumber => 2
  | ChargeStats.kAdapterVoltageFieldNumber => 3
  | ChargeStats.kAdapterAmperageFieldNumber => 4
  | ChargeStats.kSsocInFieldNumber => 5
  | ChargeStats.kVoltageInFieldNumber => 6
  | ChargeStats.kSsocOutFieldNumber => 7
  | ChargeStats.kVoltageOutFieldNumber => 8
  | ChargeStats.kAdapterCapabilities0FieldNumber => 9
  | ChargeStats.kAdapterCapabilities1FieldNumber => 10
  | ChargeStats.kAdapterCapabilities2FieldNumber => 11
  | ChargeStats.kAdapterCapabilities3FieldNumber => 12
  | ChargeStats.kAdapterCapabilities4FieldNumber => 13
  | ChargeStats.kReceiverState0FieldNumber => 14
  | ChargeStats.kReceiverState1FieldNumber => 15
  | ChargeStats.kChargeCapacityFieldNumber => 16
  | ChargeStats.kCsiAggregateStatusFieldNumber => 17
  | ChargeStats.kCsiAggregateTypeFieldNumber => 18
  end.

Definition vtier_field (f : VoltageTierStats.field) : Z :=
  match f with
  | VoltageTierStats.kVoltageTierFieldNumber => 2
  | VoltageTierStats.kSocInFieldNumber => 3
  | VoltageTierStats.kCcInFieldNumber => 4
  | VoltageTierStats.kTempInFieldNumber => 5
  | VoltageTierStats.kTimeFastSecsFieldNumber => 6
  | VoltageTierStats.kTimeTaperSecsFieldNumber => 7
  | VoltageTierStats.kTimeOtherSecsFieldNumber => 8
  | VoltageTierStats.kTempMinFieldNumber => 9
  | VoltageTierStats.kTempAvgFieldNumber => 10
  | VoltageTierStats.kTempMaxFieldNumber => 11
  | VoltageTierStats.kIbattMinFieldNumber => 12
  | VoltageTierStats.kIbattAvgFieldNumber => 13
  | VoltageTierStats.kIbattMaxFieldNumber => 14
  | VoltageTierStats.kIclMinFieldNumber => 15
  | VoltageTierStats.kIclAvgFieldNumber => 16
  | VoltageTierStats.kIclMaxFieldNumber => 17
  | VoltageTierStats.kMinAdapterPowerOutFieldNumber => 18
  | VoltageTierStats.kTimeAvgAdapterPowerOutFieldNumber => 19
  | VoltageTierStats.kMaxAdapterPowerOutFieldNumber => 20
  | VoltageTierStats.kChargingOperatingPointFieldNumber => 21
  end.

Definition read_and_ack (path : string) (f : gmap string string)
  : bool * string * gmap string string :=
  match f !! path with
  | Some contents => (true, contents, <[path := "0"]> f)
  | None => (false, EmptyString, f)
  end.

(** The integer part of a scanned float. *)
Definition int_part (t : string) : Z :=
  match conv_d t with
  | Converted (VInt z) _ => z
  | _ => 0
  end.

Definition calculate (soc : Z) (contents : string) (ws : WirelessChargeStats)
  : WirelessChargeStats :=
  {| tier_soc_ := soc; pout_min_ := soc; pout_avg_ := soc + 1;
     pout_max_ := soc + 2; of_freq_ := Z.of_nat (String.length contents) |}.

(** [read_only] lists the paths that cannot be written. *)
Definition env (read_only : list string) : Env :=
  {| kVendorAtomOffset := 2;
     ChargeStatsField := chg_field;
     VoltageTierStatsField := vtier_field;
     ADAPTER_TYPE_USB_PD_PPS := 9;
     TranslateSysModeToAtomValue := fun m => 100 + m;
     CalculateWirelessChargeStats := calculate;
     CheckWirelessContentsAndAck := read_and_ack "wlc";
     CheckPcaContentsAndAck := read_and_ack "pca";
     static_cast_int := int_part;
     kThermalChargeMetricsPath := "thermal";
     kGChargerMetricsPath := "gcharger";
     kGDualBattMetricsPath := "gdbatt";
     writable := fun p => negb (bool_decide (p ∈ read_only));
     reportVendorAtom_ok := fun _ => true |}.

Definition ws0 : WirelessChargeStats :=
  {| tier_soc_ := 0; pout_min_ := 0; pout_avg_ := 0; pout_max_ := 0; of_freq_ := 0 |}.

(** A freshly started reporter at boot time [now] over the given files. *)
Definition world (now : Z) (fs : list (string * string)) : World :=
  {| files := list_to_map fs; boottime_secs := now; log_event_time_secs_ := 0;
     wireless_charge_stats_ := ws0; reported := [] |}.

Definition summary : string := "3,9000,2000, 80,4400,90,4450".
Definition tier : string :=
  "1, 85.5,1200,320, 10,5,2, 15,18,22, -200,-150,-100, 50,55,60".
Definition nl : string := String newline EmptyString.

End Sample.

(** * Vocabulary of the properties *)

(** The number of conversions of a format. *)
Fixpoint nconv (f : list directive) : nat :=
  match f with
  | [] => 0
  | (DSpace | DChar _) :: r => nconv r
  | _ :: r => S (nconv r)
  end.

(** Whether a format has integer conversions only. *)
Fixpoint int_only (f : list directive) : bool :=
  match f with
  | [] => true
  | DFloat :: _ => false
  | _ :: r => int_only r
  end.

Definition is_int (v : scanval) : Prop :=
  match v with VInt _ => True | VFloat _ => False end.

(** The return value of a scan of [s.c_str()], and the integers it stored. *)
Definition count (s fmt : string) : Z := fst (sscanf (c_str s) fmt).
Definition scanned (s fmt : string) : list Z := ints (snd (sscanf (c_str s) fmt)).

Abbreviation WLC_AT_FMT := ("A:%d"%string).
Abbreviation WLC_AC_FMT := ("D:%x,%x,%x,%x,%x, %x,%x"%string).
Abbreviation PCA_FMT := ("D:%x,%x %x,%x,%x,%x,%x"%string).
Abbreviation PDO_FMT := ("D:%x,%x,%x,%x,%x,%x,%x"%string).

(** The first line of the generic-charger file that scans as seven fields,
    as the values scanned from it. *)
Fixpoint first_pdo (pdo_lines : list string) : option (list Z) :=
  match pdo_lines with
  | [] => None
  | pdo_line :: rest =>
      if count pdo_line PDO_FMT =? 7 then Some (scanned pdo_line PDO_FMT)
      else first_pdo rest
  end.

(** The locals after the wireless and PCA blocks (lines 106-141), from the
    [tmp] the summary scans left. *)
Definition merge_side_channels (E : Env) (t0 : list Z)
    (wline_at wline_ac pca_line : string) : chg_locals :=
  snd (pca_block E wline_at pca_line
         (snd (wlc_block E wline_at wline_ac (with_tmp t0 (chg_init E))))).

(** The generic-charger file as its first matching line, if it can be read
    and has one. *)
Definition gcharger_pdo (file : option string) : option (list Z) :=
  match file with
  | Some file_contents => first_pdo (lines file_contents)
  | None => None
  end.

(** How many elements of a vector have been assigned. *)
Definition npop (vs : list (option VendorAtomValue)) : nat := length (omap id vs).

(** The populated-slot count of an atom. *)
Definition populated (a : VendorAtom) : nat := npop (values a).

(** The field numbers of a message are pairwise different and lie in the
    range that the vector of that message covers. *)
Definition well_placed (fields : list Z) (off : Z) : Prop :=
  NoDup fields /\ Forall (fun f => off <= f < off + Z.of_nat (length fields)) fields.

Definition schema_ok (E : Env) : Prop :=
  well_placed (charge_stats_fields E) (kVendorAtomOffset E)
  /\ well_placed (voltage_tier_stats_fields E) (kVendorAtomOffset E).

(** Everything a computation hands to the stats service satisfies [P]. *)
Definition emits {A} (P : VendorAtom -> Prop) (m : M A) : Prop :=
  forall w, exists new, reported (exec m w) = reported w ++ new /\ Forall P new.

(** A session record has 10 or 17 populated slots, a tier sample 16 or 20. *)
Definition width_ok (a : VendorAtom) : Prop :=
  match atomId a with
  | kChargeStats => populated a = 10%nat \/ populated a = 17%nat
  | kVoltageTierStats => populated a = 16%nat \/ populated a = 20%nat
  end.

(** The world after the attempt to clear a source. *)
Definition clear_source (E : Env) (path : string) (w : World) : World :=
  if writable E path then set_files (<[path := "0"]> (files w)) w else w.

Definition chg_event (E : Env) (l : chg_locals) : VendorAtom :=
  {| reverseDomainName := ""; atomId := kChargeStats; values := chg_values E l |}.

(** The session record of a drain: none when the summary line is given up. *)
Definition session_atoms (E : Env) (gcharger : option string)
    (line wline_at wline_ac pca_line : string) : list VendorAtom :=
  match snd (assemble E gcharger line wline_at wline_ac pca_line) with
  | Some l => [chg_event E l]
  | None => []
  end.

(** Whether a C string scans as a tier line, and the float scanned from it. *)
Definition tier_ok (line : string) : bool := fst (sscanf line TIER_FMT) =? 16.
Definition tier_ssoc (line : string) : string := float_of (snd (sscanf line TIER_FMT)).

(** The sample reported for a tier line, without wireless data or with the
    four values the wireless helper holds after its calculation. *)
Definition tier_event (E : Env) (line : string) (wlc : option WirelessChargeStats)
  : VendorAtom :=
  let t := store_at 0 (ints (snd (sscanf line TIER_FMT)))
             (replicate (Z.to_nat (vtier_fields_size E - 1)) 0) in
  match wlc with
  | None =>
      {| reverseDomainName := ""; atomId := kVoltageTierStats;
         values := vtier_values E t (tier_ssoc line)
                     (vtier_fields_size E - vtier_wlc_fields_size) |}
  | Some ws =>
      {| reverseDomainName := ""; atomId := kVoltageTierStats;
         values := vtier_values E
                     (<[18%nat := of_freq_ ws]>
                        (<[17%nat := pout_max_ ws]>
                           (<[16%nat := pout_avg_ ws]>
                              (<[15%nat := pout_min_ ws]> t))))
                     (tier_ssoc line) (vtier_fields_size E) |}
  end.

(** The samples of a tier-only stream: one per line that scans, in order. *)
Definition plain_tiers (E : Env) (text : string) : list VendorAtom :=
  omap (fun line => if tier_ok (c_str line) then Some (tier_event E (c_str line) None)
                    else None)
       (lines text).

(** The samples of the primary stream when wireless data is present, and
    the helper object after them. *)
Fixpoint wireless_tiers (E : Env) (wfile_contents : string) (ls : list string)
    (ws : WirelessChargeStats) : list VendorAtom * WirelessChargeStats :=
  match ls with
  | [] => ([], ws)
  | line :: rest =>
      if tier_ok (c_str line) then
        let ws' := CalculateWirelessChargeStats E
                     (static_cast_int E (tier_ssoc (c_str line))) wfile_contents ws in
        let '(atoms, ws'') := wireless_tiers E wfile_contents rest ws' in
        (tier_event E (c_str line) (Some ws') :: atoms, ws'')
      else wireless_tiers E wfile_contents rest ws
  end.

(** The samples of a tier-only source as a drain finds it: its lines when
    it can be read and cleared, nothing otherwise. *)
Definition source_tiers (E : Env) (path : string) (f : gmap string string)
  : list VendorAtom :=
  match f !! path with
  | Some contents => if writable E path then plain_tiers E contents else []
  | None => []
  end.

(** The files after a tier-only source has been acknowledged. *)
Definition ack_source (E : Env) (path : string) (f : gmap string string)
  : gmap string string :=
  match f !! path with
  | Some _ => if writable E path then <[path := "0"]> f else f
  | None => f
  end.

(** The side channels as [report_all] finds them in the files [f]. *)
Definition pca_helper (E : Env) (f : gmap string string) :=
  CheckPcaContentsAndAck E f.
Definition wireless_helper (E : Env) (f : gmap string string) :=
  CheckWirelessContentsAndAck E (snd (pca_helper E f)).

Definition drain_pca_line (E : Env) (f : gmap string string) : string :=
  let '(has_pca, pca_file_contents, _) := pca_helper E f in
  if has_pca then first_line pca_file_contents else EmptyString.

Definition drain_has_wireless (E : Env) (f : gmap string string) : bool :=
  fst (fst (wireless_helper E f)).
Definition drain_wfile_contents (E : Env) (f : gmap string string) : string :=
  snd (fst (wireless_helper E f)).
Definition drain_wline_at (E : Env) (f : gmap string string) : string :=
  if drain_has_wireless E f then first_line (drain_wfile_contents E f) else EmptyString.
Definition drain_wline_ac (E : Env) (f : gmap string string) : string :=
  if drain_has_wireless E f
  then first_line (snd (until_newline (drain_wfile_contents E f)))
  else EmptyString.

(** The files once both helpers have been called. *)
Definition drain_files (E : Env) (f : gmap string string) : gmap string string :=
  snd (wireless_helper E f).

(** The session record of an accepted drain. *)
Definition drain_session (E : Env) (line : string) (w : World) : list VendorAtom :=
  session_atoms E (drain_files E (files w) !! kGChargerMetricsPath E) line
    (drain_wline_at E (files w)) (drain_wline_ac E (files w))
    (drain_pca_line E (files w)).

(** The tier samples of the primary stream. *)
Definition drain_primary_tiers (E : Env) (ss : string) (w : World) : list VendorAtom :=
  if drain_has_wireless E (files w) then
    fst (wireless_tiers E (drain_wfile_contents E (files w)) (lines ss)
           (reset_tier_soc (wireless_charge_stats_ w)))
  else plain_tiers E ss.

(** The tier samples of the three tier-only sources, each acknowledged
    before the next is read. *)
Definition drain_aux_tiers (E : Env) (w : World) : list VendorAtom :=
  let f2 := drain_files E (files w) in
  let f3 := ack_source E (kThermalChargeMetricsPath E) f2 in
  let f4 := ack_source E (kGChargerMetricsPath E) f3 in
  source_tiers E (kThermalChargeMetricsPath E) f2
  ++ source_tiers E (kGChargerMetricsPath E) f3
  ++ source_tiers E (kGDualBattMetricsPath E) f4.

(** The world in which an accepted drain calls [report_all]. *)
Definition gate_passed (E : Env) (path : string) (w : World) : World :=
  clear_source E path (set_log_event_time (boottime_secs w) w).

(** The index in the vector of the [i]-th field of a message. *)
Definition idx (fields : list Z) (off : Z) (i : nat) : nat :=
  Z.to_nat (fields !!! i - off).

(** The loop that fills a vector: [k] rounds from [i = a], round [i]
    assigning [val i] at the index of the [i]-th field. *)
Definition fill (fields : list Z) (off : Z) (val : nat -> VendorAtomValue)
    (vals : list (option VendorAtomValue)) (a k : nat) :=
  foldl (fun values i => vset (fields !!! i - off) (val i) values) vals (seq a k).

(** The report attempts made at the given boot times, one after the other:
    the times of the attempts that were accepted, and the world after the
    last attempt. *)
Fixpoint attempts (times : list Z) (w : World) : list Z * World :=
  match times with
  | [] => ([], w)
  | t :: rest =>
      let w1 := set_boottime t w in
      let '(accepted, w2) := attempts rest (exec shouldReportEvent w1) in
      (if val shouldReportEvent w1 then t :: accepted else accepted, w2)
  end.

(** Neighbours in the list are more than the window length apart. *)
Definition spaced (l : list Z) : Prop :=
  forall (i : nat) t1 t2,
    l !! i = Some t1 -> l !! S i = Some t2 -> t1 + DURATION_FILTER_SECS < t2.

(** The files after [report_all]: the three tier-only sources acknowledged
    in turn, after the two helpers. *)
Definition drain_final_files (E : Env) (w : World) : gmap string string :=
  ack_source E (kGDualBattMetricsPath E)
    (ack_source E (kGChargerMetricsPath E)
       (ack_source E (kThermalChargeMetricsPath E) (drain_files E (files w)))).

(** The wireless helper object after [report_all]. *)
Definition drain_wireless (E : Env) (ss : string) (w : World) : WirelessChargeStats :=
  if drain_has_wireless E (files w) then
    snd (wireless_tiers E (drain_wfile_contents E (files w)) (lines ss)
           (reset_tier_soc (wireless_charge_stats_ w)))
  else wireless_charge_stats_ w.

(** Whether the primary source gives a drain a first line. *)
Definition has_first_line (w : World) (path : string) : bool :=
  match files w !! path with
  | Some text => bool_decide (is_Some (getline text))
  | None => false
  end.

(** A tier-only source after its acknowledgement: gone if it was not there,
    ["0"] if it could be cleared, as it was otherwise. *)
Definition acked (E : Env) (path : string) (o : option string) : option string :=
  match o with
  | Some contents => Some (if writable E path then "0" else contents)
  | None => None
  end.

(** The lines of a text that scan as tier lines. *)
Definition tier_lines (text : string) : list string :=
  List.filter (fun line => tier_ok (c_str line)) (lines text).

(** The conversions of a format, in order. *)
Fixpoint conv_kinds (f : list directive) : list directive :=
  match f with
  | [] => []
  | (DSpace | DChar _) :: r => conv_kinds r
  | d :: r => d :: conv_kinds r
  end.

(** A value is of the kind its conversion stores. *)
Definition kind_ok (v : scanval) (d : directive) : Prop :=
  match d, v with
  | DFloat, VFloat _ => True
  | (DInt | DHex), VInt _ => True
  | _, _ => False
  end.

(** The same reporter over a stats service that answers by [ok]. *)
Definition with_sink (ok : VendorAtom -> bool) (E : Env) : Env :=
  {| kVendorAtomOffset := kVendorAtomOffset E;
     ChargeStatsField := ChargeStatsField E;
     VoltageTierStatsField := VoltageTierStatsField E;
     ADAPTER_TYPE_USB_PD_PPS := ADAPTER_TYPE_USB_PD_PPS E;
     TranslateSysModeToAtomValue := TranslateSysModeToAtomValue E;
     CalculateWirelessChargeStats := CalculateWirelessChargeStats E;
     CheckWirelessContentsAndAck := CheckWirelessContentsAndAck E;
     CheckPcaContentsAndAck := CheckPcaContentsAndAck E;
     static_cast_int := static_cast_int E;
     kThermalChargeMetricsPath := kThermalChargeMetricsPath E;
     kGChargerMetricsPath := kGChargerMetricsPath E;
     kGDualBattMetricsPath := kGDualBattMetricsPath E;
     writable := writable E;
     reportVendorAtom_ok := ok |}.

(** The update of the wireless helper that one tier line makes. *)
Definition wlc_step (E : Env) (wfile_contents : string) (ws : WirelessChargeStats)
    (line : string) : WirelessChargeStats :=
  CalculateWirelessChargeStats E (static_cast_int E (tier_ssoc (c_str line)))
    wfile_contents ws.

(** The value that field [i] of the session record is filled from: the
    merged locals, and for slots 15 and 16 the generic-charger line when the
    file gives one. *)
Definition session_slot (g : option (list Z)) (m : chg_locals) (i : nat) : option Z :=
  match g with
  | Some vs =>
      if bool_decide (i = 15%nat) then vs !! 1%nat
      else if bool_decide (i = 16%nat) then vs !! 6%nat
      else tmp m !! i
  | None => tmp m !! i
  end.

(** Field [i] of the session record [a] is assigned, as an integer, the
    value that [o] holds. *)
Definition slot_holds (E : Env) (a : VendorAtom) (i : nat) (o : option Z) : Prop :=
  exists z,
    o = Some z
    /\ values a !! idx (charge_stats_fields E) (kVendorAtomOffset E) i
       = Some (Some (intValue z)).

(** Field [i] of the session record [a] is left unassigned. *)
Definition slot_unassigned (E : Env) (a : VendorAtom) (i : nat) : Prop :=
  values a !! idx (charge_stats_fields E) (kVendorAtomOffset E) i = Some None.

(** The APDO and PDO values of the generic-charger line [g], or else [o]. *)
Definition apdo_or (g : option (list Z)) (o : option Z) : option Z :=
  match g with Some vs => vs !! 1%nat | None => o end.
Definition pdo_or (g : option (list Z)) (o : option Z) : option Z :=
  match g with Some vs => vs !! 6%nat | None => o end.

(** The wireless lines or the PCA line raise the field count of the session
    record. *)
Definition extended (wline_at wline_ac pca_line : string) : Prop :=
  (count wline_at WLC_AT_FMT = 1 /\ count wline_ac WLC_AC_FMT = 7)
  \/ count pca_line PCA_FMT = 7.

(** The samples a tier-only source gives a drain that finds the files [f]:
    one per line that scans when the source is read and cleared, none when it
    cannot be read or cannot be cleared. *)
Definition aux_samples (E : Env) (path : string) (f : gmap string string)
  : list VendorAtom :=
  match f !! path with
  | Some contents =>
      if writable E path
      then map (fun line => tier_event E (c_str line) None) (tier_lines contents)
      else []
  | None => []
  end.

(** The samples of the three tier-only sources in an accepted drain, in the
    order thermal, generic-charger, dual-battery, over the files [f] that the
    side-channel helpers leave; each source is taken as the drain finds it
    when it comes to it. *)
Definition aux_atoms (E : Env) (f : gmap string string) : list VendorAtom :=
  let f3 := ack_source E (kThermalChargeMetricsPath E) f in
  let f4 := ack_source E (kGChargerMetricsPath E) f3 in
  aux_samples E (kThermalChargeMetricsPath E) f
  ++ aux_samples E (kGChargerMetricsPath E) f3
  ++ aux_samples E (kGDualBattMetricsPath E) f4.

(** [atoms] are the samples of the lines of [text] that scan as tier lines:
    one sample per such line, in the order of the lines, with or without
    wireless values. *)
Definition tier_samples_of (E : Env) (text : string) (atoms : list VendorAtom) : Prop :=
  length atoms = length (tier_lines text)
  /\ forall (i : nat) l,
       tier_lines text !! i = Some l ->
       exists wlc, atoms !! i = Some (tier_event E (c_str l) wlc).

(** * Properties *)

(** ** The scanner on sample lines *)

Example sscanf_base :
  sscanf "3,9000,2000, 80,4400,90,4450" "%d,%d,%d, %d,%d,%d,%d"
  = (7, [VInt 3; VInt 9000; VInt 2000; VInt 80; VInt 4400; VInt 90; VInt 4450]).
Proof. reflexivity. Qed.

Example sscanf_hex :
  sscanf "D:1,ff 0x10,-1,0x,6,7" "D:%x,%x %x,%x,%x,%x,%x"
  = (5, [VInt 1; VInt 255; VInt 16; VInt (-1); VInt 0]).
Proof. reflexivity. Qed.

Example sscanf_eof : sscanf "A:" "A:%d" = (EOF, []).
Proof. reflexivity. Qed.

Example sscanf_tier :
  sscanf "1, 85.5,1200,320, 10,5,2, 15,18,22, -200,-150,-100, 50,55,60"
         "%d, %f,%d,%d, %d,%d,%d, %d,%d,%d, %d,%d,%d, %d,%d,%d"
  = (16, [VInt 1; VFloat "85.5"; VInt 1200; VInt 320; VInt 10; VInt 5; VInt 2;
          VInt 15; VInt 18; VInt 22; VInt (-200); VInt (-150); VInt (-100);
          VInt 50; VInt 55; VInt 60]).
Proof. reflexivity. Qed.

(** ** The monad *)

Lemma exec_bind {A B} (m : M A) (k : A -> M B) w :
  exec (bind m k) w = exec (k (val m w)) (exec m w).
Proof.
  unfold exec, val, bind. destruct (m w) as [[a w1] l1]. simpl.
  destruct (k a w1) as [[b w2] l2]. reflexivity.
Qed.

Lemma logged_bind {A B} (m : M A) (k : A -> M B) w :
  logged (bind m k) w = logged m w ++ logged (k (val m w)) (exec m w).
Proof.
  unfold logged, exec, val, bind. destruct (m w) as [[a w1] l1]. simpl.
  destruct (k a w1) as [[b w2] l2]. reflexivity.
Qed.

Lemma exec_ALOG ms w : exec (ALOG ms) w = w.
Proof. reflexivity. Qed.

Lemma exec_ALOGD f a w : exec (ALOGD f a) w = w.
Proof. reflexivity. Qed.

(** ** The throttle gate *)

Lemma shouldReportEvent_spec w :
  shouldReportEvent w =
    if boottime_secs w =? 0 then
      (false, w, [ALOGE_msg "Current boot time is zero!" []])
    else if (log_event_time_secs_ w =? 0)
            || (log_event_time_secs_ w + DURATION_FILTER_SECS <? boottime_secs w)
         then (true, set_log_event_time (boottime_secs w) w, [])
         else (false, w, []).
Proof.
  unfold shouldReportEvent, getTimeSecs, bind, gets, modify, ret, ALOGE, ALOG. simpl.
  destruct (boottime_secs w =? 0); [reflexivity|].
  destruct ((log_event_time_secs_ w =? 0)
            || (log_event_time_secs_ w + DURATION_FILTER_SECS <? boottime_secs w));
    reflexivity.
Qed.

(** A rejected attempt leaves the whole world, the window anchor included,
    as it was. *)
Lemma shouldReportEvent_rejected w :
  val shouldReportEvent w = false -> exec shouldReportEvent w = w.
Proof.
  unfold val, exec. rewrite shouldReportEvent_spec.
  destruct (boottime_secs w =? 0); [reflexivity|].
  destruct (_ || _); [discriminate | reflexivity].
Qed.

Lemma shouldReportEvent_accepted w :
  val shouldReportEvent w = true ->
  exec shouldReportEvent w = set_log_event_time (boottime_secs w) w
  /\ boottime_secs w <> 0.
Proof.
  unfold val, exec. rewrite shouldReportEvent_spec.
  destruct (Z.eqb_spec (boottime_secs w) 0); [discriminate|].
  destruct (_ || _); [split; auto | discriminate].
Qed.





(** ** The scanner *)

Module ScanfFacts.

Lemma conv_d_int s v r : conv_d s = Converted v r -> is_int v.
Proof.
  unfold conv_d. destruct (skip_space s); [discriminate|].
  destruct (sign _) as [[neg sg] s2].
  destruct (digits _ _ _ _ _) as [[m n] rest].
  destruct n; [discriminate|]. intros [= <- _]. exact I.
Qed.

Lemma conv_x_int s v r : conv_x s = Converted v r -> is_int v.
Proof.
  unfold conv_x. destruct (skip_space s); [discriminate|].
  destruct (sign _) as [[neg sg] s2].
  destruct (digits _ _ _ _ _) as [[m n] rest].
  destruct n; [discriminate|]. intros [= <- _]. exact I.
Qed.

Lemma ints_all_int vs : Forall is_int vs -> length (ints vs) = length vs.
Proof.
  induction 1 as [|v vs Hv _ IH]; [reflexivity|].
  destruct v; [|destruct Hv]. simpl. f_equal. exact IH.
Qed.

Lemma ints_length_le vs : (length (ints vs) <= length vs)%nat.
Proof.
  induction vs as [|v vs IH]; [reflexivity|].
  destruct v; simpl in *; lia.
Qed.

(** What a run adds to the values assigned before it: never more than the
    format has conversions, and the return value counts them unless it is
    [EOF]. *)
Lemma scan_assigns f : forall s acc,
  exists vs,
    snd (scan f s acc) = acc ++ vs
    /\ (length vs <= nconv f)%nat
    /\ (fst (scan f s acc) = assigned (acc ++ vs)
        \/ (fst (scan f s acc) = EOF /\ acc ++ vs = []))
    /\ (int_only f = true -> Forall is_int vs).
Proof.
  assert (Hstop : forall (n : nat) acc,
    exists vs : list scanval,
      acc = acc ++ vs /\ (length vs <= n)%nat
      /\ (assigned acc = assigned (acc ++ vs) \/ (assigned acc = EOF /\ acc ++ vs = []))
      /\ Forall is_int vs).
  { intros n acc. exists []. rewrite app_nil_r. repeat split; auto. simpl; lia. }
  assert (Hfail : forall (n : nat) acc,
    exists vs : list scanval,
      snd (input_failure acc) = acc ++ vs /\ (length vs <= n)%nat
      /\ (fst (input_failure acc) = assigned (acc ++ vs)
          \/ (fst (input_failure acc) = EOF /\ acc ++ vs = []))
      /\ Forall is_int vs).
  { intros n acc. exists []. rewrite app_nil_r. simpl.
    repeat split; auto; [lia|]. destruct acc; auto. }
  assert (Hconv : forall d f,
    (forall s acc, exists vs,
        snd (scan f s acc) = acc ++ vs /\ (length vs <= nconv f)%nat
        /\ (fst (scan f s acc) = assigned (acc ++ vs)
            \/ (fst (scan f s acc) = EOF /\ acc ++ vs = []))
        /\ (int_only f = true -> Forall is_int vs)) ->
    forall s acc r,
      (forall v rest, conv d s = Converted v rest -> r = true -> is_int v) ->
      exists vs,
        snd (match conv d s with
             | InputFailure => input_failure acc
             | MatchFailure => (assigned acc, acc)
             | Converted v rest => scan f rest (acc ++ [v])
             end) = acc ++ vs
        /\ (length vs <= S (nconv f))%nat
        /\ (fst (match conv d s with
                 | InputFailure => input_failure acc
                 | MatchFailure => (assigned acc, acc)
                 | Converted v rest => scan f rest (acc ++ [v])
                 end) = assigned (acc ++ vs)
            \/ (fst (match conv d s with
                     | InputFailure => input_failure acc
                     | MatchFailure => (assigned acc, acc)
                     | Converted v rest => scan f rest (acc ++ [v])
                     end) = EOF /\ acc ++ vs = []))
        /\ (r = true -> int_only f = true -> Forall is_int vs)).
  { intros d g IH s acc r Hint. destruct (conv d s) as [| |v rest] eqn:Hc.
    - destruct (Hfail (S (nconv g)) acc) as (vs & ? & ? & ? & ?). exists vs. auto.
    - destruct (Hstop (S (nconv g)) acc) as (vs & ? & ? & ? & ?). exists vs.
      simpl. auto.
    - destruct (IH rest (acc ++ [v])) as (vs & H1 & H2 & H3 & H4).
      exists (v :: vs). rewrite <- app_assoc in *. simpl in *.
      repeat split; auto; [lia|].
      intros Hr Hf. constructor; eauto. }
  induction f as [|d g IH]; intros s acc.
  - simpl. destruct (Hstop 0%nat acc) as (vs & ? & ? & ? & ?). exists vs. auto.
  - destruct d; simpl.
    + apply IH.
    + destruct s as [|c' r].
      * destruct (Hfail (nconv g) acc) as (vs & ? & ? & ? & ?). exists vs. auto.
      * destruct (Ascii.eqb c c'); [apply IH|].
        destruct (Hstop (nconv g) acc) as (vs & ? & ? & ? & ?). exists vs.
        simpl. auto.
    + destruct (Hconv DInt g IH s acc true) as (vs & ? & ? & ? & ?).
      { intros v rest Hc _. simpl in Hc. eapply conv_d_int; eauto. }
      exists vs. auto.
    + destruct (Hconv DHex g IH s acc true) as (vs & ? & ? & ? & ?).
      { intros v rest Hc _. simpl in Hc. eapply conv_x_int; eauto. }
      exists vs. auto.
    + destruct (Hconv DFloat g IH s acc false) as (vs & ? & ? & ? & ?).
      { intros v rest _ [=]. }
      exists vs. repeat split; auto. intros [=].
Qed.

(** When an integer-only format reports [n] assignments, exactly [n]
    integers were stored. *)
Lemma sscanf_ints str fmt n :
  int_only (parse_format fmt) = true ->
  fst (sscanf str fmt) = Z.of_nat n ->
  length (ints (snd (sscanf str fmt))) = n.
Proof.
  unfold sscanf. intros Hio Hn.
  destruct (scan_assigns (parse_format fmt) str []) as (vs & Hs & _ & Hc & Hi).
  rewrite Hs. simpl in *. rewrite ints_all_int by auto.
  destruct Hc as [Hc|[Hc _]]; rewrite Hc in Hn; unfold assigned, EOF in Hn; lia.
Qed.

(** If a format made of [f1] followed by [f2] assigns more values than [f1]
    has conversions, then [f1] alone assigns all of its own. *)
Lemma scan_prefix f1 f2 : forall s acc,
  assigned acc + Z.of_nat (nconv f1) < fst (scan (f1 ++ f2) s acc) ->
  fst (scan f1 s acc) = assigned acc + Z.of_nat (nconv f1).
Proof.
  assert (Hfail : forall acc, fst (input_failure acc) <= assigned acc).
  { intros acc. destruct acc; simpl; unfold EOF, assigned; simpl; lia. }
  assert (Hlen : forall acc v, assigned (acc ++ [v]) = assigned acc + 1).
  { intros acc v. unfold assigned. rewrite length_app. simpl. lia. }
  assert (Hconv : forall d g s acc,
    (forall s acc,
        assigned acc + Z.of_nat (nconv g) < fst (scan (g ++ f2) s acc) ->
        fst (scan g s acc) = assigned acc + Z.of_nat (nconv g)) ->
    assigned acc + Z.of_nat (S (nconv g))
    < fst (match conv d s with
           | InputFailure => input_failure acc
           | MatchFailure => (assigned acc, acc)
           | Converted v r => scan (g ++ f2) r (acc ++ [v])
           end) ->
    fst (match conv d s with
         | InputFailure => input_failure acc
         | MatchFailure => (assigned acc, acc)
         | Converted v r => scan g r (acc ++ [v])
         end) = assigned acc + Z.of_nat (S (nconv g))).
  { intros d g s acc IH H. destruct (conv d s) as [| |v rest].
    - specialize (Hfail acc). lia.
    - simpl in H. lia.
    - rewrite IH; rewrite Hlen; lia. }
  induction f1 as [|d g IH]; intros s acc H.
  - simpl in *. lia.
  - destruct d; cbn [scan app nconv] in *.
    + apply IH, H.
    + destruct s as [|c' r]; [specialize (Hfail acc); lia|].
      destruct (Ascii.eqb c c'); [apply IH, H | simpl in H; lia].
    + apply Hconv; assumption.
    + apply Hconv; assumption.
    + apply Hconv; assumption.
Qed.

End ScanfFacts.

Import ScanfFacts.

(** ** Resolving the summary format *)

Lemma scanned_length s fmt n :
  int_only (parse_format fmt) = true ->
  count s fmt = Z.of_nat n -> length (scanned s fmt) = n.
Proof. exact (sscanf_ints (c_str s) fmt n). Qed.

Lemma scanned_length_le s fmt :
  (length (scanned s fmt) <= nconv (parse_format fmt))%nat.
Proof.
  unfold scanned, sscanf.
  destruct (scan_assigns (parse_format fmt) (c_str s) []) as (vs & Hs & Hlen & _).
  rewrite Hs. simpl. etransitivity; [apply ints_length_le | exact Hlen].
Qed.

(** The three formats extend one another, so a line in the CSI shape is also
    in the AACR shape and in the base shape. *)
Lemma csi_shape_is_aacr_and_base line :
  count line CHG_STATS_FMT2 = 10 ->
  count line CHG_STATS_FMT1 = 8 /\ count line CHG_STATS_FMT0 = 7.
Proof.
  unfold count, sscanf. intros H. split.
  - change (parse_format CHG_STATS_FMT2)
      with (parse_format CHG_STATS_FMT1 ++ parse_format " %d,%d") in H.
    rewrite (scan_prefix _ _ _ _) by (rewrite H; reflexivity). reflexivity.
  - change (parse_format CHG_STATS_FMT2)
      with (parse_format CHG_STATS_FMT0 ++ parse_format " %d %d,%d") in H.
    rewrite (scan_prefix _ _ _ _) by (rewrite H; reflexivity). reflexivity.
Qed.

Lemma scan_summary_spec line t :
  scan_summary line t =
    let t2 := store_at 0 (scanned line CHG_STATS_FMT2) t in
    let t1 := store_at 0 (scanned line CHG_STATS_FMT1) t2 in
    let t0 := store_at 0 (scanned line CHG_STATS_FMT0) t1 in
    if count line CHG_STATS_FMT2 =? 10 then (Some FMT2_CSI, t2)
    else if count line CHG_STATS_FMT1 =? 8 then (Some FMT1_AACR, t1)
    else if count line CHG_STATS_FMT0 =? 7 then (Some FMT0_base, t0)
    else (None, t0).
Proof.
  unfold scan_summary, count, scanned.
  destruct (sscanf (c_str line) CHG_STATS_FMT2) as [n2 v2]. simpl.
  destruct (n2 =? 10); [reflexivity|].
  destruct (sscanf (c_str line) CHG_STATS_FMT1) as [n1 v1]. simpl.
  destruct (n1 =? 8); [reflexivity|].
  destruct (sscanf (c_str line) CHG_STATS_FMT0) as [n0 v0]. simpl.
  destruct (n0 =? 7); reflexivity.
Qed.

(** C7: the chain tries the CSI format, then AACR, then the base format, and
    takes a format exactly when its scan returns that format's number of
    fields; a line that has both the CSI shape and the base shape is read as
    CSI, with the ten scanned values in [tmp]. *)
Theorem format_priority (line : string) (t : list Z) :
  let n2 := count line CHG_STATS_FMT2 in
  let n1 := count line CHG_STATS_FMT1 in
  let n0 := count line CHG_STATS_FMT0 in
  (fst (scan_summary line t) = Some FMT2_CSI <-> n2 = 10)
  /\ (fst (scan_summary line t) = Some FMT1_AACR <-> n2 <> 10 /\ n1 = 8)
  /\ (fst (scan_summary line t) = Some FMT0_base <-> n2 <> 10 /\ n1 <> 8 /\ n0 = 7)
  /\ (fst (scan_summary line t) = None <-> n2 <> 10 /\ n1 <> 8 /\ n0 <> 7)
  /\ (n2 = 10 -> n0 = 7 ->
      scan_summary line t
      = (Some FMT2_CSI, store_at 0 (scanned line CHG_STATS_FMT2) t)
      /\ length (scanned line CHG_STATS_FMT2) = 10%nat).
Proof.
  intros n2 n1 n0.
  assert (Hlen : n2 = 10 -> length (scanned line CHG_STATS_FMT2) = 10%nat).
  { intros E2. apply (scanned_length line CHG_STATS_FMT2 10); [reflexivity | exact E2]. }
  rewrite scan_summary_spec. cbv zeta. fold n2 n1 n0.
  generalize dependent (scanned line CHG_STATS_FMT2). intros s2 Hlen.
  generalize (scanned line CHG_STATS_FMT1) (scanned line CHG_STATS_FMT0).
  intros s1 s0. clearbody n2 n1 n0.
  destruct (Z.eqb_spec n2 10) as [E2|E2];
    [|destruct (Z.eqb_spec n1 8) as [E1|E1];
      [|destruct (Z.eqb_spec n0 7) as [E0|E0]]]; cbn [fst];
    (split; [|split; [|split; [|split]]]);
    try (split; [intros; try discriminate; congruence || tauto
                | intros; try congruence; tauto]);
    intros; try congruence; auto.
Qed.

Lemma format_priority_witness :
  scan_summary "3,9000,2000, 80,4400,90,4450 5000 1,2" (replicate 17 0)
  = (Some FMT2_CSI,
     store_at 0 (scanned "3,9000,2000, 80,4400,90,4450 5000 1,2" CHG_STATS_FMT2)
       (replicate 17 0))
  /\ length (scanned "3,9000,2000, 80,4400,90,4450 5000 1,2" CHG_STATS_FMT2) = 10%nat.
Proof.
  apply (format_priority "3,9000,2000, 80,4400,90,4450 5000 1,2" (replicate 17 0));
    vm_compute; reflexivity.
Defined.

(** ** Arrays written by a scan *)

Lemma length_store_at vs : forall base a, length (store_at base vs a) = length a.
Proof.
  induction vs as [|v vs IH]; intros base a; simpl; [reflexivity|].
  rewrite IH. apply length_insert.
Qed.

Lemma store_at_lookup_lt vs : forall base a (j : nat),
  (j < base)%nat -> store_at base vs a !! j = a !! j.
Proof.
  induction vs as [|v vs IH]; intros base a j Hj; simpl; [reflexivity|].
  rewrite IH by lia. apply list_lookup_insert_ne. lia.
Qed.

Lemma store_at_lookup_ge vs : forall base a (j : nat),
  (base + length vs <= j)%nat -> store_at base vs a !! j = a !! j.
Proof.
  induction vs as [|v vs IH]; intros base a j Hj; simpl in *; [reflexivity|].
  rewrite IH by lia. apply list_lookup_insert_ne. lia.
Qed.

Lemma store_at_lookup vs : forall base a (i : nat),
  (base + length vs <= length a)%nat -> (i < length vs)%nat ->
  store_at base vs a !! (base + i)%nat = vs !! i.
Proof.
  induction vs as [|v vs IH]; intros base a i Ha Hi; simpl in *; [lia|].
  destruct i as [|i].
  - rewrite Nat.add_0_r, store_at_lookup_lt by lia.
    apply list_lookup_insert_eq. lia.
  - replace (base + S i)%nat with (S base + i)%nat by lia.
    apply IH; [rewrite length_insert|]; lia.
Qed.

(** Splits a list of known length into its elements. *)
Ltac explode l H :=
  repeat (let x := fresh "x" in
          destruct l as [|x l]; [try discriminate H | simpl in H; try discriminate H]).

(** ** The summary scan *)

(** The [static_assert]s of the source. *)
Lemma chg_fields_size_17 E : chg_fields_size E = 17.
Proof. reflexivity. Qed.

Lemma vtier_fields_size_20 E : vtier_fields_size E = 20.
Proof. reflexivity. Qed.

Lemma scan_summary_length line t : length (snd (scan_summary line t)) = length t.
Proof.
  rewrite scan_summary_spec. cbv zeta.
  repeat match goal with |- context [if ?b then _ else _] => destruct b end;
    simpl; rewrite ?length_store_at; reflexivity.
Qed.

(** The summary scans write the first ten entries of [tmp] at most. *)
Lemma scan_summary_high line t (j : nat) :
  (10 <= j)%nat -> snd (scan_summary line t) !! j = t !! j.
Proof.
  intros Hj. rewrite scan_summary_spec. cbv zeta.
  pose proof (scanned_length_le line CHG_STATS_FMT2) as H2.
  pose proof (scanned_length_le line CHG_STATS_FMT1) as H1.
  pose proof (scanned_length_le line CHG_STATS_FMT0) as H0.
  change (nconv (parse_format CHG_STATS_FMT2)) with 10%nat in H2.
  change (nconv (parse_format CHG_STATS_FMT1)) with 8%nat in H1.
  change (nconv (parse_format CHG_STATS_FMT0)) with 7%nat in H0.
  repeat match goal with |- context [if ?b then _ else _] => destruct b end;
    simpl; rewrite ?store_at_lookup_ge by lia; reflexivity.
Qed.

Lemma summary_tmp E line f t0 :
  scan_summary line (tmp (chg_init E)) = (f, t0) ->
  length t0 = 17%nat /\ forall j : nat, (10 <= j < 17)%nat -> t0 !! j = Some 0.
Proof.
  intros H.
  pose proof (scan_summary_length line (tmp (chg_init E))) as Hl.
  pose proof (scan_summary_high line (tmp (chg_init E))) as Hh.
  rewrite H in Hl, Hh. simpl in Hl, Hh. split; [exact Hl|].
  intros j Hj. rewrite Hh by lia.
  apply (lookup_replicate_2 17 0 j). lia.
Qed.

(** ** The side-channel blocks *)

Lemma wlc_block_spec E wline_at wline_ac l :
  snd (wlc_block E wline_at wline_ac l) =
    if bool_decide (wline_at = EmptyString) then l
    else if count wline_at WLC_AT_FMT =? 1 then
      let ssoc_tmp := default 0 (head (scanned wline_at WLC_AT_FMT)) in
      let l1 := with_tmp (<[0%nat := TranslateSysModeToAtomValue E ssoc_tmp]> (tmp l)) l in
      let l2 := with_tmp (store_at 10 (scanned wline_ac WLC_AC_FMT) (tmp l1)) l1 in
      if count wline_ac WLC_AC_FMT =? 7 then with_fields_size (chg_fields_size E) l2
      else l2
    else l.
Proof.
  unfold wlc_block, count, scanned.
  destruct (bool_decide (wline_at = EmptyString)); [reflexivity|]. simpl negb. cbv iota.
  destruct (sscanf (c_str wline_at) WLC_AT_FMT) as [n v]. simpl fst. simpl snd.
  destruct (n =? 1); [|reflexivity]. simpl negb. cbv iota.
  destruct (sscanf (c_str wline_ac) WLC_AC_FMT) as [n' v']. simpl fst. simpl snd.
  destruct (n' =? 7); reflexivity.
Qed.

Lemma pca_block_spec E wline_at pca_line l :
  snd (pca_block E wline_at pca_line l) =
    if bool_decide (pca_line = EmptyString) then l
    else
      let l0 := with_pca (scanned pca_line PCA_FMT) l in
      if count pca_line PCA_FMT =? 7 then
        let l1 := with_fields_size (chg_fields_size E) l0 in
        let ac := pca_ac l1 in
        let rs := pca_rs l1 in
        let t := <[12%nat := rs !!! 2%nat]> (tmp l1) in
        let t := <[13%nat := rs !!! 3%nat]> t in
        let t := <[14%nat := rs !!! 4%nat]> t in
        let t := <[16%nat := rs !!! 1%nat]> t in
        if bool_decide (wline_at = EmptyString) then
          let t := <[0%nat := ADAPTER_TYPE_USB_PD_PPS E]> t in
          let t := <[10%nat := ac !!! 0%nat]> t in
          let t := <[11%nat := ac !!! 1%nat]> t in
          let t := <[15%nat := rs !!! 0%nat]> t in
          with_tmp t l1
        else with_tmp t l1
      else l0.
Proof.
  unfold pca_block, count, scanned.
  destruct (bool_decide (pca_line = EmptyString)); [reflexivity|]. simpl negb. cbv iota.
  destruct (sscanf (c_str pca_line) PCA_FMT) as [n v]. simpl fst. simpl snd.
  destruct (n =? 7); [|reflexivity]. simpl negb. cbv iota.
  destruct (bool_decide (wline_at = EmptyString)); reflexivity.
Qed.

Lemma first_pdo_length ls vs : first_pdo ls = Some vs -> length vs = 7%nat.
Proof.
  induction ls as [|l ls IH]; simpl; [discriminate|].
  destruct (Z.eqb_spec (count l PDO_FMT) 7) as [H7|_]; [|exact IH].
  intros [= <-]. apply (scanned_length l PDO_FMT 7); [reflexivity | exact H7].
Qed.

Lemma first_pdo_app pre pdo_line post :
  Forall (fun l => count l PDO_FMT <> 7) pre ->
  count pdo_line PDO_FMT = 7 ->
  first_pdo (pre ++ pdo_line :: post) = Some (scanned pdo_line PDO_FMT).
Proof.
  intros Hpre H7. induction Hpre as [|l pre Hl _ IH]; simpl.
  - rewrite H7. reflexivity.
  - destruct (Z.eqb_spec (count l PDO_FMT) 7); [contradiction | exact IH].
Qed.

Lemma with_pca_lengths vs l :
  length (pca_ac (with_pca vs l)) = length (pca_ac l)
  /\ length (pca_rs (with_pca vs l)) = length (pca_rs l).
Proof. simpl. rewrite !length_store_at. auto. Qed.

Lemma pdo_loop_cons pdo_line rest l :
  snd (pdo_loop (pdo_line :: rest) l) =
    let l0 := with_pca (scanned pdo_line PDO_FMT) l in
    if count pdo_line PDO_FMT =? 7 then
      with_tmp (<[16%nat := pca_rs l0 !!! 4%nat]>
                  (<[15%nat := pca_ac l0 !!! 1%nat]> (tmp l0))) l0
    else snd (pdo_loop rest l0).
Proof.
  unfold count, scanned. cbn [pdo_loop].
  destruct (sscanf (c_str pdo_line) PDO_FMT) as [n v]. simpl fst. simpl snd.
  destruct (n =? 7); reflexivity.
Qed.

Lemma pdo_loop_spec ls : forall l,
  length (pca_ac l) = 2%nat -> length (pca_rs l) = 5%nat ->
  let l' := snd (pdo_loop ls l) in
  fields_size l' = fields_size l
  /\ tmp l' = match first_pdo ls with
              | Some vs => <[16%nat := vs !!! 6%nat]> (<[15%nat := vs !!! 1%nat]> (tmp l))
              | None => tmp l
              end.
Proof.
  induction ls as [|pdo_line ls IH]; intros l Hac Hrs; [simpl; auto|].
  cbv zeta. rewrite pdo_loop_cons. cbn [first_pdo]. cbv zeta.
  pose proof (scanned_length pdo_line PDO_FMT 7 eq_refl) as Hlen.
  destruct (Z.eqb_spec (count pdo_line PDO_FMT) 7) as [H7|H7].
  - specialize (Hlen H7). generalize dependent (scanned pdo_line PDO_FMT).
    intros vs Hvs.
    destruct l as [t fs ac rs]. cbn [pca_ac pca_rs tmp fields_size] in *.
    explode vs Hvs. explode ac Hac. explode rs Hrs. split; reflexivity.
  - destruct (with_pca_lengths (scanned pdo_line PDO_FMT) l) as [Ha Hr].
    destruct (IH (with_pca (scanned pdo_line PDO_FMT) l)) as [IH1 IH2];
      [congruence | congruence |].
    split; [exact IH1 | exact IH2].
Qed.

(** ** Merging the side channels *)

Lemma assemble_spec E gcharger line wline_at wline_ac pca_line :
  snd (assemble E gcharger line wline_at wline_ac pca_line) =
    match scan_summary line (tmp (chg_init E)) with
    | (Some _, t0) =>
        Some (snd (gcharger_block gcharger
                     (merge_side_channels E t0 wline_at wline_ac pca_line)))
    | (None, _) => None
    end.
Proof.
  unfold assemble, merge_side_channels.
  destruct (scan_summary line (tmp (chg_init E))) as [[f|] t]; [|reflexivity].
  destruct (wlc_block E wline_at wline_ac _) as [m1 l1].
  destruct (pca_block E wline_at pca_line _) as [m2 l2].
  destruct (gcharger_block gcharger _) as [m3 l3]. reflexivity.
Qed.

Lemma merge_side_channels_lengths E t0 wline_at wline_ac pca_line :
  let m := merge_side_channels E t0 wline_at wline_ac pca_line in
  length (pca_ac m) = 2%nat /\ length (pca_rs m) = 5%nat.
Proof.
  unfold merge_side_channels. rewrite pca_block_spec, wlc_block_spec. cbv zeta.
  repeat match goal with |- context [if ?b then _ else _] => destruct b end;
    cbn [pca_ac pca_rs with_tmp with_fields_size with_pca chg_init];
    rewrite ?length_store_at; split; reflexivity.
Qed.

(** The generic-charger block changes [tmp[15]] and [tmp[16]] when a line
    matches, and nothing that is reported otherwise. *)
Lemma gcharger_block_spec E gcharger t0 wline_at wline_ac pca_line :
  let m := merge_side_channels E t0 wline_at wline_ac pca_line in
  let l := snd (gcharger_block gcharger m) in
  fields_size l = fields_size m
  /\ tmp l = match gcharger_pdo gcharger with
             | Some vs => <[16%nat := vs !!! 6%nat]> (<[15%nat := vs !!! 1%nat]> (tmp m))
             | None => tmp m
             end.
Proof.
  intros m l. subst l. destruct gcharger as [file|]; simpl; [|auto].
  destruct (merge_side_channels_lengths E t0 wline_at wline_ac pca_line).
  apply pdo_loop_spec; assumption.
Qed.

(** The wireless block keeps the size of [tmp] and leaves the PCA arrays. *)
Lemma wlc_block_frame E wline_at wline_ac l :
  let l' := snd (wlc_block E wline_at wline_ac l) in
  length (tmp l') = length (tmp l)
  /\ pca_ac l' = pca_ac l /\ pca_rs l' = pca_rs l.
Proof.
  cbv zeta. rewrite wlc_block_spec. cbv zeta.
  repeat match goal with |- context [if ?b then _ else _] => destruct b end;
    cbn [tmp pca_ac pca_rs with_tmp with_fields_size];
    rewrite ?length_store_at, ?length_insert; auto.
Qed.

Lemma count_empty_at : count EmptyString WLC_AT_FMT <> 1.
Proof. vm_compute. discriminate. Qed.

Lemma merge_length E t0 wline_at wline_ac pca_line :
  length (tmp (merge_side_channels E t0 wline_at wline_ac pca_line)) = length t0.
Proof.
  unfold merge_side_channels. rewrite pca_block_spec, wlc_block_spec. cbv zeta.
  repeat match goal with |- context [if ?b then _ else _] => destruct b end;
    cbn [tmp pca_ac pca_rs with_tmp with_fields_size with_pca chg_init];
    rewrite ?length_insert, ?length_store_at, ?length_insert; reflexivity.
Qed.

(** Case analysis shared by the slot theorems: the merged locals with the
    scans named, the arrays split into their elements. *)
Ltac merge_cases :=
  unfold merge_side_channels; rewrite pca_block_spec, wlc_block_spec; cbv zeta.

(** The locals after lines 106-141: with both wireless lines parsed and no
    PCA line, slots 10 to 16 of [tmp] hold the seven values of the wireless
    capability line and slot 0 the translated adapter type; with the PCA line
    parsed and no wireless line, slot 0 is the PPS constant and slots 10, 11
    and 15 hold PCA values; with both, slot 0 keeps the translated value; and
    whenever the PCA line is parsed, slots 12, 13, 14 and 16 hold PCA
    values. *)
Lemma merge_wireless_pca_slots (E : Env) (line wline_at wline_ac pca_line : string)
    (f : summary_format) (t0 : list Z) :
  scan_summary line (tmp (chg_init E)) = (Some f, t0) ->
  let m := merge_side_channels E t0 wline_at wline_ac pca_line in
  let translated :=
    TranslateSysModeToAtomValue E (default 0 (head (scanned wline_at WLC_AT_FMT))) in
  let wlc := scanned wline_ac WLC_AC_FMT in
  let pca := scanned pca_line PCA_FMT in
  (count wline_at WLC_AT_FMT = 1 -> count wline_ac WLC_AC_FMT = 7 ->
   pca_line = EmptyString ->
     fields_size m = 17
     /\ tmp m !! 0%nat = Some translated
     /\ forall i : nat, (i < 7)%nat -> tmp m !! (10 + i)%nat = wlc !! i)
  /\ (wline_at = EmptyString -> count pca_line PCA_FMT = 7 ->
        fields_size m = 17
        /\ tmp m !! 0%nat = Some (ADAPTER_TYPE_USB_PD_PPS E)
        /\ tmp m !! 10%nat = pca !! 0%nat
        /\ tmp m !! 11%nat = pca !! 1%nat
        /\ tmp m !! 15%nat = pca !! 2%nat)
  /\ (count wline_at WLC_AT_FMT = 1 -> count wline_ac WLC_AC_FMT = 7 ->
      count pca_line PCA_FMT = 7 ->
        fields_size m = 17
        /\ tmp m !! 0%nat = Some translated
        /\ tmp m !! 10%nat = wlc !! 0%nat
        /\ tmp m !! 11%nat = wlc !! 1%nat
        /\ tmp m !! 15%nat = wlc !! 5%nat)
  /\ (count pca_line PCA_FMT = 7 ->
        tmp m !! 12%nat = pca !! 4%nat
        /\ tmp m !! 13%nat = pca !! 5%nat
        /\ tmp m !! 14%nat = pca !! 6%nat
        /\ tmp m !! 16%nat = pca !! 3%nat)
  /\ (forall gcharger, gcharger_pdo gcharger = None ->
        exists l,
          snd (assemble E gcharger line wline_at wline_ac pca_line) = Some l
          /\ tmp l = tmp m /\ fields_size l = fields_size m).
Proof.
  intros Hsum m translated wlc pca.
  destruct (summary_tmp E line _ _ Hsum) as [Hlen _].
  pose proof (scanned_length wline_ac WLC_AC_FMT 7 eq_refl) as Hwlc.
  pose proof (scanned_length pca_line PCA_FMT 7 eq_refl) as Hpca.
  assert (Hat : count wline_at WLC_AT_FMT = 1 -> wline_at <> EmptyString).
  { intros H ->. exact (count_empty_at H). }
  split; [|split; [|split; [|split]]].
  - intros H1 H7 ->. specialize (Hat H1). specialize (Hwlc H7).
    subst m translated wlc pca. merge_cases.
    rewrite bool_decide_eq_true_2 by reflexivity.
    rewrite bool_decide_eq_false_2 by exact Hat.
    rewrite H1, H7. simpl Z.eqb. cbv iota.
    generalize dependent (scanned wline_ac WLC_AC_FMT). intros vs Hvs.
    explode t0 Hlen. explode vs Hvs.
    split; [reflexivity|]. split; [reflexivity|].
    intros i Hi. do 7 (destruct i as [|i]; [reflexivity|]). lia.
  - intros -> H7. specialize (Hpca H7).
    subst m translated wlc pca. merge_cases.
    destruct (bool_decide (pca_line = EmptyString)) eqn:Hp.
    { apply bool_decide_eq_true in Hp. subst pca_line.
      vm_compute in H7. discriminate. }
    rewrite !(bool_decide_eq_true_2 (EmptyString = EmptyString)) by reflexivity.
    rewrite H7. simpl Z.eqb. cbv iota.
    generalize dependent (scanned pca_line PCA_FMT). intros vs Hvs.
    explode t0 Hlen. explode vs Hvs. repeat split; reflexivity.
  - intros H1 H7 H7'. specialize (Hat H1). specialize (Hwlc H7). specialize (Hpca H7').
    subst m translated wlc pca. merge_cases.
    rewrite !(bool_decide_eq_false_2 (wline_at = EmptyString)) by exact Hat.
    destruct (bool_decide (pca_line = EmptyString)) eqn:Hp.
    { apply bool_decide_eq_true in Hp. subst pca_line.
      vm_compute in H7'. discriminate. }
    rewrite H1, H7, H7'. simpl Z.eqb. cbv iota.
    generalize dependent (scanned pca_line PCA_FMT). intros ps Hps.
    generalize dependent (scanned wline_ac WLC_AC_FMT). intros vs Hvs.
    explode t0 Hlen. explode vs Hvs. explode ps Hps. repeat split; reflexivity.
  - intros H7. specialize (Hpca H7).
    subst m translated wlc pca. unfold merge_side_channels.
    rewrite pca_block_spec. cbv zeta.
    destruct (bool_decide (pca_line = EmptyString)) eqn:Hp.
    { apply bool_decide_eq_true in Hp. subst pca_line.
      vm_compute in H7. discriminate. }
    rewrite H7. simpl Z.eqb. cbv iota.
    generalize dependent (scanned pca_line PCA_FMT). intros ps Hps.
    destruct (wlc_block_frame E wline_at wline_ac (with_tmp t0 (chg_init E)))
      as (Hl & Hac & Hrs).
    destruct (snd (wlc_block E wline_at wline_ac (with_tmp t0 (chg_init E))))
      as [t fs ac rs].
    cbn [tmp pca_ac pca_rs with_tmp chg_init] in Hl, Hac, Hrs.
    rewrite Hlen in Hl. subst ac rs.
    explode t Hl. explode ps Hps.
    destruct (bool_decide (wline_at = EmptyString)); repeat split; reflexivity.
  - intros gcharger Hg. rewrite assemble_spec, Hsum.
    destruct (gcharger_block_spec E gcharger t0 wline_at wline_ac pca_line) as [Hfs Ht].
    rewrite Hg in Ht. eexists. split; [reflexivity|]. split; assumption.
Qed.

(** The locals after lines 143-156: when the generic-charger file has a line
    that scans as seven fields, the first such line sets [tmp[15]] (APDO) to
    its second value and [tmp[16]] (PDO) to its seventh, over whatever the
    wireless and PCA blocks left there; nothing else of the locals
    changes. *)
Lemma assemble_gcharger_slots (E : Env) (line wline_at wline_ac pca_line : string)
    (f : summary_format) (t0 : list Z) (file : string)
    (pre post : list string) (pdo_line : string) :
  scan_summary line (tmp (chg_init E)) = (Some f, t0) ->
  lines file = pre ++ pdo_line :: post ->
  Forall (fun l => count l PDO_FMT <> 7) pre ->
  count pdo_line PDO_FMT = 7 ->
  let m := merge_side_channels E t0 wline_at wline_ac pca_line in
  exists l,
    snd (assemble E (Some file) line wline_at wline_ac pca_line) = Some l
    /\ tmp l !! 15%nat = scanned pdo_line PDO_FMT !! 1%nat
    /\ tmp l !! 16%nat = scanned pdo_line PDO_FMT !! 6%nat
    /\ is_Some (scanned pdo_line PDO_FMT !! 1%nat)
    /\ is_Some (scanned pdo_line PDO_FMT !! 6%nat)
    /\ (forall j : nat, j <> 15%nat -> j <> 16%nat -> tmp l !! j = tmp m !! j)
    /\ fields_size l = fields_size m.
Proof.
  intros Hsum Hlines Hpre H7 m. subst m.
  destruct (summary_tmp E line _ _ Hsum) as [Hlen _].
  pose proof (merge_length E t0 wline_at wline_ac pca_line) as Hm.
  rewrite Hlen in Hm.
  destruct (gcharger_block_spec E (Some file) t0 wline_at wline_ac pca_line) as [Hfs Ht].
  cbn [gcharger_pdo] in Ht. rewrite Hlines, (first_pdo_app pre pdo_line post Hpre H7) in Ht.
  pose proof (scanned_length pdo_line PDO_FMT 7 eq_refl H7) as Hvs.
  rewrite assemble_spec, Hsum.
  exists (snd (gcharger_block (Some file)
                 (merge_side_channels E t0 wline_at wline_ac pca_line))).
  split; [reflexivity|].
  rewrite Ht. clear Ht.
  generalize dependent (scanned pdo_line PDO_FMT). intros vs Hvs.
  explode vs Hvs. cbn [lookup_total list_lookup_total lookup list_lookup].
  repeat split.
  - rewrite list_lookup_insert_ne by lia. apply list_lookup_insert_eq. lia.
  - apply list_lookup_insert_eq. rewrite length_insert. lia.
  - eauto.
  - eauto.
  - intros j H15 H16. rewrite !list_lookup_insert_ne by lia. reflexivity.
  - exact Hfs.
Qed.

(** The locals after lines 106-141 for a wireless adapter-type line that is
    not empty and does not scan as [A:<int>]: the wireless block changes
    nothing, whatever the capability line holds, and a parsed PCA line leaves
    slot 0 as the summary gave it and slots 10, 11 and 15 at zero, setting
    only slots 12, 13, 14 and 16 and the field count. *)
Lemma merge_unparsed_type_line (E : Env)
    (line wline_at wline_ac pca_line : string) (f : summary_format) (t0 : list Z) :
  scan_summary line (tmp (chg_init E)) = (Some f, t0) ->
  wline_at <> EmptyString ->
  count wline_at WLC_AT_FMT <> 1 ->
  let l0 := with_tmp t0 (chg_init E) in
  let m := merge_side_channels E t0 wline_at wline_ac pca_line in
  let pca := scanned pca_line PCA_FMT in
  snd (wlc_block E wline_at wline_ac l0) = l0
  /\ tmp m !! 0%nat = t0 !! 0%nat
  /\ tmp m !! 10%nat = Some 0
  /\ tmp m !! 11%nat = Some 0
  /\ tmp m !! 15%nat = Some 0
  /\ (count pca_line PCA_FMT = 7 ->
        fields_size m = 17
        /\ tmp m !! 12%nat = pca !! 4%nat
        /\ tmp m !! 13%nat = pca !! 5%nat
        /\ tmp m !! 14%nat = pca !! 6%nat
        /\ tmp m !! 16%nat = pca !! 3%nat)
  /\ (count pca_line PCA_FMT <> 7 -> tmp m = t0 /\ fields_size m = 10).
Proof.
  intros Hsum Hne Hat l0 m pca.
  destruct (summary_tmp E line _ _ Hsum) as [Hlen Hzero].
  pose proof (Hzero 10%nat ltac:(lia)) as Hz10.
  pose proof (Hzero 11%nat ltac:(lia)) as Hz11.
  pose proof (Hzero 15%nat ltac:(lia)) as Hz15.
  pose proof (scanned_length pca_line PCA_FMT 7 eq_refl) as Hpca.
  assert (Hw : snd (wlc_block E wline_at wline_ac l0) = l0).
  { rewrite wlc_block_spec.
    rewrite bool_decide_eq_false_2 by exact Hne.
    destruct (Z.eqb_spec (count wline_at WLC_AT_FMT) 1); [contradiction | reflexivity]. }
  split; [exact Hw|].
  subst m pca. unfold merge_side_channels. fold l0. rewrite Hw.
  rewrite pca_block_spec. cbv zeta.
  rewrite (bool_decide_eq_false_2 (wline_at = EmptyString)) by exact Hne.
  destruct (bool_decide (pca_line = EmptyString)) eqn:Hp.
  { apply bool_decide_eq_true in Hp. subst pca_line. subst l0.
    cbn [tmp with_tmp fields_size chg_init].
    do 4 (split; [assumption || reflexivity|]). split.
    - intros H7. vm_compute in H7. discriminate.
    - intros _. split; reflexivity. }
  destruct (Z.eqb_spec (count pca_line PCA_FMT) 7) as [H7|H7].
  - specialize (Hpca H7).
    generalize dependent (scanned pca_line PCA_FMT). intros ps Hps. subst l0.
    explode t0 Hlen. explode ps Hps.
    cbn in Hz10, Hz11, Hz15. injection Hz10 as ->. injection Hz11 as ->.
    injection Hz15 as ->.
    do 4 (split; [reflexivity|]). split.
    + intros _. repeat split; reflexivity.
    + intros Hc. contradiction.
  - subst l0. cbn [tmp with_tmp with_pca fields_size chg_init].
    do 4 (split; [assumption || reflexivity|]). split.
    + intros Hc. contradiction.
    + intros _. split; reflexivity.
Qed.

(** ** The vector handed to the stats service *)

Lemma sample_schema_ok ro : schema_ok (Sample.env ro).
Proof.
  repeat split; try (apply (bool_decide_unpack _); vm_compute; exact I).
Qed.

Section Fill.

Context (fields : list Z) (off : Z) (Hwp : well_placed fields off).
Context (val : nat -> VendorAtomValue).

Lemma field_range (i : nat) :
  (i < length fields)%nat -> off <= fields !!! i < off + Z.of_nat (length fields).
Proof.
  intros Hi. destruct Hwp as [_ Hr].
  rewrite Forall_forall in Hr. apply Hr.
  apply list_elem_of_lookup. exists i. apply list_lookup_lookup_total_lt, Hi.
Qed.

Lemma idx_lt (i : nat) : (i < length fields)%nat -> (idx fields off i < length fields)%nat.
Proof. intros Hi. pose proof (field_range i Hi). unfold idx. lia. Qed.

Lemma idx_inj (i j : nat) :
  (i < length fields)%nat -> (j < length fields)%nat -> idx fields off i = idx fields off j -> i = j.
Proof.
  intros Hi Hj Heq. pose proof (field_range i Hi). pose proof (field_range j Hj).
  destruct Hwp as [Hnd _].
  apply (NoDup_lookup fields i j (fields !!! i)); [exact Hnd | |].
  - apply list_lookup_lookup_total_lt, Hi.
  - replace (fields !!! i) with (fields !!! j) by (unfold idx in Heq; lia).
    apply list_lookup_lookup_total_lt, Hj.
Qed.

Lemma vset_idx (i : nat) v vals :
  (i < length fields)%nat ->
  vset (fields !!! i - off) v vals = <[idx fields off i := Some v]> vals.
Proof.
  intros Hi. pose proof (field_range i Hi). unfold vset, idx.
  destruct (Z.ltb_spec (fields !!! i - off) 0); [lia | reflexivity].
Qed.

(** After the loop, the slots visited hold their values and the others
    are as before. *)
Lemma fill_lookup k : forall a vals (i : nat),
  (a + k <= length fields)%nat -> length vals = length fields ->
  (i < length fields)%nat ->
  fill fields off val vals a k !! idx fields off i =
    if bool_decide (a <= i < a + k)%nat then Some (Some (val i)) else vals !! idx fields off i.
Proof.
  unfold fill. induction k as [|k IH]; intros a vals i Hk Hlen Hi; simpl.
  - rewrite bool_decide_eq_false_2 by lia. reflexivity.
  - rewrite vset_idx by lia. rewrite IH by (rewrite ?length_insert; lia).
    destruct (decide (i = a)) as [->|Hne].
    + rewrite bool_decide_eq_false_2, bool_decide_eq_true_2 by lia.
      apply list_lookup_insert_eq. pose proof (idx_lt a). lia.
    + rewrite list_lookup_insert_ne
        by (intros Heq; apply Hne; symmetry; apply idx_inj; [lia | lia | exact Heq]).
      destruct (decide (S a <= i < S a + k)%nat).
      * rewrite !bool_decide_eq_true_2 by lia. reflexivity.
      * rewrite !bool_decide_eq_false_2 by lia. reflexivity.
Qed.

Lemma npop_insert vals : forall (ix : nat) v,
  vals !! ix = Some None -> npop (<[ix := Some v]> vals) = S (npop vals).
Proof.
  unfold npop. induction vals as [|x vals IH]; intros ix v H; [discriminate|].
  destruct ix as [|ix]; simpl in *.
  - injection H as ->. reflexivity.
  - destruct x; simpl; [f_equal|]; exact (IH ix v H).
Qed.

(** Each round of the loop assigns one more element. *)
Lemma fill_npop k : forall a vals,
  (a + k <= length fields)%nat -> length vals = length fields ->
  (forall i : nat, (a <= i < length fields)%nat -> vals !! idx fields off i = Some None) ->
  npop (fill fields off val vals a k) = (npop vals + k)%nat.
Proof.
  unfold fill. induction k as [|k IH]; intros a vals Hk Hlen Hnone; simpl.
  - lia.
  - rewrite vset_idx by lia. rewrite IH.
    + rewrite npop_insert by (apply Hnone; lia). lia.
    + lia.
    + rewrite length_insert. exact Hlen.
    + intros i Hi. rewrite list_lookup_insert_ne
        by (intros Heq; apply idx_inj in Heq; lia).
      apply Hnone. lia.
Qed.

Lemma fresh_lookup (i : nat) :
  (i < length fields)%nat -> replicate (length fields) None !! idx fields off i = Some (@None VendorAtomValue).
Proof. intros Hi. apply lookup_replicate_2, idx_lt, Hi. Qed.

Lemma npop_fresh n : npop (replicate n None) = 0%nat.
Proof. unfold npop. induction n as [|n IH]; simpl; auto. Qed.

End Fill.

Lemma chg_values_fill E l :
  chg_values E l =
    fill (charge_stats_fields E) (kVendorAtomOffset E)
         (fun i => intValue (tmp l !!! i))
         (replicate 17 None) 0 (Z.to_nat (fields_size l)).
Proof. reflexivity. Qed.

Lemma vtier_values_fill E t ssoc_tmp fields_size :
  vtier_values E t ssoc_tmp fields_size =
    fill (voltage_tier_stats_fields E) (kVendorAtomOffset E)
         (fun i => intValue (t !!! (i - 1)%nat))
         (vset (voltage_tier_stats_fields E !!! 1%nat - kVendorAtomOffset E)
               (floatValue ssoc_tmp)
               (vset (voltage_tier_stats_fields E !!! 0%nat - kVendorAtomOffset E)
                     (intValue (t !!! 0%nat)) (replicate 20 None)))
         2 (Z.to_nat fields_size - 2).
Proof. reflexivity. Qed.

(** The session vector has as many assigned elements as [fields_size]. *)
Lemma chg_values_populated E l :
  schema_ok E -> 0 <= fields_size l <= 17 ->
  npop (chg_values E l) = Z.to_nat (fields_size l).
Proof.
  intros [Hwp _] Hfs. rewrite chg_values_fill.
  rewrite (fill_npop _ _ Hwp); change (length (charge_stats_fields E)) with 17%nat.
  - rewrite npop_fresh. lia.
  - lia.
  - apply length_replicate.
  - intros i Hi. apply (fresh_lookup _ _ Hwp i). apply Hi.
Qed.

(** The tier vector has as many assigned elements as its [fields_size]. *)
Lemma vtier_values_populated E t ssoc_tmp fields_size :
  schema_ok E -> 2 <= fields_size <= 20 ->
  npop (vtier_values E t ssoc_tmp fields_size) = Z.to_nat fields_size.
Proof.
  intros [_ Hwp] Hfs. rewrite vtier_values_fill.
  pose proof (fresh_lookup _ _ Hwp) as Hfresh.
  pose proof (idx_inj _ _ Hwp) as Hinj.
  pose proof (idx_lt _ _ Hwp) as Hlt.
  change (length (voltage_tier_stats_fields E)) with 20%nat in *.
  rewrite !(vset_idx _ _ Hwp) by (change (length (voltage_tier_stats_fields E)) with 20%nat; lia).
  rewrite (fill_npop _ _ Hwp); change (length (voltage_tier_stats_fields E)) with 20%nat.
  - rewrite !npop_insert, npop_fresh; [lia | apply Hfresh; lia |].
    rewrite list_lookup_insert_ne by (intros Heq; apply Hinj in Heq; lia).
    apply Hfresh. lia.
  - lia.
  - rewrite !length_insert. apply length_replicate.
  - intros i Hi.
    rewrite !list_lookup_insert_ne by (intros Heq; apply Hinj in Heq; lia).
    apply Hfresh. lia.
Qed.

(** The slots of the session vector: slot [i] of [tmp] is at the index of
    the [i]-th field when it is below [fields_size], and the element there
    is left unassigned otherwise. *)
Lemma chg_values_slot E l (i : nat) :
  schema_ok E -> 0 <= fields_size l <= 17 -> (i < 17)%nat ->
  chg_values E l !! idx (charge_stats_fields E) (kVendorAtomOffset E) i
  = if bool_decide (Z.of_nat i < fields_size l)
    then Some (Some (intValue (tmp l !!! i))) else Some None.
Proof.
  intros [Hwp _] Hfs Hi. rewrite chg_values_fill.
  rewrite (fill_lookup _ _ Hwp); change (length (charge_stats_fields E)) with 17%nat;
    [|lia|apply length_replicate|lia].
  destruct (decide (Z.of_nat i < fields_size l)).
  - rewrite !bool_decide_eq_true_2 by lia. reflexivity.
  - rewrite !bool_decide_eq_false_2 by lia.
    apply (fresh_lookup _ _ Hwp i). exact Hi.
Qed.

Lemma merge_fields_size E t0 wline_at wline_ac pca_line :
  let m := merge_side_channels E t0 wline_at wline_ac pca_line in
  fields_size m = 10 \/ fields_size m = 17.
Proof.
  cbv zeta. merge_cases.
  repeat match goal with |- context [if ?b then _ else _] => destruct b end;
    cbn [fields_size with_tmp with_fields_size with_pca chg_init]; auto.
Qed.

Lemma assemble_fields_size E gcharger line wline_at wline_ac pca_line l :
  snd (assemble E gcharger line wline_at wline_ac pca_line) = Some l ->
  fields_size l = 10 \/ fields_size l = 17.
Proof.
  rewrite assemble_spec.
  destruct (scan_summary line (tmp (chg_init E))) as [[f|] t0]; [|discriminate].
  intros [= <-].
  destruct (gcharger_block_spec E gcharger t0 wline_at wline_ac pca_line) as [-> _].
  apply merge_fields_size.
Qed.

(** ** What a computation reports *)

Lemma emits_ret {A} P (a : A) : emits P (ret a).
Proof. intros w. exists []. rewrite app_nil_r. auto. Qed.

Lemma emits_ALOG P ms : emits P (ALOG ms).
Proof. intros w. exists []. rewrite app_nil_r. auto. Qed.

Lemma emits_gets {A} P (f : World -> A) : emits P (gets f).
Proof. intros w. exists []. rewrite app_nil_r. auto. Qed.

Lemma emits_modify P (f : World -> World) :
  (forall w, reported (f w) = reported w) -> emits P (modify f).
Proof. intros Hf w. exists []. rewrite app_nil_r. split; [apply Hf | auto]. Qed.

Lemma emits_bind {A B} P (m : M A) (k : A -> M B) :
  emits P m -> (forall a, emits P (k a)) -> emits P (bind m k).
Proof.
  intros Hm Hk w. rewrite exec_bind.
  destruct (Hm w) as (n1 & H1 & F1).
  destruct (Hk (val m w) (exec m w)) as (n2 & H2 & F2).
  exists (n1 ++ n2). rewrite H2, H1, app_assoc. split; [reflexivity|].
  apply Forall_app. auto.
Qed.

Lemma emits_for_each {A} P (body : A -> M unit) l :
  (forall x, emits P (body x)) -> emits P (for_each body l).
Proof.
  intros Hb. induction l as [|x l IH]; simpl.
  - apply emits_ret.
  - apply emits_bind; auto.
Qed.

Lemma emits_reportVendorAtom E P event : P event -> emits P (reportVendorAtom E event).
Proof.
  intros HP w. exists [event]. split; [reflexivity|]. constructor; auto.
Qed.

(** Walks through a computation built from the monad's operations. *)
Ltac emits_steps :=
  repeat first
    [ apply emits_ret
    | apply emits_ALOG
    | apply emits_gets
    | apply emits_modify; intros; reflexivity
    | apply emits_for_each; intros
    | apply emits_bind; [|intros]
    | match goal with
      | |- emits _ (if ?b then _ else _) => destruct b
      | |- emits _ (match ?x with Some _ => _ | None => _ end) => destruct x
      | |- emits _ (let '(_, _) := ?x in _) => destruct x
      end ].

Lemma emits_bind_val {A B} P (Q : A -> Prop) (m : M A) (k : A -> M B) :
  (forall w, Q (val m w)) -> emits P m -> (forall a, Q a -> emits P (k a)) ->
  emits P (bind m k).
Proof.
  intros HQ Hm Hk w. rewrite exec_bind.
  destruct (Hm w) as (n1 & H1 & F1).
  destruct (Hk (val m w) (HQ w) (exec m w)) as (n2 & H2 & F2).
  exists (n1 ++ n2). rewrite H2, H1, app_assoc. split; [reflexivity|].
  apply Forall_app. auto.
Qed.

(** ** The width of the records *)

Lemma emits_ReportChargeStats E line wline_at wline_ac pca_line :
  schema_ok E -> emits width_ok (ReportChargeStats E line wline_at wline_ac pca_line).
Proof.
  intros Hs. unfold ReportChargeStats.
  apply emits_bind; [apply emits_gets|]. intros file.
  destruct (assemble E file line wline_at wline_ac pca_line) as [msgs r] eqn:Ha.
  apply emits_bind; [apply emits_ALOG|]. intros _.
  destruct r as [l|]; [|apply emits_ret].
  pose proof (assemble_fields_size E file line wline_at wline_ac pca_line l) as Hfs.
  rewrite Ha in Hfs. specialize (Hfs eq_refl).
  apply emits_bind.
  - apply emits_reportVendorAtom. unfold width_ok, populated. cbn [atomId values].
    rewrite chg_values_populated by (auto; lia).
    destruct Hfs as [-> | ->]; [left | right]; reflexivity.
  - intros ok. destruct (negb ok); [apply emits_ALOG | apply emits_ret].
Qed.

Lemma emits_ReportVoltageTierStats E line has_wireless wfile_contents :
  schema_ok E ->
  emits width_ok (ReportVoltageTierStats E line has_wireless wfile_contents).
Proof.
  intros Hs. unfold ReportVoltageTierStats.
  destruct (sscanf line TIER_FMT) as [n vs].
  destruct (negb (n =? 16)); [apply emits_ret|].
  assert (Hrest : forall t fs, fs = 16 \/ fs = 20 ->
    emits width_ok
      (run ALOGD "VoltageTierStats: processed %s" [AStr line];
       do ok <- reportVendorAtom E
                  {| reverseDomainName := ""; atomId := kVoltageTierStats;
                     values := vtier_values E t (float_of vs) fs |};
       if negb ok then ALOGE "Unable to report VoltageTierStats to Stats service" []
       else ret tt)).
  { intros t fs Hfs. apply emits_bind; [apply emits_ALOG|]. intros _.
    apply emits_bind.
    - apply emits_reportVendorAtom. unfold width_ok, populated. cbn [atomId values].
      rewrite vtier_values_populated by (auto; lia).
      destruct Hfs as [-> | ->]; [left | right]; reflexivity.
    - intros ok. destruct (negb ok); [apply emits_ALOG | apply emits_ret]. }
  destruct has_wireless.
  - apply (emits_bind_val _ (fun a => snd a = 20)).
    + intros w. reflexivity.
    + emits_steps.
    + intros [t fs] Hfs. simpl in Hfs. apply Hrest. auto.
  - apply (emits_bind_val _ (fun a => snd a = 16)).
    + intros w. reflexivity.
    + emits_steps.
    + intros [t fs] Hfs. simpl in Hfs. apply Hrest. auto.
Qed.

Lemma emits_WriteStringToFile E P content path :
  emits P (WriteStringToFile E content path).
Proof. unfold WriteStringToFile. emits_steps. Qed.

Lemma emits_shouldReportEvent P : emits P shouldReportEvent.
Proof. unfold shouldReportEvent, getTimeSecs, ALOGE. emits_steps. Qed.

Lemma emits_call_helper P h : emits P (call_helper h).
Proof.
  unfold call_helper. apply emits_bind; [apply emits_gets|]. intros f.
  destruct (h f) as [[has contents] f']. emits_steps.
Qed.

Lemma emits_report_tier_source E path :
  schema_ok E -> emits width_ok (report_tier_source E path).
Proof.
  intros Hs. unfold report_tier_source, checkContentsAndAck, ReadFileToString, ALOGE.
  apply emits_bind.
  - apply emits_bind; [apply emits_gets|]. intros [c|]; [|apply emits_ret].
    apply emits_bind; [apply emits_WriteStringToFile|]. intros ok.
    destruct (negb ok); emits_steps.
  - intros [has contents]. destruct has; [|apply emits_ret].
    apply emits_for_each. intros l. apply emits_ReportVoltageTierStats, Hs.
Qed.

Lemma emits_report_all E line ss :
  schema_ok E -> emits width_ok (report_all E line ss).
Proof.
  intros Hs. unfold report_all.
  apply emits_bind; [apply emits_call_helper|]. intros [has_pca pca_file_contents].
  apply emits_bind; [apply emits_call_helper|]. intros [has_wireless wfile_contents].
  apply emits_bind; [destruct has_wireless; emits_steps|]. intros _.
  apply emits_bind; [apply emits_ReportChargeStats, Hs|]. intros _.
  apply emits_bind.
  { apply emits_for_each. intros l. apply emits_ReportVoltageTierStats, Hs. }
  intros _.
  apply emits_bind; [apply emits_report_tier_source, Hs|]. intros _.
  apply emits_bind; [apply emits_report_tier_source, Hs|]. intros _.
  apply emits_report_tier_source, Hs.
Qed.

Lemma emits_checkAndReport E path :
  schema_ok E -> emits width_ok (checkAndReport E path).
Proof.
  intros Hs. unfold checkAndReport, ReadFileToString, ALOGE, ALOGW.
  apply emits_bind; [apply emits_gets|]. intros [file_contents|]; [|apply emits_ALOG].
  destruct (getline file_contents) as [[line ss]|]; [|apply emits_ALOG].
  apply emits_bind; [apply emits_WriteStringToFile|]. intros cleared.
  apply emits_bind; [destruct (negb cleared); emits_steps|]. intros _.
  apply emits_bind; [apply emits_shouldReportEvent|]. intros should.
  destruct (negb should); [apply emits_ALOG|].
  apply emits_report_all, Hs.
Qed.

(** C8: every record a drain hands to the stats service has a populated-slot
    count of 10 or 17 when it is a session record and of 16 or 20 when it is
    a voltage-tier sample, the field numbers being pairwise different and
    within the vector. *)
Theorem record_width (E : Env) (path : string) (w : World) :
  schema_ok E ->
  exists new,
    reported (exec (checkAndReport E path) w) = reported w ++ new
    /\ Forall (fun a =>
                 match atomId a with
                 | kChargeStats => populated a = 10%nat \/ populated a = 17%nat
                 | kVoltageTierStats => populated a = 16%nat \/ populated a = 20%nat
                 end) new.
Proof. intros Hs. exact (emits_checkAndReport E path Hs w). Qed.

Lemma record_width_witness :
  let E := Sample.env [] in
  let w := Sample.world 100
             [("charge", Sample.summary +:+ Sample.nl +:+ Sample.tier);
              ("thermal", Sample.tier)] in
  exists new,
    reported (exec (checkAndReport E "charge") w) = reported w ++ new
    /\ Forall (fun a =>
                 match atomId a with
                 | kChargeStats => populated a = 10%nat \/ populated a = 17%nat
                 | kVoltageTierStats => populated a = 16%nat \/ populated a = 20%nat
                 end) new.
Proof.
  apply (record_width (Sample.env []) "charge").
  repeat split; apply (bool_decide_unpack _); vm_compute; exact I.
Defined.

(** ** The worlds a drain goes through *)

Lemma add_reported_nil w : add_reported [] w = w.
Proof. destruct w. unfold add_reported. simpl. rewrite app_nil_r. reflexivity. Qed.

Lemma add_reported_app a b w :
  add_reported b (add_reported a w) = add_reported (a ++ b) w.
Proof. unfold add_reported. simpl. rewrite app_assoc. reflexivity. Qed.

Lemma set_wireless_same w : set_wireless (wireless_charge_stats_ w) w = w.
Proof. destruct w. reflexivity. Qed.

Lemma val_WriteStringToFile E content path w :
  val (WriteStringToFile E content path) w = writable E path.
Proof. unfold WriteStringToFile. destruct (writable E path); reflexivity. Qed.

Lemma exec_WriteStringToFile E path w :
  exec (WriteStringToFile E "0" path) w = clear_source E path w.
Proof.
  unfold WriteStringToFile, clear_source. destruct (writable E path); reflexivity.
Qed.

Lemma shouldReportEvent_clear_source E path w :
  val shouldReportEvent (clear_source E path w) = val shouldReportEvent w
  /\ exec shouldReportEvent (clear_source E path w)
     = clear_source E path (exec shouldReportEvent w).
Proof.
  unfold val, exec, clear_source. rewrite !shouldReportEvent_spec.
  destruct (writable E path); cbn [boottime_secs log_event_time_secs_ set_files];
    [|auto].
  destruct (boottime_secs w =? 0); [auto|].
  destruct (_ || _); auto.
Qed.

(** A drain whose session the throttle rejects ends after the attempt to
    clear the primary source. *)
Lemma checkAndReport_rejected E path w text line ss :
  files w !! path = Some text -> getline text = Some (line, ss) ->
  val shouldReportEvent w = false ->
  exec (checkAndReport E path) w = clear_source E path w.
Proof.
  intros Hf Hg Hrej. unfold checkAndReport.
  rewrite exec_bind. change (val (ReadFileToString path) w) with (files w !! path).
  rewrite Hf, Hg. change (exec (ReadFileToString path) w) with w.
  rewrite exec_bind, val_WriteStringToFile, exec_WriteStringToFile.
  rewrite exec_bind.
  assert (Hlog : exec (if negb (writable E path)
                       then ALOGE "Couldn't clear %s - %s" [AStr path]
                       else ret tt) (clear_source E path w) = clear_source E path w).
  { destruct (writable E path); reflexivity. }
  rewrite Hlog. rewrite exec_bind.
  destruct (shouldReportEvent_clear_source E path w) as [Hv He].
  rewrite Hv, He, Hrej. rewrite (shouldReportEvent_rejected w Hrej). reflexivity.
Qed.

(** A drain whose session the throttle accepts goes on to [report_all], with
    the summary line and the rest of the text read from the primary source,
    whether or not that source could be cleared. *)
Lemma checkAndReport_accepted E path w text line ss :
  files w !! path = Some text -> getline text = Some (line, ss) ->
  val shouldReportEvent w = true ->
  exec (checkAndReport E path) w
  = exec (report_all E line ss)
      (clear_source E path (set_log_event_time (boottime_secs w) w)).
Proof.
  intros Hf Hg Hacc. unfold checkAndReport.
  rewrite exec_bind. change (val (ReadFileToString path) w) with (files w !! path).
  rewrite Hf, Hg. change (exec (ReadFileToString path) w) with w.
  rewrite exec_bind, val_WriteStringToFile, exec_WriteStringToFile.
  rewrite exec_bind.
  assert (Hlog : exec (if negb (writable E path)
                       then ALOGE "Couldn't clear %s - %s" [AStr path]
                       else ret tt) (clear_source E path w) = clear_source E path w).
  { destruct (writable E path); reflexivity. }
  rewrite Hlog. rewrite exec_bind.
  destruct (shouldReportEvent_clear_source E path w) as [Hv He].
  rewrite Hv, He, Hacc.
  destruct (shouldReportEvent_accepted w Hacc) as [-> _]. reflexivity.
Qed.

(** ** What an accepted drain reports *)

Lemma ReportChargeStats_exec E line wline_at wline_ac pca_line w :
  exec (ReportChargeStats E line wline_at wline_ac pca_line) w
  = add_reported
      (session_atoms E (files w !! kGChargerMetricsPath E)
                     line wline_at wline_ac pca_line) w.
Proof.
  unfold ReportChargeStats, session_atoms. rewrite exec_bind.
  change (val (ReadFileToString (kGChargerMetricsPath E)) w)
    with (files w !! kGChargerMetricsPath E).
  change (exec (ReadFileToString (kGChargerMetricsPath E)) w) with w.
  destruct (assemble E _ line wline_at wline_ac pca_line) as [msgs [l|]]; cbn [snd].
  - rewrite exec_bind, exec_ALOG, exec_bind.
    change (exec (reportVendorAtom E _) w) with (add_reported [chg_event E l] w).
    destruct (negb _); reflexivity.
  - rewrite exec_bind, exec_ALOG. symmetry. apply add_reported_nil.
Qed.

Lemma ReportVoltageTierStats_exec_plain E line wfile_contents w :
  exec (ReportVoltageTierStats E line false wfile_contents) w
  = add_reported (if tier_ok line then [tier_event E line None] else []) w.
Proof.
  unfold ReportVoltageTierStats, tier_ok, tier_event, tier_ssoc.
  destruct (sscanf line TIER_FMT) as [n vs]. cbn [fst snd].
  destruct (n =? 16); cbn [negb].
  - rewrite exec_bind. cbn [val exec ret fst snd].
    rewrite exec_bind, exec_ALOGD, exec_bind.
    match goal with |- context [exec (reportVendorAtom E ?a) w] =>
      change (exec (reportVendorAtom E a) w) with (add_reported [a] w) end.
    destruct (negb _); reflexivity.
  - symmetry. apply add_reported_nil.
Qed.

Lemma ReportVoltageTierStats_exec_wireless E line wfile_contents w :
  exec (ReportVoltageTierStats E line true wfile_contents) w
  = if tier_ok line then
      let ws' := CalculateWirelessChargeStats E (static_cast_int E (tier_ssoc line))
                   wfile_contents (wireless_charge_stats_ w) in
      add_reported [tier_event E line (Some ws')] (set_wireless ws' w)
    else w.
Proof.
  unfold ReportVoltageTierStats, tier_ok, tier_event, tier_ssoc.
  destruct (sscanf line TIER_FMT) as [n vs]. cbn [fst snd].
  destruct (n =? 16); cbn [negb]; [|reflexivity].
  rewrite exec_bind.
  set (ws' := CalculateWirelessChargeStats E (static_cast_int E (float_of vs))
                wfile_contents (wireless_charge_stats_ w)).
  match goal with |- context [val ?m w] =>
    change (exec m w) with (set_wireless ws' w);
    change (val m w)
      with (<[18%nat := of_freq_ ws']>
              (<[17%nat := pout_max_ ws']>
                 (<[16%nat := pout_avg_ ws']>
                    (<[15%nat := pout_min_ ws']>
                       (store_at 0 (ints vs)
                          (replicate (Z.to_nat (vtier_fields_size E - 1)) 0))))),
            vtier_fields_size E)
  end.
  cbv beta iota zeta. rewrite exec_bind, exec_ALOGD, exec_bind.
  match goal with |- context [exec (reportVendorAtom E ?a) ?w0] =>
    change (exec (reportVendorAtom E a) w0) with (add_reported [a] w0) end.
  destruct (negb _); reflexivity.
Qed.

Lemma for_each_plain E wfile_contents ls : forall w,
  exec (for_each (fun line => ReportVoltageTierStats E (c_str line) false wfile_contents) ls) w
  = add_reported
      (omap (fun line => if tier_ok (c_str line)
                         then Some (tier_event E (c_str line) None) else None) ls) w.
Proof.
  induction ls as [|l ls IH]; intros w; cbn [for_each omap list_omap].
  - symmetry. apply add_reported_nil.
  - rewrite exec_bind, ReportVoltageTierStats_exec_plain, IH, add_reported_app.
    destruct (tier_ok (c_str l)); reflexivity.
Qed.

Lemma for_each_wireless E wfile_contents ls : forall w,
  exec (for_each (fun line => ReportVoltageTierStats E (c_str line) true wfile_contents) ls) w
  = add_reported (fst (wireless_tiers E wfile_contents ls (wireless_charge_stats_ w)))
      (set_wireless (snd (wireless_tiers E wfile_contents ls (wireless_charge_stats_ w))) w).
Proof.
  induction ls as [|l ls IH]; intros w; cbn [for_each wireless_tiers].
  - cbn [fst snd]. rewrite set_wireless_same. symmetry. apply add_reported_nil.
  - rewrite exec_bind, ReportVoltageTierStats_exec_wireless, IH.
    destruct (tier_ok (c_str l)); [|reflexivity]. cbv zeta.
    cbn [wireless_charge_stats_ add_reported set_wireless].
    destruct (wireless_tiers E wfile_contents ls _) as [atoms ws''].
    cbn [fst snd]. unfold add_reported, set_wireless.
    cbn [files boottime_secs log_event_time_secs_ wireless_charge_stats_ reported].
    rewrite <- app_assoc. reflexivity.
Qed.

Lemma checkContentsAndAck_spec E path w :
  val (checkContentsAndAck E path) w
  = match files w !! path with
    | Some contents => (writable E path, contents)
    | None => (false, EmptyString)
    end
  /\ exec (checkContentsAndAck E path) w = set_files (ack_source E path (files w)) w
  /\ logged (checkContentsAndAck E path) w
     = match files w !! path with
       | Some _ => if writable E path then []
                   else [ALOGE_msg "Couldn't clear %s - %s" [AStr path]]
       | None => []
       end.
Proof.
  unfold checkContentsAndAck, ack_source, WriteStringToFile, ReadFileToString,
    val, exec, logged, bind, gets, modify, ret, ALOGE, ALOG.
  destruct w as [f bt le ws rp]. cbn [files].
  destruct (f !! path) as [c|]; [|auto].
  destruct (writable E path); auto.
Qed.

Lemma report_tier_source_exec E path w :
  exec (report_tier_source E path) w
  = add_reported (source_tiers E path (files w))
      (set_files (ack_source E path (files w)) w).
Proof.
  unfold report_tier_source. rewrite exec_bind.
  destruct (checkContentsAndAck_spec E path w) as (Hv & He & _). rewrite Hv, He.
  unfold source_tiers. destruct (files w !! path) as [c|].
  - destruct (writable E path); [apply for_each_plain|].
    symmetry. apply add_reported_nil.
  - symmetry. apply add_reported_nil.
Qed.

Lemma call_helper_spec h w :
  val (call_helper h) w = fst (h (files w))
  /\ exec (call_helper h) w = set_files (snd (h (files w))) w.
Proof.
  unfold call_helper, val, exec, bind, gets, modify, ret. cbn [fst snd].
  destruct (h (files w)) as [[has contents] f']. auto.
Qed.

(** What [report_all] hands to the stats service, in order: the session
    record if the summary line scans, the tier samples of the primary
    stream, and those of the tier-only sources. *)
Lemma report_all_reported E line ss w :
  reported (exec (report_all E line ss) w)
  = reported w ++ drain_session E line w ++ drain_primary_tiers E ss w
      ++ drain_aux_tiers E w.
Proof.
  unfold report_all, drain_session, drain_primary_tiers, drain_aux_tiers,
    drain_wline_at, drain_wline_ac, drain_pca_line, drain_has_wireless,
    drain_wfile_contents, drain_files, wireless_helper, pca_helper.
  rewrite exec_bind.
  destruct (call_helper_spec (CheckPcaContentsAndAck E) w) as [-> ->].
  destruct (CheckPcaContentsAndAck E (files w)) as [[has_pca pca_text] f1].
  cbn [fst snd]. rewrite exec_bind.
  destruct (call_helper_spec (CheckWirelessContentsAndAck E) (set_files f1 w)) as [-> ->].
  cbn [files set_files].
  destruct (CheckWirelessContentsAndAck E f1) as [[has_wireless wtext] f2].
  cbn [fst snd]. rewrite exec_bind.
  set (wat := if has_wireless then first_line wtext else EmptyString).
  set (wac := if has_wireless then first_line (snd (until_newline wtext)) else EmptyString).
  set (pl := if has_pca then first_line pca_text else EmptyString).
  destruct has_wireless.
  - change (exec (modify _) ?w0) with
      (set_wireless (reset_tier_soc (wireless_charge_stats_ w)) (set_files f2 w)).
    rewrite exec_bind, ReportChargeStats_exec.
    rewrite exec_bind, for_each_wireless.
    rewrite exec_bind, report_tier_source_exec.
    rewrite exec_bind, report_tier_source_exec.
    rewrite report_tier_source_exec.
    cbn [reported files add_reported set_files set_wireless wireless_charge_stats_].
    rewrite <- !app_assoc. reflexivity.
  - change (exec (ret tt) ?w0) with (set_files f2 w).
    rewrite exec_bind, ReportChargeStats_exec.
    rewrite exec_bind, for_each_plain.
    rewrite exec_bind, report_tier_source_exec.
    rewrite exec_bind, report_tier_source_exec.
    rewrite report_tier_source_exec.
    cbn [reported files add_reported set_files set_wireless wireless_charge_stats_].
    rewrite <- !app_assoc. reflexivity.
Qed.

(** ** The drain and the throttle *)

Lemma clear_source_other E path w p :
  p <> path -> files (clear_source E path w) !! p = files w !! p.
Proof.
  intros Hp. unfold clear_source. destruct (writable E path); [|reflexivity].
  cbn [files set_files]. apply lookup_insert_ne. congruence.
Qed.

(** The two ways a drain that has read its summary line can go. *)
Lemma drain_outcomes E path w text line ss :
  files w !! path = Some text ->
  getline text = Some (line, ss) ->
  (val shouldReportEvent w = true ->
     reported (exec (checkAndReport E path) w)
     = reported w ++ drain_session E line (gate_passed E path w)
         ++ drain_primary_tiers E ss (gate_passed E path w)
         ++ drain_aux_tiers E (gate_passed E path w))
  /\ (val shouldReportEvent w = false ->
        reported (exec (checkAndReport E path) w) = reported w
        /\ forall p, p <> path ->
             files (exec (checkAndReport E path) w) !! p = files w !! p).
Proof.
  intros Hf Hg. split.
  - intros Hacc. rewrite (checkAndReport_accepted E path w text line ss Hf Hg Hacc).
    fold (gate_passed E path w). rewrite report_all_reported.
    f_equal. unfold gate_passed, clear_source. destruct (writable E path); reflexivity.
  - intros Hrej. rewrite (checkAndReport_rejected E path w text line ss Hf Hg Hrej).
    split; [unfold clear_source; destruct (writable E path); reflexivity|].
    intros p Hp. apply clear_source_other, Hp.
Qed.

(** C2 as stated fails: with the boot clock at zero, a drain over a primary
    log and a thermal source that both hold a well-formed tier line reports
    nothing, and leaves the thermal source unread. *)
Lemma tiers_dropped_at_boot_time_zero :
  let E := Sample.env [] in
  let w := Sample.world 0
             [("charge", Sample.summary +:+ Sample.nl +:+ Sample.tier);
              ("thermal", Sample.tier)] in
  let w' := exec (checkAndReport E "charge") w in
  tier_ok (c_str Sample.tier) = true
  /\ reported w' = []
  /\ files w' !! "thermal" = Some Sample.tier.
Proof. vm_compute. repeat split; reflexivity. Qed.

(** ** A summary line in none of the formats *)

Lemma session_atoms_unparsed E gcharger line wline_at wline_ac pca_line :
  fst (scan_summary line (tmp (chg_init E))) = None ->
  session_atoms E gcharger line wline_at wline_ac pca_line = [].
Proof.
  intros H. unfold session_atoms. rewrite assemble_spec.
  destruct (scan_summary line (tmp (chg_init E))) as [[f|] t]; [discriminate|reflexivity].
Qed.

(** C3 as stated fails: after a summary line in none of the formats, the
    tier line that follows it in the primary log is reported. *)
Lemma tier_reported_after_malformed_summary :
  let E := Sample.env [] in
  let w := Sample.world 100 [("charge", "junk" +:+ Sample.nl +:+ Sample.tier)] in
  fst (scan_summary "junk" (tmp (chg_init E))) = None
  /\ reported (exec (checkAndReport E "charge") w) = [tier_event E Sample.tier None].
Proof. split; vm_compute; reflexivity. Qed.

(** ** A source that cannot be cleared *)

Lemma clear_source_unwritable E path w :
  writable E path = false -> clear_source E path w = w.
Proof. intros H. unfold clear_source. rewrite H. reflexivity. Qed.

Lemma checkAndReport_logs_failed_clear E path w text line ss :
  files w !! path = Some text -> getline text = Some (line, ss) ->
  writable E path = false ->
  In (ALOGE_msg "Couldn't clear %s - %s" [AStr path]) (logged (checkAndReport E path) w).
Proof.
  intros Hf Hg Hw. unfold checkAndReport.
  rewrite logged_bind. change (val (ReadFileToString path) w) with (files w !! path).
  rewrite Hf, Hg. rewrite logged_bind, val_WriteStringToFile, Hw.
  rewrite logged_bind. cbn [negb].
  change (logged (ALOGE "Couldn't clear %s - %s" [AStr path]) ?w0)
    with [ALOGE_msg "Couldn't clear %s - %s" [AStr path]].
  apply in_or_app. right. apply in_or_app. right. left. reflexivity.
Qed.

(** C4 (as the code has it): when the primary source has been read, a
    failure to clear it is logged and the drain goes on with the text read.
    For a tier-only source read through [checkContentsAndAck] (thermal,
    generic-charger, dual-battery) a failure to clear is logged and the
    source then counts as absent: the text read from it is not used in the
    drain. *)
Theorem clear_failure (E : Env) (path : string) (w : World) (text line ss : string)
    (p : string) (w0 : World) (contents : string) :
  files w !! path = Some text ->
  getline text = Some (line, ss) ->
  writable E path = false ->
  val shouldReportEvent w = true ->
  files w0 !! p = Some contents ->
  writable E p = false ->
  let w1 := set_log_event_time (boottime_secs w) w in
  (reported (exec (checkAndReport E path) w)
   = reported w ++ drain_session E line w1 ++ drain_primary_tiers E ss w1
       ++ drain_aux_tiers E w1
   /\ In (ALOGE_msg "Couldn't clear %s - %s" [AStr path])
         (logged (checkAndReport E path) w))
  /\ (val (checkContentsAndAck E p) w0 = (false, contents)
      /\ logged (checkContentsAndAck E p) w0
         = [ALOGE_msg "Couldn't clear %s - %s" [AStr p]]
      /\ exec (report_tier_source E p) w0 = w0).
Proof.
  intros Hf Hg Hw Hacc Hp Hwp w1. split; [split|].
  - destruct (drain_outcomes E path w text line ss Hf Hg) as [Ha _].
    rewrite (Ha Hacc). unfold gate_passed.
    rewrite clear_source_unwritable by exact Hw. reflexivity.
  - apply (checkAndReport_logs_failed_clear E path w text line ss Hf Hg Hw).
  - destruct (checkContentsAndAck_spec E p w0) as (Hv & He & Hl).
    rewrite Hp, Hwp in Hv, Hl. split; [exact Hv|]. split; [exact Hl|].
    rewrite report_tier_source_exec. unfold source_tiers, ack_source.
    rewrite Hp, Hwp. rewrite add_reported_nil. destruct w0. reflexivity.
Qed.

Lemma clear_failure_witness :
  let E := Sample.env ["charge"; "thermal"] in
  let w := Sample.world 100
             [("charge", Sample.summary +:+ Sample.nl +:+ Sample.tier);
              ("thermal", Sample.tier)] in
  let w1 := set_log_event_time (boottime_secs w) w in
  (reported (exec (checkAndReport E "charge") w)
   = reported w ++ drain_session E Sample.summary w1
       ++ drain_primary_tiers E Sample.tier w1 ++ drain_aux_tiers E w1
   /\ In (ALOGE_msg "Couldn't clear %s - %s" [AStr "charge"])
         (logged (checkAndReport E "charge") w))
  /\ (val (checkContentsAndAck E "thermal") w = (false, Sample.tier)
      /\ logged (checkContentsAndAck E "thermal") w
         = [ALOGE_msg "Couldn't clear %s - %s" [AStr "thermal"]]
      /\ exec (report_tier_source E "thermal") w = w).
Proof.
  apply (clear_failure (Sample.env ["charge"; "thermal"]) "charge"
           (Sample.world 100
              [("charge", Sample.summary +:+ Sample.nl +:+ Sample.tier);
               ("thermal", Sample.tier)])
           (Sample.summary +:+ Sample.nl +:+ Sample.tier) Sample.summary Sample.tier
           "thermal" _ Sample.tier);
    vm_compute; reflexivity.
Defined.

(** C4 as stated fails: a thermal source that is read but cannot be cleared
    is reported absent, and the well-formed tier line read from it is not
    reported. *)
Lemma thermal_text_dropped_when_clear_fails :
  let E := Sample.env ["thermal"] in
  let w := Sample.world 100 [("thermal", Sample.tier)] in
  files w !! "thermal" = Some Sample.tier
  /\ plain_tiers E Sample.tier = [tier_event E Sample.tier None]
  /\ val (checkContentsAndAck E "thermal") w = (false, Sample.tier)
  /\ reported (exec (report_tier_source E "thermal") w) = [].
Proof. repeat split; vm_compute; reflexivity. Qed.

(** ** Worked examples *)

(** A base-format summary line: ten populated slots, adapter type 3 in the
    first and voltage-out 4450 in the seventh. *)
Example base_summary_record :
  let E := Sample.env [] in
  scan_summary Sample.summary (tmp (chg_init E))
  = (Some FMT0_base, [3; 9000; 2000; 80; 4400; 90; 4450; 0; 0; 0; 0; 0; 0; 0; 0; 0; 0])
  /\ exists a,
       session_atoms E None Sample.summary EmptyString EmptyString EmptyString = [a]
       /\ populated a = 10%nat
       /\ values a !! idx (charge_stats_fields E) (kVendorAtomOffset E) 0
          = Some (Some (intValue 3))
       /\ values a !! idx (charge_stats_fields E) (kVendorAtomOffset E) 6
          = Some (Some (intValue 4450)).
Proof. split; [vm_compute; reflexivity|]. eexists. vm_compute. repeat split. Qed.

(** The same summary with the two wireless lines: seventeen populated
    slots, slots 10 to 16 holding 1 to 7. *)
Example wireless_summary_record :
  let E := Sample.env [] in
  exists l,
    snd (assemble E None Sample.summary "A:2" "D:1,2,3,4,5, 6,7" EmptyString) = Some l
    /\ fields_size l = 17
    /\ tmp l = [TranslateSysModeToAtomValue E 2; 9000; 2000; 80; 4400; 90; 4450;
                0; 0; 0; 1; 2; 3; 4; 5; 6; 7]
    /\ populated (chg_event E l) = 17%nat.
Proof. eexists. vm_compute. repeat split. Qed.

(** A tier line: sixteen populated slots, the tier index an integer and the
    state of charge a float. *)
Example tier_sample_record :
  let E := Sample.env [] in
  let a := tier_event E Sample.tier None in
  tier_ok Sample.tier = true
  /\ populated a = 16%nat
  /\ values a !! idx (voltage_tier_stats_fields E) (kVendorAtomOffset E) 0
     = Some (Some (intValue 1))
  /\ values a !! idx (voltage_tier_stats_fields E) (kVendorAtomOffset E) 1
     = Some (Some (floatValue "85.5")).
Proof. vm_compute. repeat split. Qed.

(** A line with nine fields is read as AACR, and the ninth value, stored by
    the CSI scan that was given up, stays in [tmp]. *)
Example nine_fields_read_as_aacr :
  scan_summary "1,2,3, 4,5,6,7 8 9" (replicate 17 0)
  = (Some FMT1_AACR, [1; 2; 3; 4; 5; 6; 7; 8; 9; 0; 0; 0; 0; 0; 0; 0; 0]).
Proof. vm_compute. reflexivity. Qed.

(** With neither wireless nor PCA data the record keeps its ten populated
    slots: the generic-charger values are in [tmp[15]] and [tmp[16]] but
    beyond the part of [tmp] that is reported. *)
Example gcharger_alone_keeps_ten_slots :
  let E := Sample.env [] in
  exists l,
    snd (assemble E (Some "D:1,2,3,4,5,6,7") Sample.summary
           EmptyString EmptyString EmptyString) = Some l
    /\ tmp l !! 15%nat = Some 2 /\ tmp l !! 16%nat = Some 7
    /\ fields_size l = 10
    /\ populated (chg_event E l) = 10%nat
    /\ values (chg_event E l) !! idx (charge_stats_fields E) (kVendorAtomOffset E) 15
       = Some None.
Proof. eexists. vm_compute. repeat split. Qed.

(** A wireless file whose first line is empty gives an empty adapter-type
    line, which the PCA block takes for the absence of wireless data. *)
Example empty_wireless_type_line_counts_as_absent :
  let E := Sample.env [] in
  let w := Sample.world 100
             [("charge", Sample.summary);
              ("wlc", Sample.nl +:+ "D:1,2,3,4,5, 6,7");
              ("pca", "D:a,b c,d,e,f,10")] in
  drain_has_wireless E (files w) = true
  /\ drain_wline_at E (files w) = EmptyString
  /\ exists a,
       reported (exec (checkAndReport E "charge") w) = [a]
       /\ values a !! idx (charge_stats_fields E) (kVendorAtomOffset E) 0
          = Some (Some (intValue (ADAPTER_TYPE_USB_PD_PPS E))).
Proof. split; [|split]; [vm_compute; reflexivity ..|]. eexists. vm_compute. split; reflexivity. Qed.

(** * Further properties *)

(** ** The loop over the lines of a stream *)

(** [lines] lists what successive calls of [getline] yield. *)
Lemma lines_getline ss :
  match getline ss with
  | Some (l, rest) => lines ss = l :: lines rest
  | None => lines ss = []
  end.
Proof.
  destruct ss as [|c r]; [reflexivity|]. cbn [getline].
  revert c. induction r as [|c' r IH]; intros c.
  - cbn. destruct (Ascii.eqb c newline); reflexivity.
  - specialize (IH c'). cbn [until_newline lines] in *.
    destruct (Ascii.eqb c newline); [reflexivity|].
    destruct (Ascii.eqb c' newline).
    + reflexivity.
    + destruct (until_newline r) as [l r']. rewrite IH. reflexivity.
Qed.

(** ** The throttle over a run of attempts *)

Lemma attempts_spaced_from times : forall w,
  Forall (fun t => 0 < t) times ->
  (forall t, head (fst (attempts times w)) = Some t ->
     log_event_time_secs_ w = 0 \/ log_event_time_secs_ w + DURATION_FILTER_SECS < t)
  /\ spaced (fst (attempts times w))
  /\ log_event_time_secs_ (snd (attempts times w))
     = default (log_event_time_secs_ w) (last (fst (attempts times w))).
Proof.
  induction times as [|t rest IH]; intros w Hpos.
  - cbn. split; [discriminate|]. split; [|reflexivity]. intros i t1 t2 H. discriminate.
  - inversion Hpos as [|? ? Ht Hrest]; subst. cbn [attempts].
    set (w1 := set_boottime t w).
    destruct (IH (exec shouldReportEvent w1) Hrest) as (Hhead & Hsp & Hlast).
    destruct (attempts rest (exec shouldReportEvent w1)) as [acc w2] eqn:Hatt.
    cbn [fst snd] in *.
    assert (Hspec := shouldReportEvent_spec w1).
    unfold val, exec in *.
    destruct (shouldReportEvent w1) as [[ok w1'] lg]. cbn [fst snd] in *.
    subst w1. cbn [boottime_secs log_event_time_secs_ set_boottime] in Hspec.
    destruct (Z.eqb_spec t 0); [lia|].
    destruct ((log_event_time_secs_ w =? 0)
              || (log_event_time_secs_ w + DURATION_FILTER_SECS <? t)) eqn:Hc;
      injection Hspec as -> -> _.
    + cbn [log_event_time_secs_ set_log_event_time set_boottime] in *.
      split; [|split].
      * intros t' [= <-]. apply orb_true_iff in Hc. destruct Hc as [Hc|Hc]; [left|right]; lia.
      * intros [|i] t1 t2 H1 H2; cbn in H1, H2.
        -- injection H1 as <-. destruct (Hhead t2) as [H0|Hlt]; [|lia|exact Hlt].
           destruct acc; [discriminate | exact H2].
        -- apply (Hsp i); assumption.
      * assert (Hl : last (t :: acc) = Some (default t (last acc)))
          by (rewrite last_cons; destruct (last acc); reflexivity).
        rewrite Hl. exact Hlast.
    + cbn [log_event_time_secs_ set_boottime] in *. auto.
Qed.

(** X1: over any run of report attempts at positive boot times, whatever
    their order, two attempts accepted one after the other are more than
    fifteen seconds apart, and the window anchor ends at the time of the last
    accepted attempt (or where it was, when none is accepted). *)
Theorem accepted_attempts_spaced (times : list Z) (w : World) :
  Forall (fun t => 0 < t) times ->
  spaced (fst (attempts times w))
  /\ log_event_time_secs_ (snd (attempts times w))
     = default (log_event_time_secs_ w) (last (fst (attempts times w))).
Proof. intros Hpos. exact (proj2 (attempts_spaced_from times w Hpos)). Qed.

Lemma accepted_attempts_spaced_witness :
  let w := Sample.world 0 [] in
  let times := [100; 110; 115; 116; 120; 140; 90] in
  spaced (fst (attempts times w))
  /\ log_event_time_secs_ (snd (attempts times w))
     = default (log_event_time_secs_ w) (last (fst (attempts times w))).
Proof.
  apply (accepted_attempts_spaced [100; 110; 115; 116; 120; 140; 90] (Sample.world 0 [])).
  repeat constructor.
Defined.

(** The run of the witness: of the seven attempts, those at 100, 116 and
    140 are accepted. *)
Example attempts_run :
  fst (attempts [100; 110; 115; 116; 120; 140; 90] (Sample.world 0 [])) = [100; 116; 140].
Proof. vm_compute. reflexivity. Qed.

(** ** The world after a drain *)

Lemma World_eq (a b : World) :
  files a = files b -> boottime_secs a = boottime_secs b ->
  log_event_time_secs_ a = log_event_time_secs_ b ->
  wireless_charge_stats_ a = wireless_charge_stats_ b ->
  reported a = reported b -> a = b.
Proof. destruct a, b. cbn. intros -> -> -> -> ->. reflexivity. Qed.

(** [report_all] in full: the sources acknowledged, the wireless helper
    stepped once per tier line of the primary stream, the atoms appended; the
    clock and the window anchor are not touched. *)
Lemma report_all_exec E line ss w :
  exec (report_all E line ss) w
  = {| files := drain_final_files E w;
       boottime_secs := boottime_secs w;
       log_event_time_secs_ := log_event_time_secs_ w;
       wireless_charge_stats_ := drain_wireless E ss w;
       reported := reported w ++ drain_session E line w
                     ++ drain_primary_tiers E ss w ++ drain_aux_tiers E w |}.
Proof.
  unfold report_all, drain_session, drain_primary_tiers, drain_aux_tiers,
    drain_final_files, drain_wireless,
    drain_wline_at, drain_wline_ac, drain_pca_line, drain_has_wireless,
    drain_wfile_contents, drain_files, wireless_helper, pca_helper.
  rewrite exec_bind.
  destruct (call_helper_spec (CheckPcaContentsAndAck E) w) as [-> ->].
  destruct (CheckPcaContentsAndAck E (files w)) as [[has_pca pca_text] f1].
  cbn [fst snd]. rewrite exec_bind.
  destruct (call_helper_spec (CheckWirelessContentsAndAck E) (set_files f1 w)) as [-> ->].
  cbn [files set_files].
  destruct (CheckWirelessContentsAndAck E f1) as [[has_wireless wtext] f2].
  cbn [fst snd]. rewrite exec_bind.
  set (wat := if has_wireless then first_line wtext else EmptyString).
  set (wac := if has_wireless then first_line (snd (until_newline wtext)) else EmptyString).
  set (pl := if has_pca then first_line pca_text else EmptyString).
  destruct has_wireless.
  - change (exec (modify _) ?w0) with
      (set_wireless (reset_tier_soc (wireless_charge_stats_ w)) (set_files f2 w)).
    rewrite exec_bind, ReportChargeStats_exec.
    rewrite exec_bind, for_each_wireless.
    rewrite exec_bind, report_tier_source_exec.
    rewrite exec_bind, report_tier_source_exec.
    rewrite report_tier_source_exec.
    apply World_eq;
      cbn [reported files boottime_secs log_event_time_secs_ wireless_charge_stats_
           add_reported set_files set_wireless];
      rewrite <- ?app_assoc; reflexivity.
  - change (exec (ret tt) ?w0) with (set_files f2 w).
    rewrite exec_bind, ReportChargeStats_exec.
    rewrite exec_bind, for_each_plain.
    rewrite exec_bind, report_tier_source_exec.
    rewrite exec_bind, report_tier_source_exec.
    rewrite report_tier_source_exec.
    apply World_eq;
      cbn [reported files boottime_secs log_event_time_secs_ wireless_charge_stats_
           add_reported set_files set_wireless];
      rewrite <- ?app_assoc; reflexivity.
Qed.

(** A drain that cannot read the primary source, or finds it empty, ends
    where it started. *)
Lemma checkAndReport_no_first_line E path w :
  has_first_line w path = false -> exec (checkAndReport E path) w = w.
Proof.
  unfold has_first_line, checkAndReport. intros H. rewrite exec_bind.
  change (val (ReadFileToString path) w) with (files w !! path).
  change (exec (ReadFileToString path) w) with w.
  destruct (files w !! path) as [text|]; [|reflexivity].
  destruct (getline text) as [[line ss]|]; [|reflexivity].
  rewrite bool_decide_eq_true_2 in H by eauto. discriminate.
Qed.

Lemma has_first_line_inv w path :
  has_first_line w path = true ->
  exists text line ss, files w !! path = Some text /\ getline text = Some (line, ss).
Proof.
  unfold has_first_line. destruct (files w !! path) as [text|]; [|discriminate].
  intros H. apply bool_decide_eq_true in H. destruct H as [[line ss] H].
  exists text, line, ss. auto.
Qed.

(** X2: a drain moves the window anchor to the boot time exactly when it
    has read a first line from the primary source and the throttle has
    accepted it, whether or not that line then scans as a summary; in every
    other case (source unreadable, source empty, attempt rejected) the anchor
    stays, and a drain that got no first line changes nothing at all: the
    source is not cleared and no attempt is counted.  The clock is never
    written. *)
Theorem anchor_after_drain (E : Env) (path : string) (w : World) :
  let w' := exec (checkAndReport E path) w in
  log_event_time_secs_ w'
  = (if has_first_line w path && val shouldReportEvent w
     then boottime_secs w else log_event_time_secs_ w)
  /\ boottime_secs w' = boottime_secs w
  /\ (has_first_line w path = false -> w' = w).
Proof.
  intros w'. subst w'.
  destruct (has_first_line w path) eqn:Hfl.
  - destruct (has_first_line_inv w path Hfl) as (text & line & ss & Hf & Hg).
    destruct (val shouldReportEvent w) eqn:Hv; cbn [andb].
    + rewrite (checkAndReport_accepted E path w text line ss Hf Hg Hv).
      rewrite report_all_exec. cbn [log_event_time_secs_ boottime_secs].
      unfold clear_source.
      destruct (writable E path);
        cbn [log_event_time_secs_ boottime_secs set_files set_log_event_time];
        (split; [reflexivity|]); (split; [reflexivity|]); intros; discriminate.
    + rewrite (checkAndReport_rejected E path w text line ss Hf Hg Hv).
      unfold clear_source.
      destruct (writable E path);
        cbn [log_event_time_secs_ boottime_secs set_files];
        (split; [reflexivity|]); (split; [reflexivity|]); intros; discriminate.
  - cbn [andb]. rewrite (checkAndReport_no_first_line E path w Hfl).
    split; [reflexivity|]. split; reflexivity.
Qed.

Lemma anchor_after_drain_witness :
  let E := Sample.env [] in
  let w := Sample.world 100 [("charge", "junk")] in
  let w' := exec (checkAndReport E "charge") w in
  log_event_time_secs_ w'
  = (if has_first_line w "charge" && val shouldReportEvent w
     then boottime_secs w else log_event_time_secs_ w)
  /\ boottime_secs w' = boottime_secs w
  /\ (has_first_line w "charge" = false -> w' = w).
Proof.
  exact (anchor_after_drain (Sample.env []) "charge" (Sample.world 100 [("charge", "junk")])).
Defined.

(** ** The files after a drain *)

Lemma ack_source_lookup E p f q :
  ack_source E p f !! q = if decide (p = q) then acked E q (f !! q) else f !! q.
Proof.
  unfold ack_source, acked. destruct (decide (p = q)) as [->|Hne].
  - destruct (f !! q) as [c|] eqn:Hq; [|exact Hq].
    destruct (writable E q); [apply lookup_insert_eq | exact Hq].
  - destruct (f !! p) as [c|]; [|reflexivity].
    destruct (writable E p); [apply lookup_insert_ne; exact Hne | reflexivity].
Qed.

Lemma acked_acked E q o : acked E q (acked E q o) = acked E q o.
Proof. destruct o as [c|]; [|reflexivity]. cbn. destruct (writable E q); reflexivity. Qed.

(** X3: in an accepted drain, after the two helper objects have run, the
    reporter writes to the thermal, generic-charger and dual-battery sources
    only, and only ["0"]: such a source holds ["0"] afterwards if it was
    there and could be cleared, and is as before otherwise; every other file
    is as the helpers left it. *)
Theorem files_after_accepted_drain (E : Env) (path : string) (w : World)
    (text line ss : string) (q : string) :
  files w !! path = Some text ->
  getline text = Some (line, ss) ->
  val shouldReportEvent w = true ->
  let w' := exec (checkAndReport E path) w in
  let f := drain_files E (files (gate_passed E path w)) in
  files w' !! q
  = if bool_decide (q ∈ [kThermalChargeMetricsPath E; kGChargerMetricsPath E;
                         kGDualBattMetricsPath E])
    then acked E q (f !! q) else f !! q.
Proof.
  intros Hf Hg Hacc w' f. subst w' f.
  rewrite (checkAndReport_accepted E path w text line ss Hf Hg Hacc).
  fold (gate_passed E path w). rewrite report_all_exec. cbn [files].
  unfold drain_final_files. rewrite !ack_source_lookup.
  generalize (drain_files E (files (gate_passed E path w)) !! q). intros o.
  destruct (decide (kGDualBattMetricsPath E = q)) as [H3|H3];
    destruct (decide (kGChargerMetricsPath E = q)) as [H2|H2];
    destruct (decide (kThermalChargeMetricsPath E = q)) as [H1|H1];
    rewrite ?acked_acked;
    first [ rewrite bool_decide_eq_true_2 by (rewrite !elem_of_cons; auto)
          | rewrite bool_decide_eq_false_2
              by (rewrite !elem_of_cons, elem_of_nil; intros [?|[?|[?|[]]]]; congruence) ];
    reflexivity.
Qed.

Lemma files_after_accepted_drain_witness :
  let E := Sample.env ["gdbatt"] in
  let w := Sample.world 100
             [("charge", Sample.summary); ("thermal", Sample.tier);
              ("gdbatt", Sample.tier)] in
  let w' := exec (checkAndReport E "charge") w in
  let f := drain_files E (files (gate_passed E "charge" w)) in
  files w' !! "gdbatt"
  = if bool_decide ("gdbatt" ∈ [kThermalChargeMetricsPath E; kGChargerMetricsPath E;
                                kGDualBattMetricsPath E])
    then acked E "gdbatt" (f !! "gdbatt") else f !! "gdbatt".
Proof.
  apply (files_after_accepted_drain (Sample.env ["gdbatt"]) "charge"
           (Sample.world 100
              [("charge", Sample.summary); ("thermal", Sample.tier);
               ("gdbatt", Sample.tier)])
           Sample.summary Sample.summary EmptyString "gdbatt");
    vm_compute; reflexivity.
Defined.

(** ** A tier-only source *)

Lemma plain_tiers_map E text :
  plain_tiers E text = map (fun line => tier_event E (c_str line) None) (tier_lines text).
Proof.
  unfold plain_tiers, tier_lines.
  induction (lines text) as [|l ls IH]; [reflexivity|].
  cbn [omap list_omap List.filter map]. fold (@omap list _ string VendorAtom) in *.
  destruct (tier_ok (c_str l)); cbn [map]; [f_equal|]; exact IH.
Qed.

Lemma plain_tiers_cleared E : plain_tiers E "0" = [].
Proof. vm_compute. reflexivity. Qed.

(** X4: a tier-only source that can be read and cleared is drained once:
    one sample is reported per line that scans as a tier line, in the order
    of the lines, the other lines being skipped; the source then holds
    ["0"], and draining it again reports nothing and changes nothing. *)
Theorem tier_source_drained_once (E : Env) (path : string) (w : World)
    (contents : string) :
  files w !! path = Some contents ->
  writable E path = true ->
  let w1 := exec (report_tier_source E path) w in
  reported w1
  = reported w ++ map (fun line => tier_event E (c_str line) None) (tier_lines contents)
  /\ files w1 = <[path := "0"]> (files w)
  /\ exec (report_tier_source E path) w1 = w1.
Proof.
  intros Hf Hw w1. subst w1.
  rewrite !report_tier_source_exec.
  cbn [files reported add_reported set_files].
  unfold source_tiers, ack_source. rewrite Hf, Hw.
  rewrite lookup_insert_eq. rewrite plain_tiers_map.
  split; [reflexivity|]. split; [reflexivity|].
  rewrite plain_tiers_cleared. apply World_eq;
    cbn [reported files boottime_secs log_event_time_secs_ wireless_charge_stats_
         add_reported set_files].
  - apply insert_insert_eq.
  - reflexivity.
  - reflexivity.
  - reflexivity.
  - apply app_nil_r.
Qed.

Lemma tier_source_drained_once_witness :
  let E := Sample.env [] in
  let contents := Sample.tier +:+ Sample.nl +:+ "noise" +:+ Sample.nl +:+ Sample.tier in
  let w := Sample.world 100 [("thermal", contents)] in
  let w1 := exec (report_tier_source E "thermal") w in
  reported w1
  = reported w ++ map (fun line => tier_event E (c_str line) None) (tier_lines contents)
  /\ files w1 = <["thermal" := "0"]> (files w)
  /\ exec (report_tier_source E "thermal") w1 = w1.
Proof.
  apply (tier_source_drained_once (Sample.env []) "thermal"
           (Sample.world 100
              [("thermal",
                Sample.tier +:+ Sample.nl +:+ "noise" +:+ Sample.nl +:+ Sample.tier)]));
    vm_compute; reflexivity.
Defined.

(** ** The atoms of an accepted drain *)

Lemma tier_event_kind E line wlc : atomId (tier_event E line wlc) = kVoltageTierStats.
Proof. destruct wlc; reflexivity. Qed.





Lemma session_atoms_spec E gcharger line wline_at wline_ac pca_line :
  (length (session_atoms E gcharger line wline_at wline_ac pca_line) <= 1)%nat
  /\ (session_atoms E gcharger line wline_at wline_ac pca_line = []
      <-> fst (scan_summary line (tmp (chg_init E))) = None)
  /\ Forall (fun a => atomId a = kChargeStats)
            (session_atoms E gcharger line wline_at wline_ac pca_line).
Proof.
  unfold session_atoms. rewrite assemble_spec.
  destruct (scan_summary line (tmp (chg_init E))) as [[f|] t]; cbn [fst length].
  - split; [lia|]. split; [split; discriminate|]. repeat constructor.
  - split; [lia|]. split; [tauto | constructor].
Qed.



(** ** The kinds of the scanned values *)

Lemma conv_f_float s v r : conv_f s = Converted v r -> exists t, v = VFloat t.
Proof.
  unfold conv_f. destruct (skip_space s) as [|c0 s0]; [discriminate|].
  destruct (sign _) as [[neg sg] s2].
  destruct (digit_run s2) as [ip s3].
  destruct (match s3 with
            | String "." r0 => let '(d, r') := digit_run r0 in (String "." d, r')
            | _ => (EmptyString, s3)
            end) as [fp s4].
  destruct (exponent s4) as [ex s5].
  destruct ip as [|? ?]; [destruct fp as [|? [|? ?]]|]; try discriminate;
    intros [= <- _]; eauto.
Qed.

Lemma conv_kind d s v r :
  conv d s = Converted v r -> kind_ok v d /\ conv_kinds [d] = [d].
Proof.
  destruct d; cbn [conv]; try discriminate; intros H.
  - apply conv_d_int in H. destruct v; [split; [exact I | reflexivity] | destruct H].
  - apply conv_x_int in H. destruct v; [split; [exact I | reflexivity] | destruct H].
  - apply conv_f_float in H. destruct H as [t ->]. split; [exact I | reflexivity].
Qed.

(** The values a scan assigns are of the kinds of the format's conversions,
    taken in order. *)
Lemma scan_kinds f : forall s acc,
  exists vs,
    snd (scan f s acc) = acc ++ vs
    /\ Forall2 kind_ok vs (take (length vs) (conv_kinds f)).
Proof.
  assert (Hnil : forall acc (ks : list directive),
    exists vs : list scanval,
      acc = acc ++ vs /\ Forall2 kind_ok vs (take (length vs) ks)).
  { intros acc ks. exists []. rewrite app_nil_r. split; [reflexivity | constructor]. }
  assert (Hfail : forall acc (ks : list directive),
    exists vs : list scanval,
      snd (input_failure acc) = acc ++ vs /\ Forall2 kind_ok vs (take (length vs) ks)).
  { intros acc ks. exact (Hnil acc ks). }
  assert (Hconv : forall d g,
    (forall s acc, exists vs,
        snd (scan g s acc) = acc ++ vs
        /\ Forall2 kind_ok vs (take (length vs) (conv_kinds g))) ->
    forall s acc,
      exists vs,
        snd (match conv d s with
             | InputFailure => input_failure acc
             | MatchFailure => (assigned acc, acc)
             | Converted v rest => scan g rest (acc ++ [v])
             end) = acc ++ vs
        /\ Forall2 kind_ok vs (take (length vs) (d :: conv_kinds g))).
  { intros d g IH s acc. destruct (conv d s) as [| |v rest] eqn:Hc.
    - apply Hfail.
    - apply (Hnil acc).
    - destruct (IH rest (acc ++ [v])) as (vs & H1 & H2).
      exists (v :: vs). rewrite <- app_assoc in H1. split; [exact H1|].
      cbn [length take]. constructor; [|exact H2].
      apply (conv_kind d s v rest Hc). }
  induction f as [|d g IH]; intros s acc.
  - apply (Hnil acc).
  - destruct d; cbn [scan conv_kinds].
    + apply IH.
    + destruct s as [|c' r]; [apply Hfail|].
      destruct (Ascii.eqb c c'); [apply IH | apply (Hnil acc)].
    + apply (Hconv DInt g IH).
    + apply (Hconv DHex g IH).
    + apply (Hconv DFloat g IH).
Qed.

(** A line that scans as a tier line gives an integer, a float and fourteen
    more integers. *)
Lemma tier_line_shape line :
  tier_ok line = true ->
  exists z0 f zs,
    sscanf line TIER_FMT = (16, VInt z0 :: VFloat f :: map VInt zs)
    /\ length zs = 14%nat.
Proof.
  unfold tier_ok, sscanf. intros Hok. apply Z.eqb_eq in Hok.
  destruct (scan_kinds (parse_format TIER_FMT) line []) as (vs & Hs & Hk).
  destruct (scan_assigns (parse_format TIER_FMT) line []) as (vs' & Hs' & _ & Hc & _).
  rewrite Hs in Hs'. cbn [app] in Hs, Hs'. subst vs'.
  destruct Hc as [Hc|[Hc _]]; [|rewrite Hc in Hok; discriminate].
  rewrite Hc in Hok. unfold assigned in Hok. cbn [app] in Hok.
  assert (Hlen : length vs = 16%nat) by lia.
  rewrite Hlen in Hk.
  change (take 16 (conv_kinds (parse_format TIER_FMT)))
    with [DInt; DFloat; DInt; DInt; DInt; DInt; DInt; DInt; DInt; DInt; DInt; DInt;
          DInt; DInt; DInt; DInt] in Hk.
  destruct (scan (parse_format TIER_FMT) line []) as [n vs0]. cbn [fst snd] in *.
  subst vs0. subst n.
  repeat match goal with
         | H : Forall2 kind_ok _ (_ :: _) |- _ =>
             apply Forall2_cons_inv_r in H; destruct H as (? & ? & ? & H & ->)
         | H : Forall2 kind_ok _ [] |- _ => apply Forall2_nil_inv_r in H; subst
         end.
  repeat match goal with
         | H : kind_ok ?v _ |- _ => destruct v; cbn in H; try contradiction; clear H
         end.
  eexists _, _, [_; _; _; _; _; _; _; _; _; _; _; _; _; _].
  split; reflexivity.
Qed.

(** ** Where the values of a record land *)

Lemma vset_length i v vals : length (vset i v vals) = length vals.
Proof. unfold vset. destruct (i <? 0); [reflexivity | apply length_insert]. Qed.

Lemma fill_keeps_length fields off val k : forall a vals,
  length (fill fields off val vals a k) = length vals.
Proof.
  unfold fill. induction k as [|k IH]; intros a vals; simpl; [reflexivity|].
  rewrite IH. apply vset_length.
Qed.

Lemma chg_values_length E l : length (chg_values E l) = 17%nat.
Proof. rewrite chg_values_fill, fill_keeps_length. apply length_replicate. Qed.

Lemma vtier_values_length E t ssoc_tmp fields_size :
  length (vtier_values E t ssoc_tmp fields_size) = 20%nat.
Proof.
  rewrite vtier_values_fill, fill_keeps_length, !vset_length. apply length_replicate.
Qed.

(** The slots of the tier vector: the tier index, the float, then
    [t[i - 1]] at the index of the [i]-th field while [i] is below
    [fields_size]; the elements beyond stay unassigned. *)
Lemma vtier_values_slot E t ssoc_tmp fields_size (i : nat) :
  schema_ok E -> 2 <= fields_size <= 20 -> (i < 20)%nat ->
  vtier_values E t ssoc_tmp fields_size
    !! idx (voltage_tier_stats_fields E) (kVendorAtomOffset E) i
  = match i with
    | 0%nat => Some (Some (intValue (t !!! 0%nat)))
    | 1%nat => Some (Some (floatValue ssoc_tmp))
    | _ => if bool_decide (Z.of_nat i < fields_size)
           then Some (Some (intValue (t !!! (i - 1)%nat))) else Some None
    end.
Proof.
  intros [_ Hwp] Hfs Hi. rewrite vtier_values_fill.
  pose proof (fresh_lookup _ _ Hwp) as Hfresh.
  pose proof (idx_inj _ _ Hwp) as Hinj.
  pose proof (idx_lt _ _ Hwp) as Hlt.
  change (length (voltage_tier_stats_fields E)) with 20%nat in *.
  rewrite !(vset_idx _ _ Hwp) by (change (length (voltage_tier_stats_fields E)) with 20%nat; lia).
  rewrite (fill_lookup _ _ Hwp); change (length (voltage_tier_stats_fields E)) with 20%nat;
    [|lia|rewrite !length_insert; apply length_replicate|lia].
  destruct i as [|[|i]].
  - rewrite bool_decide_eq_false_2 by lia.
    rewrite list_lookup_insert_ne by (intros Heq; apply Hinj in Heq; lia).
    apply list_lookup_insert_eq. rewrite length_replicate. apply Hlt. lia.
  - rewrite bool_decide_eq_false_2 by lia.
    apply list_lookup_insert_eq. rewrite length_insert, length_replicate. apply Hlt. lia.
  - destruct (decide (Z.of_nat (S (S i)) < fields_size)).
    + rewrite !bool_decide_eq_true_2 by lia. reflexivity.
    + rewrite !bool_decide_eq_false_2 by lia.
      rewrite !list_lookup_insert_ne by (intros Heq; apply Hinj in Heq; lia).
      apply Hfresh. lia.
Qed.

Lemma ints_map_VInt zs : ints (map VInt zs) = zs.
Proof.
  induction zs as [|z zs IH]; [reflexivity|].
  change (ints (map VInt (z :: zs))) with (z :: ints (map VInt zs)). f_equal. exact IH.
Qed.

(** X6.  A line that scans as a tier line makes [ReportVoltageTierStats]
    report exactly one sample, a vector of 20 elements in which the tier
    index is at the index of field 0 as an integer, the state of charge at
    that of field 1 as a float, and the fourteen further integers of the
    line at those of fields 2 to 15, in the order of the line.  The elements
    of fields 16 to 19 hold the four values of the wireless helper after its
    calculation on the truncated state of charge when wireless data is
    present, and are unassigned otherwise; the helper object is replaced by
    the calculated one in the first case only. *)
Theorem tier_slot_placement (E : Env) (line : string) (has_wireless : bool)
    (wfile_contents : string) (w : World) :
  schema_ok E -> tier_ok line = true ->
  let slot := idx (voltage_tier_stats_fields E) (kVendorAtomOffset E) in
  let w' := exec (ReportVoltageTierStats E line has_wireless wfile_contents) w in
  exists z0 f zs a,
    sscanf line TIER_FMT = (16, VInt z0 :: VFloat f :: map VInt zs)
    /\ length zs = 14%nat
    /\ reported w' = reported w ++ [a]
    /\ atomId a = kVoltageTierStats
    /\ length (values a) = 20%nat
    /\ values a !! slot 0%nat = Some (Some (intValue z0))
    /\ values a !! slot 1%nat = Some (Some (floatValue f))
    /\ (forall i : nat, (2 <= i < 16)%nat ->
          values a !! slot i = Some (intValue <$> zs !! (i - 2)%nat))
    /\ (let ws := CalculateWirelessChargeStats E (static_cast_int E f) wfile_contents
                    (wireless_charge_stats_ w) in
        map (fun i => values a !! slot i) [16; 17; 18; 19]%nat
        = (if has_wireless
           then map (fun z => Some (Some (intValue z)))
                    [pout_min_ ws; pout_avg_ ws; pout_max_ ws; of_freq_ ws]
           else replicate 4 (Some None))
        /\ wireless_charge_stats_ w'
           = if has_wireless then ws else wireless_charge_stats_ w).
Proof.
  intros Hs Hok slot w'.
  destruct (tier_line_shape line Hok) as (z0 & f & zs & Hshape & Hlen).
  assert (Hssoc : tier_ssoc line = f) by (unfold tier_ssoc; rewrite Hshape; reflexivity).
  assert (Hints : ints (snd (sscanf line TIER_FMT)) = z0 :: zs).
  { rewrite Hshape. cbn [snd].
    change (ints (VInt z0 :: VFloat f :: map VInt zs)) with (z0 :: ints (map VInt zs)).
    f_equal. apply ints_map_VInt. }
  exists z0, f, zs.
  destruct has_wireless.
  - subst w'. rewrite ReportVoltageTierStats_exec_wireless, Hok, Hssoc. cbv zeta.
    set (ws := CalculateWirelessChargeStats E _ _ _).
    exists (tier_event E line (Some ws)).
    split; [exact Hshape|]. split; [exact Hlen|]. split; [reflexivity|].
    split; [reflexivity|].
    unfold tier_event. rewrite Hints, Hssoc. cbn [values].
    split; [apply vtier_values_length|].
    explode zs Hlen. clear Hlen.
    repeat split.
    + unfold slot. rewrite (vtier_values_slot E _ _ _ 0 Hs) by (rewrite ?vtier_fields_size_20; lia).
      reflexivity.
    + unfold slot. rewrite (vtier_values_slot E _ _ _ 1 Hs) by (rewrite ?vtier_fields_size_20; lia).
      reflexivity.
    + intros i Hi. unfold slot.
      rewrite (vtier_values_slot E _ _ _ i Hs) by (rewrite ?vtier_fields_size_20; lia).
      rewrite vtier_fields_size_20.
      do 16 (destruct i as [|i]; [try lia; reflexivity|]). lia.
    + unfold slot. cbn [map].
      rewrite !(vtier_values_slot E _ _ _ _ Hs) by (rewrite ?vtier_fields_size_20; lia).
      rewrite vtier_fields_size_20. reflexivity.
  - subst w'. rewrite ReportVoltageTierStats_exec_plain, Hok.
    exists (tier_event E line None).
    split; [exact Hshape|]. split; [exact Hlen|]. split; [reflexivity|].
    split; [reflexivity|].
    unfold tier_event. rewrite Hints, Hssoc. cbn [values].
    split; [apply vtier_values_length|].
    explode zs Hlen. clear Hlen.
    assert (Hfs : 2 <= vtier_fields_size E - vtier_wlc_fields_size <= 20)
      by (rewrite vtier_fields_size_20; unfold vtier_wlc_fields_size; lia).
    repeat split.
    + unfold slot. rewrite (vtier_values_slot E _ _ _ 0 Hs Hfs) by lia. reflexivity.
    + unfold slot. rewrite (vtier_values_slot E _ _ _ 1 Hs Hfs) by lia. reflexivity.
    + intros i Hi. unfold slot.
      rewrite (vtier_values_slot E _ _ _ i Hs Hfs) by lia.
      rewrite vtier_fields_size_20. unfold vtier_wlc_fields_size.
      do 16 (destruct i as [|i]; [try lia; reflexivity|]). lia.
    + unfold slot. cbn [map].
      rewrite !(vtier_values_slot E _ _ _ _ Hs Hfs) by lia.
      rewrite vtier_fields_size_20. reflexivity.
Qed.

Lemma tier_slot_placement_witness :
  let E := Sample.env [] in
  let w := Sample.world 100 [] in
  let slot := idx (voltage_tier_stats_fields E) (kVendorAtomOffset E) in
  let w' := exec (ReportVoltageTierStats E Sample.tier true "wireless") w in
  exists z0 f zs a,
    sscanf Sample.tier TIER_FMT = (16, VInt z0 :: VFloat f :: map VInt zs)
    /\ length zs = 14%nat
    /\ reported w' = reported w ++ [a]
    /\ atomId a = kVoltageTierStats
    /\ length (values a) = 20%nat
    /\ values a !! slot 0%nat = Some (Some (intValue z0))
    /\ values a !! slot 1%nat = Some (Some (floatValue f))
    /\ (forall i : nat, (2 <= i < 16)%nat ->
          values a !! slot i = Some (intValue <$> zs !! (i - 2)%nat))
    /\ (let ws := CalculateWirelessChargeStats E (static_cast_int E f) "wireless"
                    (wireless_charge_stats_ w) in
        map (fun i => values a !! slot i) [16; 17; 18; 19]%nat
        = (if true
           then map (fun z => Some (Some (intValue z)))
                    [pout_min_ ws; pout_avg_ ws; pout_max_ ws; of_freq_ ws]
           else replicate 4 (Some None))
        /\ wireless_charge_stats_ w' = if true then ws else wireless_charge_stats_ w).
Proof.
  apply (tier_slot_placement (Sample.env []) Sample.tier true "wireless"
           (Sample.world 100 [])).
  - repeat split; apply (bool_decide_unpack _); vm_compute; exact I.
  - vm_compute; reflexivity.
Defined.

(** ** One format extending another *)

(** A scan of [f1] followed by [f2] is the scan of [f1] alone when [f1] stops
    early; when [f1] assigns all of its conversions, [f2] goes on from
    there. *)
Lemma scan_app f1 f2 : forall s acc,
  scan (f1 ++ f2) s acc = scan f1 s acc
  \/ exists vs s',
       scan f1 s acc = (assigned (acc ++ vs), acc ++ vs)
       /\ length vs = nconv f1
       /\ scan (f1 ++ f2) s acc = scan f2 s' (acc ++ vs).
Proof.
  assert (Hconv : forall d g s acc,
    (forall s acc,
        scan (g ++ f2) s acc = scan g s acc
        \/ exists vs s',
             scan g s acc = (assigned (acc ++ vs), acc ++ vs)
             /\ length vs = nconv g
             /\ scan (g ++ f2) s acc = scan f2 s' (acc ++ vs)) ->
    match conv d s with
    | InputFailure => input_failure acc
    | MatchFailure => (assigned acc, acc)
    | Converted v r => scan (g ++ f2) r (acc ++ [v])
    end
    = match conv d s with
      | InputFailure => input_failure acc
      | MatchFailure => (assigned acc, acc)
      | Converted v r => scan g r (acc ++ [v])
      end
    \/ exists vs s',
         match conv d s with
         | InputFailure => input_failure acc
         | MatchFailure => (assigned acc, acc)
         | Converted v r => scan g r (acc ++ [v])
         end = (assigned (acc ++ vs), acc ++ vs)
         /\ length vs = S (nconv g)
         /\ match conv d s with
            | InputFailure => input_failure acc
            | MatchFailure => (assigned acc, acc)
            | Converted v r => scan (g ++ f2) r (acc ++ [v])
            end = scan f2 s' (acc ++ vs)).
  { intros d g s acc IH. destruct (conv d s) as [| |v rest]; [left; reflexivity..|].
    destruct (IH rest (acc ++ [v])) as [H|(vs & s' & H1 & H2 & H3)]; [left; exact H|].
    right. exists (v :: vs), s'. rewrite <- !app_assoc in H1, H3.
    split; [exact H1|]. split; [simpl; lia | exact H3]. }
  induction f1 as [|d g IH]; intros s acc.
  - right. exists [], s. rewrite app_nil_r. repeat split.
  - destruct d; cbn [scan app nconv].
    + apply IH.
    + destruct s as [|c' r]; [left; reflexivity|].
      destruct (Ascii.eqb c c'); [apply IH | left; reflexivity].
    + apply Hconv, IH.
    + apply Hconv, IH.
    + apply Hconv, IH.
Qed.

Lemma ints_app vs ws : ints (vs ++ ws) = ints vs ++ ints ws.
Proof. apply omap_app. Qed.

(** The same for the integers a line gives under a format [F] that extends
    a format [F1] by the directives [g]. *)
Lemma scanned_app s F F1 g :
  parse_format F = parse_format F1 ++ g ->
  int_only (parse_format F1) = true -> int_only g = true ->
  (0 < nconv (parse_format F1))%nat ->
  (count s F = count s F1 /\ scanned s F = scanned s F1)
  \/ (count s F1 = Z.of_nat (nconv (parse_format F1))
      /\ length (scanned s F1) = nconv (parse_format F1)
      /\ exists more,
           scanned s F = scanned s F1 ++ more
           /\ count s F = count s F1 + Z.of_nat (length more)
           /\ (length more <= nconv g)%nat).
Proof.
  unfold count, scanned, sscanf. intros -> Hi1 Hig Hpos.
  destruct (scan_app (parse_format F1) g (c_str s) []) as [H|(vs & s' & H1 & H2 & H3)].
  - left. rewrite H. split; reflexivity.
  - right. rewrite H3, H1. cbn [app fst snd] in *.
    destruct (scan_assigns (parse_format F1) (c_str s) []) as (vs1 & Hs1 & _ & _ & Hint1).
    rewrite H1 in Hs1. cbn [app snd] in Hs1. subst vs1. specialize (Hint1 Hi1).
    destruct (scan_assigns g s' vs) as (more & Hs & Hlen & Hc & Hint).
    specialize (Hint Hig).
    rewrite Hs. rewrite ints_app, !ints_all_int by assumption.
    unfold assigned. rewrite H2. split; [reflexivity|]. split; [reflexivity|].
    exists (ints more). rewrite ints_all_int by assumption.
    split; [reflexivity|]. split; [|exact Hlen].
    destruct Hc as [Hc|[_ Hc]].
    + rewrite Hc. unfold assigned. rewrite length_app. lia.
    + apply (f_equal (@length _)) in Hc. rewrite length_app in Hc. simpl in Hc. lia.
Qed.

(** X7.  What the summary scan leaves in [tmp], by the format it resolves
    to.  A base line gives its seven values and zeros in slots 7 to 9; a CSI
    line gives its ten values; an AACR line gives its eight values and a
    zero in slot 9, while slot 8 holds the ninth value that the CSI scan
    converted before it was given up, if there is one, and zero otherwise.
    The slots from 10 on are zero in each case. *)
Theorem summary_slots (E : Env) (line : string) :
  let s0 := scanned line CHG_STATS_FMT0 in
  let s1 := scanned line CHG_STATS_FMT1 in
  let s2 := scanned line CHG_STATS_FMT2 in
  match scan_summary line (tmp (chg_init E)) with
  | (Some FMT0_base, t) => length s0 = 7%nat /\ t = s0 ++ replicate 10 0
  | (Some FMT1_AACR, t) =>
      length s1 = 8%nat /\ t = s1 ++ default 0 (s2 !! 8%nat) :: replicate 8 0
  | (Some FMT2_CSI, t) => length s2 = 10%nat /\ t = s2 ++ replicate 7 0
  | (None, _) => count line CHG_STATS_FMT0 <> 7
  end.
Proof.
  intros s0 s1 s2.
  pose proof (scanned_length line CHG_STATS_FMT2 10 eq_refl) as L2.
  pose proof (scanned_length line CHG_STATS_FMT1 8 eq_refl) as L1.
  pose proof (scanned_length line CHG_STATS_FMT0 7 eq_refl) as L0.
  pose proof (scanned_app line CHG_STATS_FMT2 CHG_STATS_FMT1 (parse_format " %d,%d")
                eq_refl eq_refl eq_refl) as H21.
  pose proof (scanned_app line CHG_STATS_FMT1 CHG_STATS_FMT0 (parse_format " %d")
                eq_refl eq_refl eq_refl) as H10.
  change (nconv (parse_format CHG_STATS_FMT1)) with 8%nat in H21.
  change (nconv (parse_format CHG_STATS_FMT0)) with 7%nat in H10.
  change (nconv (parse_format " %d,%d")) with 2%nat in H21.
  change (nconv (parse_format " %d")) with 1%nat in H10.
  specialize (H21 ltac:(lia)). specialize (H10 ltac:(lia)).
  rewrite scan_summary_spec. cbv zeta.
  change (tmp (chg_init E)) with (replicate 17 0).
  fold s0 s1 s2 in L0, L1, L2, H21, H10 |- *.
  set (c2 := count line CHG_STATS_FMT2) in *.
  set (c1 := count line CHG_STATS_FMT1) in *.
  set (c0 := count line CHG_STATS_FMT0) in *.
  clearbody c0 c1 c2 s0 s1 s2.
  destruct (Z.eqb_spec c2 10) as [E2|E2];
    [|destruct (Z.eqb_spec c1 8) as [E1|E1];
      [|destruct (Z.eqb_spec c0 7) as [E0|E0]]].
  - specialize (L2 E2). split; [exact L2|]. explode s2 L2. reflexivity.
  - specialize (L1 E1). split; [exact L1|].
    destruct H21 as [[_ ->]|(_ & _ & more & -> & Hc & Hm)].
    + explode s1 L1. reflexivity.
    + destruct more as [|m [|m' more]]; [| |simpl in Hc, Hm; lia].
      * explode s1 L1. reflexivity.
      * explode s1 L1. reflexivity.
  - specialize (L0 E0). split; [exact L0|].
    destruct H21 as [[_ ->]|(Hc1 & _)]; [|contradiction].
    destruct H10 as [[_ ->]|(_ & _ & more & -> & Hc & Hm)].
    + explode s0 L0. reflexivity.
    + destruct more as [|m more]; [|simpl in Hc, Hm; lia].
      explode s0 L0. reflexivity.
  - exact E0.
Qed.

(** ** The session record without side channels *)

Lemma merge_no_side_channels E t0 :
  merge_side_channels E t0 EmptyString EmptyString EmptyString
  = with_tmp t0 (chg_init E).
Proof.
  merge_cases.
  rewrite !(bool_decide_eq_true_2 (EmptyString = EmptyString)) by reflexivity.
  reflexivity.
Qed.

(** X8.  With neither a wireless line nor a PCA line, a summary line that
    scans makes [ReportChargeStats] report exactly one record, a vector of 17
    elements whose first ten fields hold the ten summary slots of [tmp] and
    whose fields 10 to 16 are unassigned, whatever the generic-charger file
    holds: the values that file puts in [tmp[15]] and [tmp[16]] do not reach
    the record. *)
Theorem plain_session_record (E : Env) (line : string) (w : World)
    (f : summary_format) (t0 : list Z) :
  schema_ok E ->
  scan_summary line (tmp (chg_init E)) = (Some f, t0) ->
  let slot := idx (charge_stats_fields E) (kVendorAtomOffset E) in
  let w' := exec (ReportChargeStats E line EmptyString EmptyString EmptyString) w in
  exists a,
    reported w' = reported w ++ [a]
    /\ files w' = files w
    /\ atomId a = kChargeStats
    /\ length (values a) = 17%nat
    /\ (forall i : nat, (i < 10)%nat -> values a !! slot i = Some (intValue <$> t0 !! i))
    /\ (forall i : nat, (10 <= i < 17)%nat -> values a !! slot i = Some None).
Proof.
  intros Hs Hsum slot w'. subst w'.
  destruct (summary_tmp E line _ _ Hsum) as [Hlen _].
  rewrite ReportChargeStats_exec. unfold session_atoms.
  rewrite assemble_spec, Hsum.
  destruct (gcharger_block_spec E (files w !! kGChargerMetricsPath E) t0
              EmptyString EmptyString EmptyString) as [Hfs Ht].
  rewrite merge_no_side_channels in *.
  set (l := snd (gcharger_block _ _)) in *. clearbody l.
  cbn [fields_size tmp with_tmp chg_init] in Hfs, Ht.
  change (chg_fields_size E - chg_wlc_fields_size) with 10 in Hfs.
  exists (chg_event E l).
  split; [reflexivity|]. split; [reflexivity|]. split; [reflexivity|].
  split; [apply chg_values_length|].
  assert (Hlow : forall i : nat, (i < 10)%nat -> tmp l !!! i = t0 !!! i).
  { intros i Hi. rewrite Ht. destruct (gcharger_pdo _); [|reflexivity].
    rewrite !list_lookup_total_insert_ne by lia. reflexivity. }
  split; intros i Hi; unfold slot, chg_event; cbn [values];
    rewrite (chg_values_slot E l i Hs) by lia; rewrite Hfs.
  - rewrite bool_decide_eq_true_2 by lia. rewrite Hlow by lia.
    rewrite (list_lookup_lookup_total_lt t0 i) by lia. reflexivity.
  - rewrite bool_decide_eq_false_2 by lia. reflexivity.
Qed.

Lemma plain_session_record_witness :
  let E := Sample.env [] in
  let w := Sample.world 100 [("gcharger", "D:1,2,3,4,5,6,7")] in
  let t0 := [3; 9000; 2000; 80; 4400; 90; 4450; 0; 0; 0; 0; 0; 0; 0; 0; 0; 0] in
  let slot := idx (charge_stats_fields E) (kVendorAtomOffset E) in
  let w' := exec (ReportChargeStats E Sample.summary EmptyString EmptyString EmptyString) w in
  exists a,
    reported w' = reported w ++ [a]
    /\ files w' = files w
    /\ atomId a = kChargeStats
    /\ length (values a) = 17%nat
    /\ (forall i : nat, (i < 10)%nat -> values a !! slot i = Some (intValue <$> t0 !! i))
    /\ (forall i : nat, (10 <= i < 17)%nat -> values a !! slot i = Some None).
Proof.
  apply (plain_session_record (Sample.env []) Sample.summary
           (Sample.world 100 [("gcharger", "D:1,2,3,4,5,6,7")]) FMT0_base
           [3; 9000; 2000; 80; 4400; 90; 4450; 0; 0; 0; 0; 0; 0; 0; 0; 0; 0]).
  - repeat split; apply (bool_decide_unpack _); vm_compute; exact I.
  - vm_compute; reflexivity.
Defined.

(** ** A capability line that does not scan *)

(** The return value of a scan of integers is the number of integers it
    stored, or end-of-file with nothing stored. *)
Lemma count_scanned s fmt :
  int_only (parse_format fmt) = true ->
  count s fmt = Z.of_nat (length (scanned s fmt))
  \/ (count s fmt = EOF /\ scanned s fmt = []).
Proof.
  unfold count, scanned, sscanf. intros Hi.
  destruct (scan_assigns (parse_format fmt) (c_str s) []) as (vs & Hs & _ & Hc & Hint).
  rewrite Hs. cbn [app] in *. destruct Hc as [Hc|[Hc ->]].
  - left. rewrite Hc, ints_all_int by auto. reflexivity.
  - right. split; [exact Hc | reflexivity].
Qed.

(** The locals after lines 106-141 for a wireless adapter-type line that
    scans, followed by a capability line that does not give its seven values:
    slot 0 is replaced by the translated adapter type and slots 1 to 9 stay
    the summary's; the field count is not raised by the wireless block, and
    the values the capability scan stored before it stopped stay in [tmp]
    from slot 10 on. *)
Lemma merge_unparsed_capability_line (E : Env)
    (line wline_at wline_ac pca_line : string) (f : summary_format) (t0 : list Z) :
  scan_summary line (tmp (chg_init E)) = (Some f, t0) ->
  count wline_at WLC_AT_FMT = 1 ->
  count wline_ac WLC_AC_FMT <> 7 ->
  let m := merge_side_channels E t0 wline_at wline_ac pca_line in
  let translated :=
    TranslateSysModeToAtomValue E (default 0 (head (scanned wline_at WLC_AT_FMT))) in
  let stored := scanned wline_ac WLC_AC_FMT in
  (length stored <= 6)%nat
  /\ tmp m !! 0%nat = Some translated
  /\ (forall i : nat, (1 <= i < 10)%nat -> tmp m !! i = t0 !! i)
  /\ (count pca_line PCA_FMT <> 7 ->
        fields_size m = 10
        /\ forall i : nat, (i < 7)%nat ->
             tmp m !! (10 + i)%nat = Some (default 0 (stored !! i)))
  /\ (count pca_line PCA_FMT = 7 ->
        fields_size m = 17
        /\ tmp m !! 10%nat = Some (default 0 (stored !! 0%nat))
        /\ tmp m !! 11%nat = Some (default 0 (stored !! 1%nat))
        /\ tmp m !! 15%nat = Some (default 0 (stored !! 5%nat))).
Proof.
  intros Hsum Hat Hac m translated stored.
  destruct (summary_tmp E line _ _ Hsum) as [Hlen Hzero].
  assert (Hne : wline_at <> EmptyString).
  { intros ->. exact (count_empty_at Hat). }
  assert (Hst : (length stored <= 6)%nat).
  { pose proof (scanned_length_le wline_ac WLC_AC_FMT) as Hle.
    change (nconv (parse_format WLC_AC_FMT)) with 7%nat in Hle.
    destruct (count_scanned wline_ac WLC_AC_FMT eq_refl) as [Hc|[_ Hc]].
    - fold stored in Hc, Hle. lia.
    - fold stored in Hc. rewrite Hc. simpl. lia. }
  split; [exact Hst|].
  pose proof (scanned_length pca_line PCA_FMT 7 eq_refl) as Hpca.
  subst m. unfold merge_side_channels. rewrite pca_block_spec, wlc_block_spec. cbv zeta.
  rewrite !(bool_decide_eq_false_2 (wline_at = EmptyString)) by exact Hne.
  rewrite Hat. change (1 =? 1) with true. cbv iota.
  destruct (Z.eqb_spec (count wline_ac WLC_AC_FMT) 7) as [H7|_]; [contradiction|].
  fold stored translated. clearbody stored translated.
  assert (Hz : forall j : nat, (10 <= j < 17)%nat -> t0 !!! j = 0).
  { intros j Hj. apply list_lookup_total_correct, Hzero, Hj. }
  pose proof (Hz 10%nat ltac:(lia)) as Z10. pose proof (Hz 11%nat ltac:(lia)) as Z11.
  pose proof (Hz 12%nat ltac:(lia)) as Z12. pose proof (Hz 13%nat ltac:(lia)) as Z13.
  pose proof (Hz 14%nat ltac:(lia)) as Z14. pose proof (Hz 15%nat ltac:(lia)) as Z15.
  pose proof (Hz 16%nat ltac:(lia)) as Z16. clear Hz Hzero.
  explode t0 Hlen. clear Hlen.
  cbn in Z10, Z11, Z12, Z13, Z14, Z15, Z16. subst.
  assert (Hlow : forall (P : nat -> Prop),
            P 1%nat -> P 2%nat -> P 3%nat -> P 4%nat -> P 5%nat -> P 6%nat ->
            P 7%nat -> P 8%nat -> P 9%nat -> forall i : nat, (1 <= i < 10)%nat -> P i).
  { intros P P1 P2 P3 P4 P5 P6 P7 P8 P9 i Hi.
    do 10 (destruct i as [|i]; [try lia; assumption|]). lia. }
  assert (Hhigh : forall (P : nat -> Prop),
            P 0%nat -> P 1%nat -> P 2%nat -> P 3%nat -> P 4%nat -> P 5%nat -> P 6%nat ->
            forall i : nat, (i < 7)%nat -> P i).
  { intros P P0 P1 P2 P3 P4 P5 P6 i Hi.
    do 7 (destruct i as [|i]; [assumption|]). lia. }
  destruct (bool_decide (pca_line = EmptyString)) eqn:Hp.
  { apply bool_decide_eq_true in Hp. subst pca_line.
    cbn [tmp with_tmp fields_size chg_init].
    repeat (destruct stored as [|? stored]; [|simpl in Hst; try (exfalso; lia)]);
      (split; [reflexivity|]); (split; [apply Hlow; reflexivity|]);
      (split; [intros _; split; [reflexivity | apply Hhigh; reflexivity]
              | intros H7; vm_compute in H7; discriminate H7]). }
  destruct (Z.eqb_spec (count pca_line PCA_FMT) 7) as [H7|H7].
  - specialize (Hpca H7).
    generalize dependent (scanned pca_line PCA_FMT). intros ps Hps.
    explode ps Hps. clear Hps.
    repeat (destruct stored as [|? stored]; [|simpl in Hst; try (exfalso; lia)]);
      (split; [reflexivity|]); (split; [apply Hlow; reflexivity|]);
      (split; [intros Hc; contradiction | intros _; repeat split; reflexivity]).
  - cbn [tmp with_tmp with_pca fields_size chg_init].
    repeat (destruct stored as [|? stored]; [|simpl in Hst; try (exfalso; lia)]);
      (split; [reflexivity|]); (split; [apply Hlow; reflexivity|]);
      (split; [intros _; split; [reflexivity | apply Hhigh; reflexivity]
              | intros Hc; contradiction]).
Qed.

(** ** A stats service that refuses records *)

Lemma with_sink_wireless_tiers E ok wfile_contents ls : forall ws,
  wireless_tiers (with_sink ok E) wfile_contents ls ws
  = wireless_tiers E wfile_contents ls ws.
Proof.
  induction ls as [|line rest IH]; intros ws; [reflexivity|].
  cbn [wireless_tiers]. destruct (tier_ok (c_str line)); [|apply IH].
  cbv zeta. rewrite IH. reflexivity.
Qed.

Lemma with_sink_merge E ok t0 wline_at wline_ac pca_line :
  merge_side_channels (with_sink ok E) t0 wline_at wline_ac pca_line
  = merge_side_channels E t0 wline_at wline_ac pca_line.
Proof.
  unfold merge_side_channels. rewrite !pca_block_spec, !wlc_block_spec. reflexivity.
Qed.

Lemma with_sink_chg_event E ok l : chg_event (with_sink ok E) l = chg_event E l.
Proof. reflexivity. Qed.

Lemma with_sink_session_atoms E ok gcharger line wline_at wline_ac pca_line :
  session_atoms (with_sink ok E) gcharger line wline_at wline_ac pca_line
  = session_atoms E gcharger line wline_at wline_ac pca_line.
Proof.
  unfold session_atoms. rewrite !assemble_spec.
  change (chg_init (with_sink ok E)) with (chg_init E).
  destruct (scan_summary line (tmp (chg_init E))) as [[f|] t0]; [|reflexivity].
  rewrite with_sink_merge, with_sink_chg_event. reflexivity.
Qed.

Lemma with_sink_drain E ok line ss w :
  clear_source (with_sink ok E) = clear_source E
  /\ drain_final_files (with_sink ok E) w = drain_final_files E w
  /\ drain_wireless (with_sink ok E) ss w = drain_wireless E ss w
  /\ drain_session (with_sink ok E) line w = drain_session E line w
  /\ drain_primary_tiers (with_sink ok E) ss w = drain_primary_tiers E ss w
  /\ drain_aux_tiers (with_sink ok E) w = drain_aux_tiers E w.
Proof.
  split; [reflexivity|]. split; [reflexivity|].
  split; [unfold drain_wireless; rewrite with_sink_wireless_tiers; reflexivity|].
  split; [unfold drain_session; rewrite with_sink_session_atoms; reflexivity|].
  split; [unfold drain_primary_tiers; rewrite with_sink_wireless_tiers; reflexivity|].
  reflexivity.
Qed.

(** X10.  The answer of the stats service to a record has no effect on a
    drain (the code logs a refusal and goes on): the drain leaves the same
    files, window anchor and wireless helper, and hands over the same records
    in the same order, whatever the service answers to each of them. *)
Theorem sink_answer_only_logged (E : Env) (ok : VendorAtom -> bool)
    (path : string) (w : World) :
  exec (checkAndReport (with_sink ok E) path) w = exec (checkAndReport E path) w.
Proof.
  destruct (has_first_line w path) eqn:Hfl.
  - destruct (has_first_line_inv w path Hfl) as (text & line & ss & Hf & Hg).
    destruct (val shouldReportEvent w) eqn:Hacc.
    + rewrite !(checkAndReport_accepted _ path w text line ss Hf Hg Hacc).
      rewrite !report_all_exec.
      destruct (with_sink_drain E ok line ss
                  (clear_source E path (set_log_event_time (boottime_secs w) w)))
        as (Hc & H1 & H2 & H3 & H4 & H5).
      rewrite Hc, H1, H2, H3, H4, H5. reflexivity.
    + rewrite !(checkAndReport_rejected _ path w text line ss Hf Hg Hacc).
      reflexivity.
  - rewrite !checkAndReport_no_first_line by exact Hfl. reflexivity.
Qed.

(** ** The two readers of the generic-charger file *)

Lemma pdo_line_starts_with_D l :
  count l PDO_FMT = 7 -> exists r, c_str l = String "D" r.
Proof.
  unfold count, sscanf.
  change (parse_format PDO_FMT)
    with (DChar "D" :: parse_format ":%x,%x,%x,%x,%x,%x,%x").
  cbn [scan]. destruct (c_str l) as [|c r]; [discriminate|].
  destruct (Ascii.eqb_spec "D" c) as [<-|_]; [eauto | discriminate].
Qed.

Lemma tier_line_not_D r : tier_ok (String "D" r) = false.
Proof. vm_compute. reflexivity. Qed.

(** X11.  The generic-charger file is read twice in a drain: for the line
    that overrides slots 15 and 16 of the session record, and as a tier-only
    source.  A line that scans as the seven hexadecimal fields of the first
    reader never scans as a tier line, so the second reader reports nothing
    for it and leaves the world as it is. *)
Theorem pdo_line_is_no_tier_line (E : Env) (l : string) :
  count l PDO_FMT = 7 ->
  tier_ok (c_str l) = false
  /\ forall has_wireless wfile_contents w,
       exec (ReportVoltageTierStats E (c_str l) has_wireless wfile_contents) w = w.
Proof.
  intros H. destruct (pdo_line_starts_with_D l H) as [r Hr].
  assert (Hno : tier_ok (c_str l) = false) by (rewrite Hr; apply tier_line_not_D).
  split; [exact Hno|]. intros [|] wf w.
  - rewrite ReportVoltageTierStats_exec_wireless, Hno. reflexivity.
  - rewrite ReportVoltageTierStats_exec_plain, Hno. apply add_reported_nil.
Qed.

Lemma pdo_line_is_no_tier_line_witness :
  let E := Sample.env [] in
  tier_ok (c_str "D:1,2,3,4,5,6,7") = false
  /\ forall has_wireless wfile_contents w,
       exec (ReportVoltageTierStats E (c_str "D:1,2,3,4,5,6,7") has_wireless
               wfile_contents) w = w.
Proof.
  apply (pdo_line_is_no_tier_line (Sample.env []) "D:1,2,3,4,5,6,7").
  vm_compute; reflexivity.
Defined.

(** ** The wireless helper across the tier lines *)

Lemma wireless_tiers_fold E wfile_contents ls : forall ws,
  let good := List.filter (fun line => tier_ok (c_str line)) ls in
  snd (wireless_tiers E wfile_contents ls ws) = foldl (wlc_step E wfile_contents) ws good
  /\ forall (i : nat) l,
       good !! i = Some l ->
       fst (wireless_tiers E wfile_contents ls ws) !! i
       = Some (tier_event E (c_str l)
                 (Some (foldl (wlc_step E wfile_contents) ws (take (S i) good)))).
Proof.
  induction ls as [|line rest IH]; intros ws; cbv zeta.
  - split; [reflexivity|]. intros i l H. destruct i; discriminate H.
  - cbn [wireless_tiers List.filter].
    destruct (tier_ok (c_str line)) eqn:Hok.
    + cbv zeta.
      fold (wlc_step E wfile_contents ws line).
      destruct (IH (wlc_step E wfile_contents ws line)) as [IH1 IH2].
      destruct (wireless_tiers E wfile_contents rest (wlc_step E wfile_contents ws line))
        as [atoms ws''].
      cbn [fst snd] in *. split; [exact IH1|].
      intros [|i] l H.
      * injection H as <-. reflexivity.
      * exact (IH2 i l H).
    + apply IH.
Qed.



(** * The session record as it is reported *)

Lemma count_empty_pca : count EmptyString PCA_FMT <> 7.
Proof. vm_compute. discriminate. Qed.

(** The field count is raised exactly when both wireless lines or the PCA
    line scan. *)
Lemma merge_extended E t0 wline_at wline_ac pca_line :
  let m := merge_side_channels E t0 wline_at wline_ac pca_line in
  (extended wline_at wline_ac pca_line -> fields_size m = 17)
  /\ (~ extended wline_at wline_ac pca_line -> fields_size m = 10).
Proof.
  cbv zeta. unfold extended.
  assert (Hp0 : pca_line = EmptyString -> count pca_line PCA_FMT <> 7)
    by (intros ->; exact count_empty_pca).
  assert (Hw0 : wline_at = EmptyString -> count wline_at WLC_AT_FMT <> 1)
    by (intros ->; exact count_empty_at).
  merge_cases.
  destruct (bool_decide (pca_line = EmptyString)) eqn:Hp;
    [apply bool_decide_eq_true, Hp0 in Hp | clear Hp Hp0];
    (destruct (bool_decide (wline_at = EmptyString)) eqn:Hw;
      [apply bool_decide_eq_true, Hw0 in Hw | clear Hw Hw0]);
    destruct (Z.eqb_spec (count pca_line PCA_FMT) 7);
    destruct (Z.eqb_spec (count wline_at WLC_AT_FMT) 1);
    destruct (Z.eqb_spec (count wline_ac WLC_AC_FMT) 7);
    cbn [fields_size with_tmp with_fields_size with_pca chg_init];
    change (chg_fields_size E) with 17;
    change (17 - chg_wlc_fields_size) with 10;
    split; intros; try reflexivity; try tauto; exfalso; tauto.
Qed.

Lemma gcharger_pdo_length file vs : gcharger_pdo file = Some vs -> length vs = 7%nat.
Proof. destruct file as [c|]; [apply first_pdo_length | discriminate]. Qed.

(** The record [ReportChargeStats] reports for a summary line that scans:
    its first [fields_size] fields are assigned from the merged locals, with
    the generic-charger values in slots 15 and 16 when the file gives a
    line, and the other fields are left unassigned. *)
Lemma ReportChargeStats_record E line wline_at wline_ac pca_line w f t0 :
  schema_ok E ->
  scan_summary line (tmp (chg_init E)) = (Some f, t0) ->
  let m := merge_side_channels E t0 wline_at wline_ac pca_line in
  let g := gcharger_pdo (files w !! kGChargerMetricsPath E) in
  let w' := exec (ReportChargeStats E line wline_at wline_ac pca_line) w in
  exists a,
    reported w' = reported w ++ [a]
    /\ files w' = files w
    /\ atomId a = kChargeStats
    /\ length (values a) = 17%nat
    /\ populated a = Z.to_nat (fields_size m)
    /\ forall i : nat, (i < 17)%nat ->
         if bool_decide (Z.of_nat i < fields_size m)
         then slot_holds E a i (session_slot g m i)
         else slot_unassigned E a i.
Proof.
  intros Hs Hsum m g w'. subst w'.
  destruct (summary_tmp E line _ _ Hsum) as [Hlen _].
  pose proof (merge_length E t0 wline_at wline_ac pca_line) as Hm.
  rewrite Hlen in Hm. fold m in Hm.
  pose proof (merge_fields_size E t0 wline_at wline_ac pca_line) as Hfm.
  cbv zeta in Hfm. fold m in Hfm.
  rewrite ReportChargeStats_exec. unfold session_atoms.
  rewrite assemble_spec, Hsum.
  destruct (gcharger_block_spec E (files w !! kGChargerMetricsPath E) t0
              wline_at wline_ac pca_line) as [Hfs Ht].
  fold m g in Hfs, Ht |- *.
  set (l := snd (gcharger_block _ m)) in *. clearbody l.
  exists (chg_event E l).
  split; [reflexivity|]. split; [reflexivity|]. split; [reflexivity|].
  split; [apply chg_values_length|].
  split.
  { unfold populated, chg_event. cbn [values].
    rewrite chg_values_populated by (auto; lia). rewrite Hfs. reflexivity. }
  intros i Hi. unfold slot_holds, slot_unassigned, chg_event. cbn [values].
  rewrite (chg_values_slot E l i Hs) by lia. rewrite Hfs.
  destruct (bool_decide (Z.of_nat i < fields_size m)); [|reflexivity].
  exists (tmp l !!! i). split; [|reflexivity].
  rewrite Ht. unfold session_slot. clear Ht Hfs Hfm.
  generalize dependent (tmp m). intros t Ht.
  destruct g as [vs|] eqn:Hg.
  - apply gcharger_pdo_length in Hg. clear g.
    explode t Ht. explode vs Hg.
    do 17 (destruct i as [|i]; [reflexivity|]). lia.
  - apply list_lookup_lookup_total_lt. lia.
Qed.

(** A field below the field count holds what [session_slot] names. *)
Lemma record_slot_below E a g m (i : nat) o :
  (if bool_decide (Z.of_nat i < fields_size m)
   then slot_holds E a i (session_slot g m i)
   else slot_unassigned E a i) ->
  Z.of_nat i < fields_size m -> session_slot g m i = o -> slot_holds E a i o.
Proof. intros H Hi <-. rewrite bool_decide_eq_true_2 in H by exact Hi. exact H. Qed.

Lemma record_slot_above E a g m (i : nat) :
  (if bool_decide (Z.of_nat i < fields_size m)
   then slot_holds E a i (session_slot g m i)
   else slot_unassigned E a i) ->
  fields_size m <= Z.of_nat i -> slot_unassigned E a i.
Proof. intros H Hi. rewrite bool_decide_eq_false_2 in H by lia. exact H. Qed.

Lemma session_slot_other g m (i : nat) :
  i <> 15%nat -> i <> 16%nat -> session_slot g m i = tmp m !! i.
Proof.
  intros H15 H16. unfold session_slot. destruct g; [|reflexivity].
  rewrite !bool_decide_eq_false_2 by assumption. reflexivity.
Qed.

Lemma session_slot_15 g m : session_slot g m 15 = apdo_or g (tmp m !! 15%nat).
Proof. destruct g; reflexivity. Qed.

Lemma session_slot_16 g m : session_slot g m 16 = pdo_or g (tmp m !! 16%nat).
Proof. destruct g; reflexivity. Qed.

(** Reads field [k] of the reported record off the merged locals. *)
Ltac slot_from Hslots Hfs k :=
  apply (record_slot_below _ _ _ _ k _ (Hslots k ltac:(lia)));
  [rewrite Hfs; lia
  |first [rewrite session_slot_15 | rewrite session_slot_16
         | rewrite session_slot_other by lia]].

(** C5 (as the code has it): the session record that is reported.  With both
    wireless lines parsed and no PCA line, the record has 17 fields, slot 0
    holds the translated adapter type and slots 10 to 14 the first five
    values of the wireless capability line; slots 15 and 16 hold its last two
    values, unless the generic-charger file gives a line, which then supplies
    them.  With the PCA line parsed and no wireless line, slot 0 holds the
    PPS constant, slots 10 and 11 hold PCA values and slot 15 too, unless the
    generic-charger line supplies it.  With both, slot 0 keeps the translated
    adapter type.  Whenever the PCA line is parsed, slots 12, 13 and 14 hold
    PCA values and slot 16 too, unless the generic-charger line supplies
    it. *)
Theorem slot_extension (E : Env) (line wline_at wline_ac pca_line : string)
    (w : World) (f : summary_format) (t0 : list Z) :
  schema_ok E ->
  scan_summary line (tmp (chg_init E)) = (Some f, t0) ->
  let translated :=
    TranslateSysModeToAtomValue E (default 0 (head (scanned wline_at WLC_AT_FMT))) in
  let wlc := scanned wline_ac WLC_AC_FMT in
  let pca := scanned pca_line PCA_FMT in
  let g := gcharger_pdo (files w !! kGChargerMetricsPath E) in
  exists a,
    reported (exec (ReportChargeStats E line wline_at wline_ac pca_line) w)
    = reported w ++ [a]
    /\ atomId a = kChargeStats
    /\ (count wline_at WLC_AT_FMT = 1 -> count wline_ac WLC_AC_FMT = 7 ->
        pca_line = EmptyString ->
          populated a = 17%nat
          /\ slot_holds E a 0 (Some translated)
          /\ (forall i : nat, (i < 5)%nat -> slot_holds E a (10 + i) (wlc !! i))
          /\ slot_holds E a 15 (apdo_or g (wlc !! 5%nat))
          /\ slot_holds E a 16 (pdo_or g (wlc !! 6%nat)))
    /\ (wline_at = EmptyString -> count pca_line PCA_FMT = 7 ->
          populated a = 17%nat
          /\ slot_holds E a 0 (Some (ADAPTER_TYPE_USB_PD_PPS E))
          /\ slot_holds E a 10 (pca !! 0%nat)
          /\ slot_holds E a 11 (pca !! 1%nat)
          /\ slot_holds E a 15 (apdo_or g (pca !! 2%nat)))
    /\ (count wline_at WLC_AT_FMT = 1 -> count wline_ac WLC_AC_FMT = 7 ->
        count pca_line PCA_FMT = 7 ->
          populated a = 17%nat
          /\ slot_holds E a 0 (Some translated)
          /\ slot_holds E a 10 (wlc !! 0%nat)
          /\ slot_holds E a 11 (wlc !! 1%nat)
          /\ slot_holds E a 15 (apdo_or g (wlc !! 5%nat)))
    /\ (count pca_line PCA_FMT = 7 ->
          populated a = 17%nat
          /\ slot_holds E a 12 (pca !! 4%nat)
          /\ slot_holds E a 13 (pca !! 5%nat)
          /\ slot_holds E a 14 (pca !! 6%nat)
          /\ slot_holds E a 16 (pdo_or g (pca !! 3%nat))).
Proof.
  intros Hs Hsum translated wlc pca g.
  destruct (ReportChargeStats_record E line wline_at wline_ac pca_line w f t0 Hs Hsum)
    as (a & Hr & _ & Hk & _ & Hpop & Hslots).
  destruct (merge_wireless_pca_slots E line wline_at wline_ac pca_line f t0 Hsum)
    as (HA & HB & HC & HD & _).
  destruct (merge_extended E t0 wline_at wline_ac pca_line) as [Hext _].
  cbv zeta in HA, HB, HC, HD, Hext, Hpop, Hslots.
  fold translated wlc pca g in HA, HB, HC, HD, Hslots.
  set (m := merge_side_channels E t0 wline_at wline_ac pca_line) in *.
  clearbody m g translated wlc pca.
  exists a. split; [exact Hr|]. split; [exact Hk|].
  split; [|split; [|split]].
  - intros H1 H7 Hp. destruct (HA H1 H7 Hp) as (Hfs & H0 & Hw).
    split; [rewrite Hpop, Hfs; reflexivity|].
    split; [slot_from Hslots Hfs 0%nat; exact H0|].
    split; [|split].
    + intros i Hi. slot_from Hslots Hfs (10 + i)%nat. apply Hw. lia.
    + slot_from Hslots Hfs 15%nat. f_equal. apply (Hw 5%nat). lia.
    + slot_from Hslots Hfs 16%nat. f_equal. apply (Hw 6%nat). lia.
  - intros Hw H7. destruct (HB Hw H7) as (Hfs & H0 & H10 & H11 & H15).
    split; [rewrite Hpop, Hfs; reflexivity|].
    split; [slot_from Hslots Hfs 0%nat; exact H0|].
    split; [slot_from Hslots Hfs 10%nat; exact H10|].
    split; [slot_from Hslots Hfs 11%nat; exact H11|].
    slot_from Hslots Hfs 15%nat. f_equal. exact H15.
  - intros H1 H7 H7'. destruct (HC H1 H7 H7') as (Hfs & H0 & H10 & H11 & H15).
    split; [rewrite Hpop, Hfs; reflexivity|].
    split; [slot_from Hslots Hfs 0%nat; exact H0|].
    split; [slot_from Hslots Hfs 10%nat; exact H10|].
    split; [slot_from Hslots Hfs 11%nat; exact H11|].
    slot_from Hslots Hfs 15%nat. f_equal. exact H15.
  - intros H7. destruct (HD H7) as (H12 & H13 & H14 & H16).
    assert (Hfs : fields_size m = 17) by (apply Hext; right; exact H7).
    split; [rewrite Hpop, Hfs; reflexivity|].
    split; [slot_from Hslots Hfs 12%nat; exact H12|].
    split; [slot_from Hslots Hfs 13%nat; exact H13|].
    split; [slot_from Hslots Hfs 14%nat; exact H14|].
    slot_from Hslots Hfs 16%nat. f_equal. exact H16.
Qed.

Lemma slot_extension_witness :
  let E := Sample.env [] in
  let w := Sample.world 100 [] in
  let g := gcharger_pdo (files w !! kGChargerMetricsPath E) in
  let translated :=
    TranslateSysModeToAtomValue E (default 0 (head (scanned "A:2" WLC_AT_FMT))) in
  let wlc := scanned "D:1,2,3,4,5, 6,7" WLC_AC_FMT in
  let pca := scanned "D:a,b c,d,e,f,10" PCA_FMT in
  (exists a,
     reported (exec (ReportChargeStats E Sample.summary "A:2" "D:1,2,3,4,5, 6,7"
                       EmptyString) w) = reported w ++ [a]
     /\ populated a = 17%nat
     /\ slot_holds E a 0 (Some translated)
     /\ (forall i : nat, (i < 5)%nat -> slot_holds E a (10 + i) (wlc !! i))
     /\ slot_holds E a 15 (apdo_or g (wlc !! 5%nat))
     /\ slot_holds E a 16 (pdo_or g (wlc !! 6%nat)))
  /\ (exists a,
        reported (exec (ReportChargeStats E Sample.summary EmptyString EmptyString
                          "D:a,b c,d,e,f,10") w) = reported w ++ [a]
        /\ populated a = 17%nat
        /\ slot_holds E a 0 (Some (ADAPTER_TYPE_USB_PD_PPS E))
        /\ slot_holds E a 10 (pca !! 0%nat)
        /\ slot_holds E a 11 (pca !! 1%nat)
        /\ slot_holds E a 15 (apdo_or g (pca !! 2%nat))
        /\ slot_holds E a 12 (pca !! 4%nat)
        /\ slot_holds E a 16 (pdo_or g (pca !! 3%nat)))
  /\ (exists a,
        reported (exec (ReportChargeStats E Sample.summary "A:2" "D:1,2,3,4,5, 6,7"
                          "D:a,b c,d,e,f,10") w) = reported w ++ [a]
        /\ populated a = 17%nat
        /\ slot_holds E a 0 (Some translated)
        /\ slot_holds E a 12 (pca !! 4%nat)
        /\ slot_holds E a 13 (pca !! 5%nat)
        /\ slot_holds E a 14 (pca !! 6%nat)
        /\ slot_holds E a 16 (pdo_or g (pca !! 3%nat))).
Proof.
  assert (Hs : schema_ok (Sample.env []))
    by (repeat split; apply (bool_decide_unpack _); vm_compute; exact I).
  assert (Hsum : scan_summary Sample.summary (tmp (chg_init (Sample.env [])))
                 = (Some FMT0_base,
                    [3; 9000; 2000; 80; 4400; 90; 4450; 0; 0; 0; 0; 0; 0; 0; 0; 0; 0]))
    by (vm_compute; reflexivity).
  split; [|split].
  - destruct (slot_extension (Sample.env []) Sample.summary "A:2" "D:1,2,3,4,5, 6,7"
                EmptyString (Sample.world 100 []) _ _ Hs Hsum)
      as (a & Hr & _ & HA & _).
    exists a. split; [exact Hr|].
    apply HA; vm_compute; reflexivity.
  - destruct (slot_extension (Sample.env []) Sample.summary EmptyString EmptyString
                "D:a,b c,d,e,f,10" (Sample.world 100 []) _ _ Hs Hsum)
      as (a & Hr & _ & _ & HB & _ & HD).
    exists a. split; [exact Hr|].
    destruct HB as (Hp & H0 & H10 & H11 & H15); [reflexivity | vm_compute; reflexivity|].
    destruct HD as (_ & H12 & _ & _ & H16); [vm_compute; reflexivity|].
    repeat (split; [assumption|]). assumption.
  - destruct (slot_extension (Sample.env []) Sample.summary "A:2" "D:1,2,3,4,5, 6,7"
                "D:a,b c,d,e,f,10" (Sample.world 100 []) _ _ Hs Hsum)
      as (a & Hr & _ & _ & _ & HC & HD).
    exists a. split; [exact Hr|].
    destruct HC as (Hp & H0 & _); [vm_compute; reflexivity ..|].
    destruct HD as (_ & H12 & H13 & H14 & H16); [vm_compute; reflexivity|].
    repeat (split; [assumption|]). assumption.
Defined.

(** C5 as stated fails: with both wireless lines parsed and no PCA line,
    slots 15 and 16 of the reported record hold the values of the
    generic-charger line, not the sixth and seventh values of the wireless
    capability line. *)
Lemma wireless_slots_overridden_by_generic_charger :
  let E := Sample.env [] in
  let w := Sample.world 100 [("gcharger", "D:11,22,33,44,55,66,77")] in
  count "A:2" WLC_AT_FMT = 1
  /\ scanned "D:1,2,3,4,5, 6,7" WLC_AC_FMT = [1; 2; 3; 4; 5; 6; 7]
  /\ exists a,
       reported (exec (ReportChargeStats E Sample.summary "A:2" "D:1,2,3,4,5, 6,7"
                         EmptyString) w) = [a]
       /\ values a !! idx (charge_stats_fields E) (kVendorAtomOffset E) 14
          = Some (Some (intValue 5))
       /\ values a !! idx (charge_stats_fields E) (kVendorAtomOffset E) 15
          = Some (Some (intValue 34))
       /\ values a !! idx (charge_stats_fields E) (kVendorAtomOffset E) 16
          = Some (Some (intValue 119)).
Proof.
  split; [vm_compute; reflexivity|]. split; [vm_compute; reflexivity|].
  eexists. vm_compute. repeat split.
Qed.

(** C6 (as the code has it): when the generic-charger file has a line that
    scans as seven fields, the first such line supplies slot 15 (APDO, its
    second value) and slot 16 (PDO, its seventh value) of the session record
    that is reported, over whatever the wireless and PCA blocks put there,
    provided that both wireless lines or the PCA line scan, which is what
    raises the record to 17 fields; the other fields are as these blocks left
    them.  When neither scans, the record keeps its ten fields and slots 10
    to 16, the two generic-charger values among them, are not assigned. *)
Theorem gcharger_override (E : Env) (line wline_at wline_ac pca_line : string)
    (w : World) (f : summary_format) (t0 : list Z) (file : string)
    (pre post : list string) (pdo_line : string) :
  schema_ok E ->
  scan_summary line (tmp (chg_init E)) = (Some f, t0) ->
  files w !! kGChargerMetricsPath E = Some file ->
  lines file = pre ++ pdo_line :: post ->
  Forall (fun l => count l PDO_FMT <> 7) pre ->
  count pdo_line PDO_FMT = 7 ->
  let m := merge_side_channels E t0 wline_at wline_ac pca_line in
  let vs := scanned pdo_line PDO_FMT in
  exists a,
    reported (exec (ReportChargeStats E line wline_at wline_ac pca_line) w)
    = reported w ++ [a]
    /\ atomId a = kChargeStats
    /\ (extended wline_at wline_ac pca_line ->
          populated a = 17%nat
          /\ slot_holds E a 15 (vs !! 1%nat)
          /\ slot_holds E a 16 (vs !! 6%nat)
          /\ forall i : nat, (i < 17)%nat -> i <> 15%nat -> i <> 16%nat ->
               slot_holds E a i (tmp m !! i))
    /\ (~ extended wline_at wline_ac pca_line ->
          populated a = 10%nat
          /\ (forall i : nat, (i < 10)%nat -> slot_holds E a i (tmp m !! i))
          /\ forall i : nat, (10 <= i < 17)%nat -> slot_unassigned E a i).
Proof.
  intros Hs Hsum Hfile Hlines Hpre H7 m vs.
  destruct (ReportChargeStats_record E line wline_at wline_ac pca_line w f t0 Hs Hsum)
    as (a & Hr & _ & Hk & _ & Hpop & Hslots).
  destruct (merge_extended E t0 wline_at wline_ac pca_line) as [Hext Hnext].
  cbv zeta in Hext, Hnext, Hpop, Hslots. fold m in Hext, Hnext, Hpop, Hslots.
  rewrite Hfile in Hslots. cbn [gcharger_pdo] in Hslots.
  rewrite Hlines, (first_pdo_app pre pdo_line post Hpre H7) in Hslots. fold vs in Hslots.
  clearbody m vs.
  exists a. split; [exact Hr|]. split; [exact Hk|]. split.
  - intros He. specialize (Hext He).
    split; [rewrite Hpop, Hext; reflexivity|].
    split; [slot_from Hslots Hext 15%nat; reflexivity|].
    split; [slot_from Hslots Hext 16%nat; reflexivity|].
    intros i Hi H15 H16. slot_from Hslots Hext i. reflexivity.
  - intros He. specialize (Hnext He).
    split; [rewrite Hpop, Hnext; reflexivity|]. split.
    + intros i Hi. slot_from Hslots Hnext i. reflexivity.
    + intros i Hi. apply (record_slot_above _ _ _ _ i (Hslots i ltac:(lia))).
      rewrite Hnext. lia.
Qed.

Lemma gcharger_override_witness :
  let E := Sample.env [] in
  let w := Sample.world 100 [("gcharger", "x" +:+ Sample.nl +:+ "D:11,22,33,44,55,66,77")] in
  let vs := scanned "D:11,22,33,44,55,66,77" PDO_FMT in
  let t0 := [3; 9000; 2000; 80; 4400; 90; 4450; 0; 0; 0; 0; 0; 0; 0; 0; 0; 0] in
  (exists a,
     reported (exec (ReportChargeStats E Sample.summary "A:2" "D:1,2,3,4,5, 6,7"
                       EmptyString) w) = reported w ++ [a]
     /\ populated a = 17%nat
     /\ slot_holds E a 15 (vs !! 1%nat)
     /\ slot_holds E a 16 (vs !! 6%nat)
     /\ forall i : nat, (i < 17)%nat -> i <> 15%nat -> i <> 16%nat ->
          slot_holds E a i
            (tmp (merge_side_channels E t0 "A:2" "D:1,2,3,4,5, 6,7" EmptyString) !! i))
  /\ (exists a,
        reported (exec (ReportChargeStats E Sample.summary EmptyString EmptyString
                          EmptyString) w) = reported w ++ [a]
        /\ populated a = 10%nat
        /\ (forall i : nat, (i < 10)%nat ->
              slot_holds E a i
                (tmp (merge_side_channels E t0 EmptyString EmptyString EmptyString) !! i))
        /\ forall i : nat, (10 <= i < 17)%nat -> slot_unassigned E a i).
Proof.
  assert (Hs : schema_ok (Sample.env []))
    by (repeat split; apply (bool_decide_unpack _); vm_compute; exact I).
  assert (Hsum : scan_summary Sample.summary (tmp (chg_init (Sample.env [])))
                 = (Some FMT0_base,
                    [3; 9000; 2000; 80; 4400; 90; 4450; 0; 0; 0; 0; 0; 0; 0; 0; 0; 0]))
    by (vm_compute; reflexivity).
  assert (Hpre : Forall (fun l => count l PDO_FMT <> 7) ["x"])
    by (constructor; [vm_compute; discriminate | constructor]).
  split.
  - destruct (gcharger_override (Sample.env []) Sample.summary "A:2" "D:1,2,3,4,5, 6,7"
                EmptyString
                (Sample.world 100
                   [("gcharger", "x" +:+ Sample.nl +:+ "D:11,22,33,44,55,66,77")])
                _ _ ("x" +:+ Sample.nl +:+ "D:11,22,33,44,55,66,77")
                ["x"] [] "D:11,22,33,44,55,66,77" Hs Hsum)
      as (a & Hr & _ & He & _);
      [vm_compute; reflexivity | vm_compute; reflexivity | exact Hpre
      | vm_compute; reflexivity |].
    exists a. split; [exact Hr|].
    apply He. left. split; vm_compute; reflexivity.
  - destruct (gcharger_override (Sample.env []) Sample.summary EmptyString EmptyString
                EmptyString
                (Sample.world 100
                   [("gcharger", "x" +:+ Sample.nl +:+ "D:11,22,33,44,55,66,77")])
                _ _ ("x" +:+ Sample.nl +:+ "D:11,22,33,44,55,66,77")
                ["x"] [] "D:11,22,33,44,55,66,77" Hs Hsum)
      as (a & Hr & _ & _ & Hn);
      [vm_compute; reflexivity | vm_compute; reflexivity | exact Hpre
      | vm_compute; reflexivity |].
    exists a. split; [exact Hr|].
    apply Hn. intros [[H _]|H]; vm_compute in H; discriminate H.
Defined.

(** C6 as stated fails: with neither wireless nor PCA data, a line of the
    generic-charger file that scans as seven fields does not reach the
    session record, which is reported with ten fields and with slots 15 and
    16 unassigned. *)
Lemma generic_charger_values_not_reported :
  let E := Sample.env [] in
  let w := Sample.world 100 [("gcharger", "D:11,22,33,44,55,66,77")] in
  count "D:11,22,33,44,55,66,77" PDO_FMT = 7
  /\ exists a,
       reported (exec (ReportChargeStats E Sample.summary EmptyString EmptyString
                         EmptyString) w) = [a]
       /\ populated a = 10%nat
       /\ values a !! idx (charge_stats_fields E) (kVendorAtomOffset E) 15 = Some None
       /\ values a !! idx (charge_stats_fields E) (kVendorAtomOffset E) 16 = Some None.
Proof.
  split; [vm_compute; reflexivity|].
  eexists. vm_compute. repeat split.
Qed.

(** The wireless block does nothing when the adapter-type line does not scan
    as [A:<int>], so the capability line does not matter. *)
Lemma merge_ignores_capability_line E t0 wline_at wline_ac wline_ac' pca_line :
  count wline_at WLC_AT_FMT <> 1 ->
  merge_side_channels E t0 wline_at wline_ac' pca_line
  = merge_side_channels E t0 wline_at wline_ac pca_line.
Proof.
  intros H. unfold merge_side_channels. rewrite !wlc_block_spec. cbv zeta.
  destruct (bool_decide (wline_at = EmptyString)); [reflexivity|].
  destruct (Z.eqb_spec (count wline_at WLC_AT_FMT) 1); [contradiction | reflexivity].
Qed.

(** C10 (as the code has it): the session record that is reported when the
    wireless adapter-type line does not scan as [A:<int>].  The capability
    line is never looked at.  If the adapter-type line is not empty, no
    wireless value is applied: slot 0 stays the summary's, and a parsed PCA
    line does not put the PPS constant there nor fill slots 10, 11 and 15,
    which are reported as zero (slot 15 unless the generic-charger line
    supplies it), while slots 12, 13, 14 and 16 hold PCA values; without a
    parsed PCA line the record keeps its ten summary fields.  If the
    adapter-type line is empty, the PCA block takes the wireless data for
    absent: a parsed PCA line does put the PPS constant in slot 0 and PCA
    values in slots 10, 11 and 15. *)
Theorem unparsed_wireless_type_line (E : Env)
    (line wline_at wline_ac pca_line : string) (w : World)
    (f : summary_format) (t0 : list Z) :
  schema_ok E ->
  scan_summary line (tmp (chg_init E)) = (Some f, t0) ->
  count wline_at WLC_AT_FMT <> 1 ->
  let pca := scanned pca_line PCA_FMT in
  let g := gcharger_pdo (files w !! kGChargerMetricsPath E) in
  exists a,
    reported (exec (ReportChargeStats E line wline_at wline_ac pca_line) w)
    = reported w ++ [a]
    /\ atomId a = kChargeStats
    /\ (forall wline_ac',
          exec (ReportChargeStats E line wline_at wline_ac' pca_line) w
          = exec (ReportChargeStats E line wline_at wline_ac pca_line) w)
    /\ (wline_at <> EmptyString ->
          slot_holds E a 0 (t0 !! 0%nat)
          /\ (count pca_line PCA_FMT = 7 ->
                populated a = 17%nat
                /\ slot_holds E a 10 (Some 0)
                /\ slot_holds E a 11 (Some 0)
                /\ slot_holds E a 15 (apdo_or g (Some 0))
                /\ slot_holds E a 12 (pca !! 4%nat)
                /\ slot_holds E a 13 (pca !! 5%nat)
                /\ slot_holds E a 14 (pca !! 6%nat)
                /\ slot_holds E a 16 (pdo_or g (pca !! 3%nat)))
          /\ (count pca_line PCA_FMT <> 7 ->
                populated a = 10%nat
                /\ (forall i : nat, (i < 10)%nat -> slot_holds E a i (t0 !! i))
                /\ forall i : nat, (10 <= i < 17)%nat -> slot_unassigned E a i))
    /\ (wline_at = EmptyString -> count pca_line PCA_FMT = 7 ->
          populated a = 17%nat
          /\ slot_holds E a 0 (Some (ADAPTER_TYPE_USB_PD_PPS E))
          /\ slot_holds E a 10 (pca !! 0%nat)
          /\ slot_holds E a 11 (pca !! 1%nat)
          /\ slot_holds E a 15 (apdo_or g (pca !! 2%nat))).
Proof.
  intros Hs Hsum Hat pca g.
  destruct (ReportChargeStats_record E line wline_at wline_ac pca_line w f t0 Hs Hsum)
    as (a & Hr & _ & Hk & _ & Hpop & Hslots).
  destruct (merge_wireless_pca_slots E line wline_at wline_ac pca_line f t0 Hsum)
    as (_ & HB & _).
  pose proof (merge_unparsed_type_line E line wline_at wline_ac pca_line f t0 Hsum) as HU.
  destruct (merge_extended E t0 wline_at wline_ac pca_line) as [_ Hnext].
  cbv zeta in HB, HU, Hnext, Hpop, Hslots. fold pca g in HB, HU, Hslots.
  assert (Hsame : forall wline_ac',
            exec (ReportChargeStats E line wline_at wline_ac' pca_line) w
            = exec (ReportChargeStats E line wline_at wline_ac pca_line) w).
  { intros wline_ac'. rewrite !ReportChargeStats_exec. unfold session_atoms.
    rewrite !assemble_spec, Hsum.
    rewrite (merge_ignores_capability_line E t0 wline_at wline_ac wline_ac' pca_line Hat).
    reflexivity. }
  set (m := merge_side_channels E t0 wline_at wline_ac pca_line) in *.
  clearbody m g pca.
  exists a. split; [exact Hr|]. split; [exact Hk|]. split; [exact Hsame|]. split.
  - intros Hne. destruct (HU Hne Hat) as (_ & H0 & H10 & H11 & H15 & Hp & Hn).
    assert (Hfs : fields_size m = 10 \/ fields_size m = 17).
    { destruct (Z.eq_dec (count pca_line PCA_FMT) 7) as [H7|H7].
      - right. apply (Hp H7).
      - left. apply (Hn H7). }
    split; [|split].
    + apply (record_slot_below _ _ _ _ 0%nat _ (Hslots 0%nat ltac:(lia))); [lia|].
      rewrite session_slot_other by lia. exact H0.
    + intros H7. destruct (Hp H7) as (Hfs' & H12 & H13 & H14 & H16).
      split; [rewrite Hpop, Hfs'; reflexivity|].
      split; [slot_from Hslots Hfs' 10%nat; exact H10|].
      split; [slot_from Hslots Hfs' 11%nat; exact H11|].
      split; [slot_from Hslots Hfs' 15%nat; f_equal; exact H15|].
      split; [slot_from Hslots Hfs' 12%nat; exact H12|].
      split; [slot_from Hslots Hfs' 13%nat; exact H13|].
      split; [slot_from Hslots Hfs' 14%nat; exact H14|].
      slot_from Hslots Hfs' 16%nat. f_equal. exact H16.
    + intros H7. destruct (Hn H7) as (Ht & Hfs').
      split; [rewrite Hpop, Hfs'; reflexivity|]. split.
      * intros i Hi. slot_from Hslots Hfs' i. rewrite Ht. reflexivity.
      * intros i Hi. apply (record_slot_above _ _ _ _ i (Hslots i ltac:(lia))).
        rewrite Hfs'. lia.
  - intros He H7. destruct (HB He H7) as (Hfs & H0 & H10 & H11 & H15).
    split; [rewrite Hpop, Hfs; reflexivity|].
    split; [slot_from Hslots Hfs 0%nat; exact H0|].
    split; [slot_from Hslots Hfs 10%nat; exact H10|].
    split; [slot_from Hslots Hfs 11%nat; exact H11|].
    slot_from Hslots Hfs 15%nat. f_equal. exact H15.
Qed.

Lemma unparsed_wireless_type_line_witness :
  let E := Sample.env [] in
  let w := Sample.world 100 [] in
  let t0 := [3; 9000; 2000; 80; 4400; 90; 4450; 0; 0; 0; 0; 0; 0; 0; 0; 0; 0] in
  let pca := scanned "D:a,b c,d,e,f,10" PCA_FMT in
  let g := gcharger_pdo (files w !! kGChargerMetricsPath E) in
  (exists a,
     reported (exec (ReportChargeStats E Sample.summary "B:2" "D:1,2,3,4,5, 6,7"
                       "D:a,b c,d,e,f,10") w) = reported w ++ [a]
     /\ (forall wline_ac',
           exec (ReportChargeStats E Sample.summary "B:2" wline_ac' "D:a,b c,d,e,f,10") w
           = exec (ReportChargeStats E Sample.summary "B:2" "D:1,2,3,4,5, 6,7"
                     "D:a,b c,d,e,f,10") w)
     /\ slot_holds E a 0 (t0 !! 0%nat)
     /\ populated a = 17%nat
     /\ slot_holds E a 10 (Some 0)
     /\ slot_holds E a 11 (Some 0)
     /\ slot_holds E a 15 (apdo_or g (Some 0))
     /\ slot_holds E a 12 (pca !! 4%nat)
     /\ slot_holds E a 13 (pca !! 5%nat)
     /\ slot_holds E a 14 (pca !! 6%nat)
     /\ slot_holds E a 16 (pdo_or g (pca !! 3%nat)))
  /\ (exists a,
        reported (exec (ReportChargeStats E Sample.summary "B:2" "D:1,2,3,4,5, 6,7"
                          EmptyString) w) = reported w ++ [a]
        /\ populated a = 10%nat
        /\ (forall i : nat, (i < 10)%nat -> slot_holds E a i (t0 !! i))
        /\ forall i : nat, (10 <= i < 17)%nat -> slot_unassigned E a i)
  /\ (exists a,
        reported (exec (ReportChargeStats E Sample.summary EmptyString "D:1,2,3,4,5, 6,7"
                          "D:a,b c,d,e,f,10") w) = reported w ++ [a]
        /\ populated a = 17%nat
        /\ slot_holds E a 0 (Some (ADAPTER_TYPE_USB_PD_PPS E))
        /\ slot_holds E a 10 (pca !! 0%nat)
        /\ slot_holds E a 11 (pca !! 1%nat)
        /\ slot_holds E a 15 (apdo_or g (pca !! 2%nat))).
Proof.
  assert (Hs : schema_ok (Sample.env []))
    by (repeat split; apply (bool_decide_unpack _); vm_compute; exact I).
  assert (Hsum : scan_summary Sample.summary (tmp (chg_init (Sample.env [])))
                 = (Some FMT0_base,
                    [3; 9000; 2000; 80; 4400; 90; 4450; 0; 0; 0; 0; 0; 0; 0; 0; 0; 0]))
    by (vm_compute; reflexivity).
  split; [|split].
  - destruct (unparsed_wireless_type_line (Sample.env []) Sample.summary "B:2"
                "D:1,2,3,4,5, 6,7" "D:a,b c,d,e,f,10" (Sample.world 100 []) _ _ Hs Hsum)
      as (a & Hr & _ & Hsame & Hne & _); [vm_compute; discriminate|].
    exists a. split; [exact Hr|]. split; [exact Hsame|].
    destruct Hne as (H0 & Hp & _); [discriminate|].
    split; [exact H0|]. apply Hp. vm_compute; reflexivity.
  - destruct (unparsed_wireless_type_line (Sample.env []) Sample.summary "B:2"
                "D:1,2,3,4,5, 6,7" EmptyString (Sample.world 100 []) _ _ Hs Hsum)
      as (a & Hr & _ & _ & Hne & _); [vm_compute; discriminate|].
    exists a. split; [exact Hr|].
    destruct Hne as (_ & _ & Hn); [discriminate|].
    apply Hn. vm_compute; discriminate.
  - destruct (unparsed_wireless_type_line (Sample.env []) Sample.summary EmptyString
                "D:1,2,3,4,5, 6,7" "D:a,b c,d,e,f,10" (Sample.world 100 []) _ _ Hs Hsum)
      as (a & Hr & _ & _ & _ & He); [vm_compute; discriminate|].
    exists a. split; [exact Hr|].
    apply He; [reflexivity | vm_compute; reflexivity].
Defined.

(** C10 as stated fails: a wireless file is present and its first line is
    empty, so it does not scan as [A:<int>]; the PCA block then takes the
    wireless data for absent, and the reported record has the PPS constant in
    slot 0 and PCA values in slots 10, 11 and 15. *)
Lemma pps_applied_when_wireless_type_line_empty :
  let E := Sample.env [] in
  let w := Sample.world 100
             [("charge", Sample.summary);
              ("wlc", Sample.nl +:+ "D:1,2,3,4,5, 6,7");
              ("pca", "D:a,b c,d,e,f,10")] in
  drain_has_wireless E (files w) = true
  /\ drain_wline_at E (files w) = EmptyString
  /\ count (drain_wline_at E (files w)) WLC_AT_FMT <> 1
  /\ exists a,
       reported (exec (checkAndReport E "charge") w) = [a]
       /\ values a !! idx (charge_stats_fields E) (kVendorAtomOffset E) 0
          = Some (Some (intValue (ADAPTER_TYPE_USB_PD_PPS E)))
       /\ values a !! idx (charge_stats_fields E) (kVendorAtomOffset E) 10
          = Some (Some (intValue 10))
       /\ values a !! idx (charge_stats_fields E) (kVendorAtomOffset E) 11
          = Some (Some (intValue 11))
       /\ values a !! idx (charge_stats_fields E) (kVendorAtomOffset E) 15
          = Some (Some (intValue 12)).
Proof.
  split; [vm_compute; reflexivity|]. split; [vm_compute; reflexivity|].
  split; [vm_compute; discriminate|].
  eexists. vm_compute. repeat split.
Qed.

(** X9.  The session record that is reported when the wireless adapter-type
    line scans but the capability line does not give its seven values: slot 0
    holds the translated adapter type and slots 1 to 9 the summary's values;
    without a parsed PCA line the record keeps its ten fields, so what the
    capability scan stored before it stopped is not reported; with a parsed
    PCA line the record has 17 fields, and slots 10, 11 and 15, which the PCA
    block leaves alone because the adapter-type line is not empty, hold the
    values the capability scan stored there, or zero where it stored none
    (slot 15 unless the generic-charger line supplies it). *)
Theorem unparsed_wireless_capability_line (E : Env)
    (line wline_at wline_ac pca_line : string) (w : World)
    (f : summary_format) (t0 : list Z) :
  schema_ok E ->
  scan_summary line (tmp (chg_init E)) = (Some f, t0) ->
  count wline_at WLC_AT_FMT = 1 ->
  count wline_ac WLC_AC_FMT <> 7 ->
  let translated :=
    TranslateSysModeToAtomValue E (default 0 (head (scanned wline_at WLC_AT_FMT))) in
  let stored := scanned wline_ac WLC_AC_FMT in
  let g := gcharger_pdo (files w !! kGChargerMetricsPath E) in
  (length stored <= 6)%nat
  /\ exists a,
       reported (exec (ReportChargeStats E line wline_at wline_ac pca_line) w)
       = reported w ++ [a]
       /\ atomId a = kChargeStats
       /\ slot_holds E a 0 (Some translated)
       /\ (forall i : nat, (1 <= i < 10)%nat -> slot_holds E a i (t0 !! i))
       /\ (count pca_line PCA_FMT <> 7 ->
             populated a = 10%nat
             /\ forall i : nat, (10 <= i < 17)%nat -> slot_unassigned E a i)
       /\ (count pca_line PCA_FMT = 7 ->
             populated a = 17%nat
             /\ slot_holds E a 10 (Some (default 0 (stored !! 0%nat)))
             /\ slot_holds E a 11 (Some (default 0 (stored !! 1%nat)))
             /\ slot_holds E a 15 (apdo_or g (Some (default 0 (stored !! 5%nat))))).
Proof.
  intros Hs Hsum Hat Hac translated stored g.
  destruct (ReportChargeStats_record E line wline_at wline_ac pca_line w f t0 Hs Hsum)
    as (a & Hr & _ & Hk & _ & Hpop & Hslots).
  destruct (merge_unparsed_capability_line E line wline_at wline_ac pca_line f t0
              Hsum Hat Hac) as (Hst & H0 & Hlow & Hn & Hp).
  cbv zeta in Hpop, Hslots. fold translated stored in Hst, H0, Hn, Hp.
  fold g in Hslots.
  set (m := merge_side_channels E t0 wline_at wline_ac pca_line) in *.
  clearbody m g translated stored.
  split; [exact Hst|].
  assert (Hfs : fields_size m = 10 \/ fields_size m = 17).
  { destruct (Z.eq_dec (count pca_line PCA_FMT) 7) as [H7|H7].
    - right. apply (Hp H7).
    - left. apply (Hn H7). }
  exists a. split; [exact Hr|]. split; [exact Hk|].
  split; [|split; [|split]].
  - apply (record_slot_below _ _ _ _ 0%nat _ (Hslots 0%nat ltac:(lia))); [lia|].
    rewrite session_slot_other by lia. exact H0.
  - intros i Hi.
    apply (record_slot_below _ _ _ _ i _ (Hslots i ltac:(lia))); [lia|].
    rewrite session_slot_other by lia. apply Hlow, Hi.
  - intros H7. destruct (Hn H7) as (Hfs' & _).
    split; [rewrite Hpop, Hfs'; reflexivity|].
    intros i Hi. apply (record_slot_above _ _ _ _ i (Hslots i ltac:(lia))).
    rewrite Hfs'. lia.
  - intros H7. destruct (Hp H7) as (Hfs' & H10 & H11 & H15).
    split; [rewrite Hpop, Hfs'; reflexivity|].
    split; [slot_from Hslots Hfs' 10%nat; exact H10|].
    split; [slot_from Hslots Hfs' 11%nat; exact H11|].
    slot_from Hslots Hfs' 15%nat. f_equal. exact H15.
Qed.

Lemma unparsed_wireless_capability_line_witness :
  let E := Sample.env [] in
  let w := Sample.world 100 [] in
  let t0 := [3; 9000; 2000; 80; 4400; 90; 4450; 0; 0; 0; 0; 0; 0; 0; 0; 0; 0] in
  let translated :=
    TranslateSysModeToAtomValue E (default 0 (head (scanned "A:2" WLC_AT_FMT))) in
  let stored := scanned "D:1,2,3" WLC_AC_FMT in
  let g := gcharger_pdo (files w !! kGChargerMetricsPath E) in
  (exists a,
     reported (exec (ReportChargeStats E Sample.summary "A:2" "D:1,2,3"
                       "D:a,b c,d,e,f,10") w) = reported w ++ [a]
     /\ slot_holds E a 0 (Some translated)
     /\ (forall i : nat, (1 <= i < 10)%nat -> slot_holds E a i (t0 !! i))
     /\ populated a = 17%nat
     /\ slot_holds E a 10 (Some (default 0 (stored !! 0%nat)))
     /\ slot_holds E a 11 (Some (default 0 (stored !! 1%nat)))
     /\ slot_holds E a 15 (apdo_or g (Some (default 0 (stored !! 5%nat)))))
  /\ (exists a,
        reported (exec (ReportChargeStats E Sample.summary "A:2" "D:1,2,3"
                          EmptyString) w) = reported w ++ [a]
        /\ slot_holds E a 0 (Some translated)
        /\ populated a = 10%nat
        /\ forall i : nat, (10 <= i < 17)%nat -> slot_unassigned E a i).
Proof.
  assert (Hs : schema_ok (Sample.env []))
    by (repeat split; apply (bool_decide_unpack _); vm_compute; exact I).
  assert (Hsum : scan_summary Sample.summary (tmp (chg_init (Sample.env [])))
                 = (Some FMT0_base,
                    [3; 9000; 2000; 80; 4400; 90; 4450; 0; 0; 0; 0; 0; 0; 0; 0; 0; 0]))
    by (vm_compute; reflexivity).
  split.
  - destruct (unparsed_wireless_capability_line (Sample.env []) Sample.summary "A:2"
                "D:1,2,3" "D:a,b c,d,e,f,10" (Sample.world 100 []) _ _ Hs Hsum)
      as (_ & a & Hr & _ & H0 & Hlow & _ & Hp);
      [vm_compute; reflexivity | vm_compute; discriminate|].
    exists a. split; [exact Hr|]. split; [exact H0|]. split; [exact Hlow|].
    apply Hp. vm_compute; reflexivity.
  - destruct (unparsed_wireless_capability_line (Sample.env []) Sample.summary "A:2"
                "D:1,2,3" EmptyString (Sample.world 100 []) _ _ Hs Hsum)
      as (_ & a & Hr & _ & H0 & _ & Hn & _);
      [vm_compute; reflexivity | vm_compute; discriminate|].
    exists a. split; [exact Hr|]. split; [exact H0|].
    apply Hn. vm_compute; discriminate.
Defined.

(** * The drain as a whole *)

Lemma source_tiers_samples E path f : source_tiers E path f = aux_samples E path f.
Proof.
  unfold source_tiers, aux_samples. destruct (f !! path) as [c|]; [|reflexivity].
  destruct (writable E path); [apply plain_tiers_map | reflexivity].
Qed.

Lemma drain_aux_tiers_atoms E w :
  drain_aux_tiers E w = aux_atoms E (drain_files E (files w)).
Proof. unfold drain_aux_tiers, aux_atoms. rewrite !source_tiers_samples. reflexivity. Qed.

Lemma wireless_tiers_length E wfile_contents ls : forall ws,
  length (fst (wireless_tiers E wfile_contents ls ws))
  = length (List.filter (fun line => tier_ok (c_str line)) ls).
Proof.
  induction ls as [|l ls IH]; intros ws; [reflexivity|].
  cbn [wireless_tiers List.filter].
  destruct (tier_ok (c_str l)); [|apply IH]. cbv zeta.
  specialize (IH (CalculateWirelessChargeStats E
                    (static_cast_int E (tier_ssoc (c_str l))) wfile_contents ws)).
  destruct (wireless_tiers E wfile_contents ls _) as [atoms ws''].
  cbn [fst length] in *. f_equal. exact IH.
Qed.

(** The primary log gives one sample per line that scans as a tier line. *)
Lemma drain_primary_tiers_lines E ss w :
  tier_samples_of E ss (drain_primary_tiers E ss w).
Proof.
  unfold tier_samples_of, drain_primary_tiers.
  destruct (drain_has_wireless E (files w)).
  - split; [apply wireless_tiers_length|].
    intros i l H.
    destruct (wireless_tiers_fold E (drain_wfile_contents E (files w)) (lines ss)
                (reset_tier_soc (wireless_charge_stats_ w))) as [_ H2].
    eexists. apply (H2 i l H).
  - rewrite plain_tiers_map. split; [apply length_map|].
    intros i l H. exists None. rewrite list_lookup_fmap, H. reflexivity.
Qed.

Lemma tier_samples_kind E text atoms :
  tier_samples_of E text atoms -> Forall (fun a => atomId a = kVoltageTierStats) atoms.
Proof.
  intros [Hlen Hl]. apply Forall_lookup. intros i a Ha.
  assert (Hi : (i < length (tier_lines text))%nat)
    by (rewrite <- Hlen; apply (lookup_lt_Some _ _ _ Ha)).
  destruct (lookup_lt_is_Some_2 _ _ Hi) as [l Hli].
  destruct (Hl i l Hli) as [wlc Hw]. rewrite Hw in Ha. injection Ha as <-.
  apply tier_event_kind.
Qed.

Lemma aux_samples_kind E path f :
  Forall (fun a => atomId a = kVoltageTierStats) (aux_samples E path f).
Proof.
  unfold aux_samples. destruct (f !! path) as [c|]; [|constructor].
  destruct (writable E path); [|constructor].
  apply Forall_map. apply Forall_forall. intros l _. apply tier_event_kind.
Qed.

Lemma aux_atoms_kind E f : Forall (fun a => atomId a = kVoltageTierStats) (aux_atoms E f).
Proof. unfold aux_atoms. cbv zeta. rewrite !Forall_app. auto using aux_samples_kind. Qed.

(** What a drain reports once the throttle has accepted it. *)
Lemma accepted_drain_reports E path w text line ss :
  files w !! path = Some text ->
  getline text = Some (line, ss) ->
  val shouldReportEvent w = true ->
  let w1 := gate_passed E path w in
  let session := drain_session E line w1 in
  let primary := drain_primary_tiers E ss w1 in
  reported (exec (checkAndReport E path) w)
  = reported w ++ session ++ primary ++ aux_atoms E (drain_files E (files w1))
  /\ (length session <= 1)%nat
  /\ (session = [] <-> fst (scan_summary line (tmp (chg_init E))) = None)
  /\ Forall (fun a => atomId a = kChargeStats) session
  /\ tier_samples_of E ss primary.
Proof.
  intros Hf Hg Hacc w1 session primary. subst session primary.
  destruct (drain_outcomes E path w text line ss Hf Hg) as [Ha _].
  specialize (Ha Hacc). fold w1 in Ha.
  rewrite Ha, drain_aux_tiers_atoms.
  split; [reflexivity|]. unfold drain_session at 1 2 3.
  destruct (session_atoms_spec E (drain_files E (files w1) !! kGChargerMetricsPath E)
              line (drain_wline_at E (files w1)) (drain_wline_ac E (files w1))
              (drain_pca_line E (files w1))) as (H1 & H2 & H3).
  split; [exact H1|]. split; [exact H2|]. split; [exact H3|].
  apply drain_primary_tiers_lines.
Qed.

(** C2 (as the code has it): tier lines are reported in the drains whose
    session the throttle accepts.  Such a drain reports, in this order, at
    most one session record, one sample for each line of the primary log that
    scans as a tier line, and one sample for each such line of the thermal,
    the generic-charger and the dual-battery source, a source giving its
    samples only if it can be read and cleared.  When the throttle rejects
    the session, and it does whenever the boot clock reads zero, the drain
    ends at once: nothing is reported and no other source than the primary
    one is touched. *)
Theorem tiers_gated_by_throttle (E : Env) (path : string) (w : World)
    (text line ss : string) :
  files w !! path = Some text ->
  getline text = Some (line, ss) ->
  let w' := exec (checkAndReport E path) w in
  let w1 := gate_passed E path w in
  let session := drain_session E line w1 in
  let primary := drain_primary_tiers E ss w1 in
  (val shouldReportEvent w = true ->
     reported w'
     = reported w ++ session ++ primary ++ aux_atoms E (drain_files E (files w1))
     /\ (length session <= 1)%nat
     /\ Forall (fun a => atomId a = kChargeStats) session
     /\ tier_samples_of E ss primary)
  /\ (val shouldReportEvent w = false ->
        reported w' = reported w
        /\ forall p, p <> path -> files w' !! p = files w !! p)
  /\ (boottime_secs w = 0 -> val shouldReportEvent w = false).
Proof.
  intros Hf Hg w' w1 session primary. subst w' w1 session primary.
  split; [|split].
  - intros Hacc.
    destruct (accepted_drain_reports E path w text line ss Hf Hg Hacc)
      as (Hr & H1 & _ & H3 & H4).
    auto.
  - destruct (drain_outcomes E path w text line ss Hf Hg) as [_ Hr]. exact Hr.
  - intros H0. unfold val. rewrite shouldReportEvent_spec, H0. reflexivity.
Qed.

Lemma tiers_gated_by_throttle_witness :
  let E := Sample.env ["gdbatt"] in
  let text := Sample.summary +:+ Sample.nl +:+ Sample.tier in
  let fs := [("charge", text); ("thermal", Sample.tier); ("gdbatt", Sample.tier)] in
  (let w := Sample.world 100 fs in
   let w1 := gate_passed E "charge" w in
   let session := drain_session E Sample.summary w1 in
   let primary := drain_primary_tiers E Sample.tier w1 in
   reported (exec (checkAndReport E "charge") w)
   = reported w ++ session ++ primary ++ aux_atoms E (drain_files E (files w1))
   /\ (length session <= 1)%nat
   /\ Forall (fun a => atomId a = kChargeStats) session
   /\ tier_samples_of E Sample.tier primary)
  /\ (let w := Sample.world 0 fs in
      reported (exec (checkAndReport E "charge") w) = reported w
      /\ forall p, p <> "charge" ->
           files (exec (checkAndReport E "charge") w) !! p = files w !! p).
Proof.
  split.
  - refine (proj1 (tiers_gated_by_throttle (Sample.env ["gdbatt"]) "charge"
                     (Sample.world 100
                        [("charge", Sample.summary +:+ Sample.nl +:+ Sample.tier);
                         ("thermal", Sample.tier); ("gdbatt", Sample.tier)])
                     (Sample.summary +:+ Sample.nl +:+ Sample.tier)
                     Sample.summary Sample.tier _ _) _);
      vm_compute; reflexivity.
  - refine (proj1 (proj2 (tiers_gated_by_throttle (Sample.env ["gdbatt"]) "charge"
                     (Sample.world 0
                        [("charge", Sample.summary +:+ Sample.nl +:+ Sample.tier);
                         ("thermal", Sample.tier); ("gdbatt", Sample.tier)])
                     (Sample.summary +:+ Sample.nl +:+ Sample.tier)
                     Sample.summary Sample.tier _ _)) _);
      vm_compute; reflexivity.
Defined.

(** C3 (as the code has it): a summary line that matches none of the three
    formats makes [ReportChargeStats] return without reporting anything, so
    the drain reports no session record; the drain does not end there.  When
    the throttle has accepted the drain, it goes on to report one sample for
    each line of the primary log that scans as a tier line and for each such
    line of the tier-only sources that can be read and cleared, and nothing
    but tier samples; when the throttle has rejected it, it reports
    nothing, as for any other summary line. *)
Theorem malformed_summary_line (E : Env) (path : string) (w : World)
    (text line ss : string) :
  files w !! path = Some text ->
  getline text = Some (line, ss) ->
  fst (scan_summary line (tmp (chg_init E))) = None ->
  let w' := exec (checkAndReport E path) w in
  let w1 := gate_passed E path w in
  (forall wline_at wline_ac pca_line w0,
     exec (ReportChargeStats E line wline_at wline_ac pca_line) w0 = w0)
  /\ (val shouldReportEvent w = true ->
        let primary := drain_primary_tiers E ss w1 in
        reported w' = reported w ++ primary ++ aux_atoms E (drain_files E (files w1))
        /\ tier_samples_of E ss primary
        /\ Forall (fun a => atomId a = kVoltageTierStats)
                  (primary ++ aux_atoms E (drain_files E (files w1))))
  /\ (val shouldReportEvent w = false -> reported w' = reported w).
Proof.
  intros Hf Hg Hbad w' w1. subst w' w1. split; [|split].
  - intros wline_at wline_ac pca_line w0.
    rewrite ReportChargeStats_exec, session_atoms_unparsed by exact Hbad.
    apply add_reported_nil.
  - intros Hacc.
    destruct (accepted_drain_reports E path w text line ss Hf Hg Hacc)
      as (Hr & _ & H2 & _ & H4).
    apply H2 in Hbad. rewrite Hbad in Hr.
    split; [exact Hr|]. split; [exact H4|].
    apply Forall_app. split; [apply (tier_samples_kind E ss), H4 | apply aux_atoms_kind].
  - intros Hrej.
    destruct (drain_outcomes E path w text line ss Hf Hg) as [_ Hr].
    apply (Hr Hrej).
Qed.

Lemma malformed_summary_line_witness :
  let E := Sample.env [] in
  let fs := [("charge", "junk" +:+ Sample.nl +:+ Sample.tier); ("thermal", Sample.tier)] in
  (forall wline_at wline_ac pca_line w0,
     exec (ReportChargeStats E "junk" wline_at wline_ac pca_line) w0 = w0)
  /\ (let w := Sample.world 100 fs in
      let w1 := gate_passed E "charge" w in
      let primary := drain_primary_tiers E Sample.tier w1 in
      reported (exec (checkAndReport E "charge") w)
      = reported w ++ primary ++ aux_atoms E (drain_files E (files w1))
      /\ tier_samples_of E Sample.tier primary
      /\ Forall (fun a => atomId a = kVoltageTierStats)
                (primary ++ aux_atoms E (drain_files E (files w1))))
  /\ (let w := Sample.world 0 fs in
      reported (exec (checkAndReport E "charge") w) = reported w).
Proof.
  split; [|split].
  - refine (proj1 (malformed_summary_line (Sample.env []) "charge"
                     (Sample.world 100
                        [("charge", "junk" +:+ Sample.nl +:+ Sample.tier);
                         ("thermal", Sample.tier)])
                     ("junk" +:+ Sample.nl +:+ Sample.tier) "junk" Sample.tier _ _ _));
      vm_compute; reflexivity.
  - refine (proj1 (proj2 (malformed_summary_line (Sample.env []) "charge"
                     (Sample.world 100
                        [("charge", "junk" +:+ Sample.nl +:+ Sample.tier);
                         ("thermal", Sample.tier)])
                     ("junk" +:+ Sample.nl +:+ Sample.tier) "junk" Sample.tier _ _ _)) _);
      vm_compute; reflexivity.
  - refine (proj2 (proj2 (malformed_summary_line (Sample.env []) "charge"
                     (Sample.world 0
                        [("charge", "junk" +:+ Sample.nl +:+ Sample.tier);
                         ("thermal", Sample.tier)])
                     ("junk" +:+ Sample.nl +:+ Sample.tier) "junk" Sample.tier _ _ _)) _);
      vm_compute; reflexivity.
Defined.

(** A drain that finds the primary source holding ["0"] reports no session
    record and no sample of the primary log. *)
Lemma cleared_source_drain E path w :
  files w !! path = Some "0" ->
  reported (exec (checkAndReport E path) w)
  = reported w
      ++ (if val shouldReportEvent w
          then aux_atoms E (drain_files E (files (gate_passed E path w))) else []).
Proof.
  intros Hf.
  assert (Hg : getline "0" = Some ("0", EmptyString)) by reflexivity.
  destruct (val shouldReportEvent w) eqn:Hacc.
  - destruct (accepted_drain_reports E path w "0" "0" EmptyString Hf Hg Hacc)
      as (Hr & _ & Hs & _ & Hp & _).
    rewrite Hr.
    assert (Hbad : fst (scan_summary "0" (tmp (chg_init E))) = None)
      by (vm_compute; reflexivity).
    apply Hs in Hbad. rewrite Hbad.
    change (length (tier_lines EmptyString)) with 0%nat in Hp.
    destruct (drain_primary_tiers E EmptyString (gate_passed E path w));
      [reflexivity | discriminate Hp].
  - destruct (drain_outcomes E path w "0" "0" EmptyString Hf Hg) as [_ Hr].
    destruct (Hr Hacc) as [-> _]. symmetry. apply app_nil_r.
Qed.

(** C9 (as the code has it): in a drain that has read a first line from the
    primary source, the clear to ["0"] is attempted before the throttle is
    consulted, whatever the throttle then says, and a failed clear is logged
    and does not stop the drain.  When the clear succeeds, a session the throttle rejects
    is lost: nothing of it is reported, the source holds ["0"], and a later
    drain that finds it so reports no session record and no sample of the
    primary log.  When the clear fails, a rejected drain changes nothing:
    the text stays in the source, and a later drain that the throttle accepts
    reports its session record and its tier samples. *)
Theorem cleared_before_throttle (E : Env) (path : string) (w : World)
    (text line ss : string) :
  files w !! path = Some text ->
  getline text = Some (line, ss) ->
  let w' := exec (checkAndReport E path) w in
  (val shouldReportEvent w = true ->
     w' = exec (report_all E line ss)
            (clear_source E path (set_log_event_time (boottime_secs w) w)))
  /\ (val shouldReportEvent w = false ->
        w' = clear_source E path w /\ reported w' = reported w)
  /\ (writable E path = true ->
        files (clear_source E path w) !! path = Some "0"
        /\ forall w2,
             files w2 !! path = Some "0" ->
             reported (exec (checkAndReport E path) w2)
             = reported w2
                 ++ (if val shouldReportEvent w2
                     then aux_atoms E (drain_files E (files (gate_passed E path w2)))
                     else []))
  /\ (writable E path = false ->
        clear_source E path w = w
        /\ In (ALOGE_msg "Couldn't clear %s - %s" [AStr path])
              (logged (checkAndReport E path) w)
        /\ forall now,
             val shouldReportEvent w = false ->
             val shouldReportEvent (set_boottime now w') = true ->
             let w2 := set_boottime now w' in
             let w3 := gate_passed E path w2 in
             let session := drain_session E line w3 in
             let primary := drain_primary_tiers E ss w3 in
             files w2 !! path = Some text
             /\ reported (exec (checkAndReport E path) w2)
                = reported w ++ session ++ primary
                    ++ aux_atoms E (drain_files E (files w3))
             /\ (session = [] <-> fst (scan_summary line (tmp (chg_init E))) = None)
             /\ tier_samples_of E ss primary).
Proof.
  intros Hf Hg w'. subst w'.
  split; [|split; [|split]].
  - intros Hacc. apply (checkAndReport_accepted E path w text line ss Hf Hg Hacc).
  - intros Hrej. rewrite (checkAndReport_rejected E path w text line ss Hf Hg Hrej).
    split; [reflexivity|]. unfold clear_source. destruct (writable E path); reflexivity.
  - intros Hw. split.
    + unfold clear_source. rewrite Hw. cbn [files set_files]. apply lookup_insert_eq.
    + intros w2 Hf2. apply cleared_source_drain, Hf2.
  - intros Hw. split; [apply clear_source_unwritable, Hw|].
    split; [apply (checkAndReport_logs_failed_clear E path w text line ss Hf Hg Hw)|].
    intros now Hrej Hacc w2 w3 session primary.
    assert (Hw' : exec (checkAndReport E path) w = w).
    { rewrite (checkAndReport_rejected E path w text line ss Hf Hg Hrej).
      apply clear_source_unwritable, Hw. }
    subst session primary w3 w2. rewrite Hw' in *.
    split; [exact Hf|].
    destruct (accepted_drain_reports E path (set_boottime now w) text line ss Hf Hg Hacc)
      as (Hr & _ & Hs & _ & Hp).
    split; [exact Hr|]. split; [exact Hs | exact Hp].
Qed.

Lemma cleared_before_throttle_witness :
  let text := Sample.summary +:+ Sample.nl +:+ Sample.tier in
  (let E := Sample.env [] in
   let w := set_log_event_time 95 (Sample.world 100 [("charge", text)]) in
   let w' := exec (checkAndReport E "charge") w in
   (w' = clear_source E "charge" w /\ reported w' = reported w)
   /\ files (clear_source E "charge" w) !! "charge" = Some "0"
   /\ forall w2,
        files w2 !! "charge" = Some "0" ->
        reported (exec (checkAndReport E "charge") w2)
        = reported w2
            ++ (if val shouldReportEvent w2
                then aux_atoms E (drain_files E (files (gate_passed E "charge" w2)))
                else []))
  /\ (let E := Sample.env ["charge"] in
      let w := set_log_event_time 95 (Sample.world 100 [("charge", text)]) in
      let w' := exec (checkAndReport E "charge") w in
      let w2 := set_boottime 200 w' in
      let w3 := gate_passed E "charge" w2 in
      let session := drain_session E Sample.summary w3 in
      let primary := drain_primary_tiers E Sample.tier w3 in
      clear_source E "charge" w = w
      /\ In (ALOGE_msg "Couldn't clear %s - %s" [AStr "charge"])
            (logged (checkAndReport E "charge") w)
      /\ files w2 !! "charge" = Some text
      /\ reported (exec (checkAndReport E "charge") w2)
         = reported w ++ session ++ primary ++ aux_atoms E (drain_files E (files w3))
      /\ (session = []
          <-> fst (scan_summary Sample.summary (tmp (chg_init E))) = None)
      /\ tier_samples_of E Sample.tier primary).
Proof.
  split.
  - destruct (cleared_before_throttle (Sample.env []) "charge"
                (set_log_event_time 95
                   (Sample.world 100
                      [("charge", Sample.summary +:+ Sample.nl +:+ Sample.tier)]))
                (Sample.summary +:+ Sample.nl +:+ Sample.tier)
                Sample.summary Sample.tier)
      as (_ & Hrej & Hw & _); [vm_compute; reflexivity ..|].
    split; [apply Hrej; vm_compute; reflexivity|].
    apply Hw. vm_compute; reflexivity.
  - destruct (cleared_before_throttle (Sample.env ["charge"]) "charge"
                (set_log_event_time 95
                   (Sample.world 100
                      [("charge", Sample.summary +:+ Sample.nl +:+ Sample.tier)]))
                (Sample.summary +:+ Sample.nl +:+ Sample.tier)
                Sample.summary Sample.tier)
      as (_ & _ & _ & Hn); [vm_compute; reflexivity ..|].
    destruct Hn as (Hc & Hlog & Hlater); [vm_compute; reflexivity|].
    split; [exact Hc|]. split; [exact Hlog|].
    apply (Hlater 200); vm_compute; reflexivity.
Defined.

(** C9 as stated fails: the primary source cannot be cleared and the
    throttle rejects the session; the text then stays in the source, and the
    next drain that the throttle accepts reports the session record and the
    tier sample of the session that was rejected. *)
Lemma rejected_session_reported_later :
  let E := Sample.env ["charge"] in
  let text := Sample.summary +:+ Sample.nl +:+ Sample.tier in
  let w := set_log_event_time 95 (Sample.world 100 [("charge", text)]) in
  let w' := exec (checkAndReport E "charge") w in
  val shouldReportEvent w = false
  /\ reported w' = []
  /\ files w' !! "charge" = Some text
  /\ exists a,
       reported (exec (checkAndReport E "charge") (set_boottime 200 w'))
       = [a; tier_event E Sample.tier None]
       /\ atomId a = kChargeStats.
Proof.
  split; [vm_compute; reflexivity|]. split; [vm_compute; reflexivity|].
  split; [vm_compute; reflexivity|].
  eexists. vm_compute. split; reflexivity.
Qed.
